(** * RTCSession: a shallow embedding of lib/RTCSession.js

    The session object of the SIP user agent is embedded as a record
    ([RTCSession]) that lives in a [World]: the session itself, the pending
    JavaScript timers, the continuations of the initial request still to
    run, and the trace of everything the session did to its collaborators
    (events emitted, replies and requests handed to the transaction layer
    and to the dialog, calls into the UA).

    Every method of the class is a computation in a small state-and-exception
    monad [M].  A JavaScript [throw] keeps the mutations made before it, so
    [M] returns the world reached in both outcomes.

    Collaborators that live in other files of the library (Constants, Timers,
    Utils, Dialog, the UA, the DTMF and INFO helpers) are the fields of
    [Externals]; the development is parametric in them.

    How the asynchronous parts are embedded:
    - [setTimeout] adds a pending timer under a fresh handle, with the
      delay the code asks for, the function and the variables it closes
      over; [host_delay] is the time the host waits for such a delay, which
      is the delay itself up to 2^31 - 1 milliseconds only; [fire] lets a
      timer expire;
    - the chain of [_sendInitialRequest] runs one continuation per
      [next_tick];
    - a continuation chained on [_connectionPromiseQueue] is recorded in
      that field with its variables; when it runs is up to the peer
      connection, which this file does not contain, so [step] does not run
      it.  The functions [sendAnswer] that such continuations call are
      embedded as [reinvite_sendAnswer] and [update_sendAnswer]; the
      handlers chained after a 2xx with SDP and after an ACK with the late
      answer are embedded as [accept_answer_run] and
      [ack_setRemoteDescription_run], with what the peer connection
      answered as parameters;
    - [emit] records the event; listeners observe and do not call back into
      the session, except through the [reject] handle that the events
      [reinvite] and [update] carry.

    Where the embedding is coarser than JavaScript:
    - numbers are integers ([Z]); they are printed with all their digits,
      as JavaScript prints an integer below 10^21;
    - the early dialogs are a finite map; [_close] goes through them in the
      order of their keys, the source in the order they were stored in. *)

From stdpp Require Import base option strings list gmap pretty.
From Stdlib Require Import ZArith Lia Ascii.

Local Open Scope Z_scope.

#[local] Set Warnings "-clear-no-such-hyp".

(** ** Constants *)

(** The [C] object of the module: the session states and their numbers. *)
Inductive Status :=
| STATUS_NULL
| STATUS_INVITE_SENT
| STATUS_1XX_RECEIVED
| STATUS_INVITE_RECEIVED
| STATUS_WAITING_FOR_ANSWER
| STATUS_ANSWERED
| STATUS_WAITING_FOR_ACK
| STATUS_CANCELED
| STATUS_TERMINATED
| STATUS_CONFIRMED.

#[global] Instance Status_eq_dec : EqDecision Status.
Proof. solve_decision. Defined.

Definition C (s : Status) : Z :=
  match s with
  | STATUS_NULL => 0
  | STATUS_INVITE_SENT => 1
  | STATUS_1XX_RECEIVED => 2
  | STATUS_INVITE_RECEIVED => 3
  | STATUS_WAITING_FOR_ANSWER => 4
  | STATUS_ANSWERED => 5
  | STATUS_WAITING_FOR_ACK => 6
  | STATUS_CANCELED => 7
  | STATUS_TERMINATED => 8
  | STATUS_CONFIRMED => 9
  end.

(** The names the code takes from [JsSIP_C]: SIP methods and the causes of
    [ended] and [failed]. *)
Module JsSIP_C.

Inductive Method :=
| CANCEL | ACK | BYE | INVITE | INFO | UPDATE
| OTHER (name : string).

#[global] Instance Method_eq_dec : EqDecision Method.
Proof. solve_decision. Defined.

Module causes.

Inductive Cause :=
| CONNECTION_ERROR | REQUEST_TIMEOUT | SIP_FAILURE_CODE | INTERNAL_ERROR
| BUSY | REJECTED | REDIRECTED | UNAVAILABLE | NOT_FOUND
| ADDRESS_INCOMPLETE | INCOMPATIBLE_SDP | MISSING_SDP
| AUTHENTICATION_ERROR
| BYE | WEBRTC_ERROR | CANCELED | NO_ANSWER | EXPIRES | NO_ACK
| DIALOG_ERROR | USER_DENIED_MEDIA_ACCESS | BAD_MEDIA_DESCRIPTION
| RTP_TIMEOUT
| CUSTOM (text : string).

#[global] Instance Cause_eq_dec : EqDecision Cause.
Proof. solve_decision. Defined.

End causes.

End JsSIP_C.

Import JsSIP_C.
Abbreviation Cause := causes.Cause.

(** ** SIP messages and dialogs *)

(** The header fields of a message that the session reads. *)
Record SIPMessage := {
  call_id : string;
  from_tag : option string;
  to_tag : option string;
  body : option string;
  content_type : option string;
  contact : option string;
  session_expires : option Z;
  session_expires_refresher : option string
}.

Record IncomingRequest := {
  method : Method;
  request_message :> SIPMessage
}.

Record IncomingResponse := {
  status_code : Z;
  response_message :> SIPMessage
}.

(** What [new SIPMessage.InitialOutgoingInviteRequest] is built from, and the
    body that [_sendInitialRequest] stores in it. *)
Record OutgoingRequest := {
  o_target : string;
  o_call_id : string;
  o_from_tag : string;
  o_anonymous : bool;
  o_extraHeaders : list string;
  o_body : option string
}.

Inductive InitialRequest :=
| OutgoingInvite (r : OutgoingRequest)
| IncomingInvite (r : IncomingRequest).

Inductive AnyMessage :=
| MsgRequest (r : IncomingRequest)
| MsgResponse (r : IncomingResponse).

Inductive DialogType := UAS | UAC.
Inductive DialogState := STATUS_EARLY | STATUS_DIALOG_CONFIRMED.

Record DialogId := {
  id_call_id : string;
  local_tag : option string;
  remote_tag : option string
}.

#[global] Instance DialogId_eq_dec : EqDecision DialogId.
Proof. solve_decision. Defined.

Record Dialog := {
  id : DialogId;
  dialog_state : DialogState;
  uac_pending_reply : bool;
  uas_pending_reply : bool
}.

(** JavaScript truthiness of the values the code tests. *)
Definition truthy_string (s : option string) : bool :=
  match s with
  | Some s => negb (String.eqb s "")
  | None => false
  end.

Definition truthy_number (n : option Z) : bool :=
  match n with
  | Some n => negb (n =? 0)
  | None => false
  end.

(** [a || b] on strings. *)
Definition or_string (a : option string) (b : option string) : option string :=
  if truthy_string a then a else b.

(** String concatenation in a template literal: [undefined] prints itself. *)
Definition show (s : option string) : string :=
  match s with
  | Some s => s
  | None => "undefined"
  end.

Definition dquote : string := String (Ascii.ascii_of_nat 34) EmptyString.

(** ** Continuations *)

(** The [eventHandlers] that [_sendReinvite] and [_sendUpdate] are given:
    none (a session refresh), or those of [renegotiate], which close over the
    optional [done] callback. *)
Inductive OfferHandlers :=
| no_eventHandlers
| renegotiate_eventHandlers (done : bool).

(** The promise continuations the session chains, with the variables they
    close over.  The first two are the chain of [_sendInitialRequest]; the
    others are chained on [_connectionPromiseQueue] and wait there for the
    peer connection. *)
Inductive Continuation :=
| initialRequest_connecting (sdp : option string)
| initialRequest_sending (sdp : option string)
| ack_setRemoteDescription (request : IncomingRequest) (answer : string)
| reinvite_createOffer (request : IncomingRequest)
| reinvite_processOffer (request : IncomingRequest) (offer : string)
| update_processOffer (request : IncomingRequest) (offer : string)
| progress_setRemoteDescription (answer : string)
| accept_setRemoteDescription (response : IncomingResponse)
                              (answer : string)
| sendReinvite_createOffer (extraHeaders : list string)
                           (rtcOfferConstraints : option string)
                           (eventHandlers : OfferHandlers)
| sendUpdate_createOffer (extraHeaders : list string)
                         (rtcOfferConstraints : option string)
                         (eventHandlers : OfferHandlers).

(** ** The session object *)

Inductive Originator := local | remote.
Inductive Direction := outgoing | incoming.
Inductive SdpType := offer | answer.

Record Timers_ := {
  ackTimer : option nat;
  expiresTimer : option nat;
  invite2xxTimer : option nat;
  userNoAnswerTimer : option nat
}.

Record SessionTimers := {
  enabled : bool;
  refreshMethod : Method;
  defaultExpires : Z;
  currentExpires : option Z;
  running : bool;
  refresher : bool;
  timer : option nat
}.

Definition Data := list (string * string).

Record RTCSession := {
  _id : option string;
  _status : Status;
  _dialog : option Dialog;
  _earlyDialogs : gmap string Dialog;
  _contact : option string;
  _from_tag : option string;
  _to_tag : option string;
  _request : option InitialRequest;
  _is_canceled : bool;
  _cancel_reason : option string;
  _is_confirmed : bool;
  _late_sdp : bool;
  _rtcOfferConstraints : option string;
  _rtcAnswerConstraints : option string;
  _rtcReady : bool;
  _timers : Timers_;
  _direction : option Direction;
  _local_identity : option string;
  _remote_identity : option string;
  _start_time : option Z;
  _end_time : option Z;
  _tones : option string;
  _sessionTimers : SessionTimers;
  _data : Data;
  _listeners : list string;
  _connection : option string;
  _connectionPromiseQueue : list Continuation
}.

(** Field updates, one per assignment form the code uses. *)
Definition set_id v (s : RTCSession) : RTCSession :=
  {| _id := v; _status := _status s; _dialog := _dialog s;
     _earlyDialogs := _earlyDialogs s; _contact := _contact s;
     _from_tag := _from_tag s; _to_tag := _to_tag s; _request := _request s;
     _is_canceled := _is_canceled s; _cancel_reason := _cancel_reason s;
     _is_confirmed := _is_confirmed s; _late_sdp := _late_sdp s;
     _rtcOfferConstraints := _rtcOfferConstraints s;
     _rtcAnswerConstraints := _rtcAnswerConstraints s;
     _rtcReady := _rtcReady s; _timers := _timers s;
     _direction := _direction s; _local_identity := _local_identity s;
     _remote_identity := _remote_identity s; _start_time := _start_time s;
     _end_time := _end_time s; _tones := _tones s;
     _sessionTimers := _sessionTimers s; _data := _data s;
     _listeners := _listeners s;
     _connection := _connection s;
     _connectionPromiseQueue := _connectionPromiseQueue s |}.

Definition set_status v (s : RTCSession) : RTCSession :=
  {| _id := _id s; _status := v; _dialog := _dialog s;
     _earlyDialogs := _earlyDialogs s; _contact := _contact s;
     _from_tag := _from_tag s; _to_tag := _to_tag s; _request := _request s;
     _is_canceled := _is_canceled s; _cancel_reason := _cancel_reason s;
     _is_confirmed := _is_confirmed s; _late_sdp := _late_sdp s;
     _rtcOfferConstraints := _rtcOfferConstraints s;
     _rtcAnswerConstraints := _rtcAnswerConstraints s;
     _rtcReady := _rtcReady s; _timers := _timers s;
     _direction := _direction s; _local_identity := _local_identity s;
     _remote_identity := _remote_identity s; _start_time := _start_time s;
     _end_time := _end_time s; _tones := _tones s;
     _sessionTimers := _sessionTimers s; _data := _data s;
     _listeners := _listeners s;
     _connection := _connection s;
     _connectionPromiseQueue := _connectionPromiseQueue s |}.

Definition set_dialog v (s : RTCSession) : RTCSession :=
  {| _id := _id s; _status := _status s; _dialog := v;
     _earlyDialogs := _earlyDialogs s; _contact := _contact s;
     _from_tag := _from_tag s; _to_tag := _to_tag s; _request := _request s;
     _is_canceled := _is_canceled s; _cancel_reason := _cancel_reason s;
     _is_confirmed := _is_confirmed s; _late_sdp := _late_sdp s;
     _rtcOfferConstraints := _rtcOfferConstraints s;
     _rtcAnswerConstraints := _rtcAnswerConstraints s;
     _rtcReady := _rtcReady s; _timers := _timers s;
     _direction := _direction s; _local_identity := _local_identity s;
     _remote_identity := _remote_identity s; _start_time := _start_time s;
     _end_time := _end_time s; _tones := _tones s;
     _sessionTimers := _sessionTimers s; _data := _data s;
     _listeners := _listeners s;
     _connection := _connection s;
     _connectionPromiseQueue := _connectionPromiseQueue s |}.

Definition set_earlyDialogs v (s : RTCSession) : RTCSession :=
  {| _id := _id s; _status := _status s; _dialog := _dialog s;
     _earlyDialogs := v; _contact := _contact s;
     _from_tag := _from_tag s; _to_tag := _to_tag s; _request := _request s;
     _is_canceled := _is_canceled s; _cancel_reason := _cancel_reason s;
     _is_confirmed := _is_confirmed s; _late_sdp := _late_sdp s;
     _rtcOfferConstraints := _rtcOfferConstraints s;
     _rtcAnswerConstraints := _rtcAnswerConstraints s;
     _rtcReady := _rtcReady s; _timers := _timers s;
     _direction := _direction s; _local_identity := _local_identity s;
     _remote_identity := _remote_identity s; _start_time := _start_time s;
     _end_time := _end_time s; _tones := _tones s;
     _sessionTimers := _sessionTimers s; _data := _data s;
     _listeners := _listeners s;
     _connection := _connection s;
     _connectionPromiseQueue := _connectionPromiseQueue s |}.

Definition set_contact v (s : RTCSession) : RTCSession :=
  {| _id := _id s; _status := _status s; _dialog := _dialog s;
     _earlyDialogs := _earlyDialogs s; _contact := v;
     _from_tag := _from_tag s; _to_tag := _to_tag s; _request := _request s;
     _is_canceled := _is_canceled s; _cancel_reason := _cancel_reason s;
     _is_confirmed := _is_confirmed s; _late_sdp := _late_sdp s;
     _rtcOfferConstraints := _rtcOfferConstraints s;
     _rtcAnswerConstraints := _rtcAnswerConstraints s;
     _rtcReady := _rtcReady s; _timers := _timers s;
     _direction := _direction s; _local_identity := _local_identity s;
     _remote_identity := _remote_identity s; _start_time := _start_time s;
     _end_time := _end_time s; _tones := _tones s;
     _sessionTimers := _sessionTimers s; _data := _data s;
     _listeners := _listeners s;
     _connection := _connection s;
     _connectionPromiseQueue := _connectionPromiseQueue s |}.

Definition set_from_tag v (s : RTCSession) : RTCSession :=
  {| _id := _id s; _status := _status s; _dialog := _dialog s;
     _earlyDialogs := _earlyDialogs s; _contact := _contact s;
     _from_tag := v; _to_tag := _to_tag s; _request := _request s;
     _is_canceled := _is_canceled s; _cancel_reason := _cancel_reason s;
     _is_confirmed := _is_confirmed s; _late_sdp := _late_sdp s;
     _rtcOfferConstraints := _rtcOfferConstraints s;
     _rtcAnswerConstraints := _rtcAnswerConstraints s;
     _rtcReady := _rtcReady s; _timers := _timers s;
     _direction := _direction s; _local_identity := _local_identity s;
     _remote_identity := _remote_identity s; _start_time := _start_time s;
     _end_time := _end_time s; _tones := _tones s;
     _sessionTimers := _sessionTimers s; _data := _data s;
     _listeners := _listeners s;
     _connection := _connection s;
     _connectionPromiseQueue := _connectionPromiseQueue s |}.

Definition set_to_tag v (s : RTCSession) : RTCSession :=
  {| _id := _id s; _status := _status s; _dialog := _dialog s;
     _earlyDialogs := _earlyDialogs s; _contact := _contact s;
     _from_tag := _from_tag s; _to_tag := v; _request := _request s;
     _is_canceled := _is_canceled s; _cancel_reason := _cancel_reason s;
     _is_confirmed := _is_confirmed s; _late_sdp := _late_sdp s;
     _rtcOfferConstraints := _rtcOfferConstraints s;
     _rtcAnswerConstraints := _rtcAnswerConstraints s;
     _rtcReady := _rtcReady s; _timers := _timers s;
     _direction := _direction s; _local_identity := _local_identity s;
     _remote_identity := _remote_identity s; _start_time := _start_time s;
     _end_time := _end_time s; _tones := _tones s;
     _sessionTimers := _sessionTimers s; _data := _data s;
     _listeners := _listeners s;
     _connection := _connection s;
     _connectionPromiseQueue := _connectionPromiseQueue s |}.

Definition set_request v (s : RTCSession) : RTCSession :=
  {| _id := _id s; _status := _status s; _dialog := _dialog s;
     _earlyDialogs := _earlyDialogs s; _contact := _contact s;
     _from_tag := _from_tag s; _to_tag := _to_tag s; _request := v;
     _is_canceled := _is_canceled s; _cancel_reason := _cancel_reason s;
     _is_confirmed := _is_confirmed s; _late_sdp := _late_sdp s;
     _rtcOfferConstraints := _rtcOfferConstraints s;
     _rtcAnswerConstraints := _rtcAnswerConstraints s;
     _rtcReady := _rtcReady s; _timers := _timers s;
     _direction := _direction s; _local_identity := _local_identity s;
     _remote_identity := _remote_identity s; _start_time := _start_time s;
     _end_time := _end_time s; _tones := _tones s;
     _sessionTimers := _sessionTimers s; _data := _data s;
     _listeners := _listeners s;
     _connection := _connection s;
     _connectionPromiseQueue := _connectionPromiseQueue s |}.

Definition set_is_canceled v (s : RTCSession) : RTCSession :=
  {| _id := _id s; _status := _status s; _dialog := _dialog s;
     _earlyDialogs := _earlyDialogs s; _contact := _contact s;
     _from_tag := _from_tag s; _to_tag := _to_tag s; _request := _request s;
     _is_canceled := v; _cancel_reason := _cancel_reason s;
     _is_confirmed := _is_confirmed s; _late_sdp := _late_sdp s;
     _rtcOfferConstraints := _rtcOfferConstraints s;
     _rtcAnswerConstraints := _rtcAnswerConstraints s;
     _rtcReady := _rtcReady s; _timers := _timers s;
     _direction := _direction s; _local_identity := _local_identity s;
     _remote_identity := _remote_identity s; _start_time := _start_time s;
     _end_time := _end_time s; _tones := _tones s;
     _sessionTimers := _sessionTimers s; _data := _data s;
     _listeners := _listeners s;
     _connection := _connection s;
     _connectionPromiseQueue := _connectionPromiseQueue s |}.

Definition set_cancel_reason v (s : RTCSession) : RTCSession :=
  {| _id := _id s; _status := _status s; _dialog := _dialog s;
     _earlyDialogs := _earlyDialogs s; _contact := _contact s;
     _from_tag := _from_tag s; _to_tag := _to_tag s; _request := _request s;
     _is_canceled := _is_canceled s; _cancel_reason := v;
     _is_confirmed := _is_confirmed s; _late_sdp := _late_sdp s;
     _rtcOfferConstraints := _rtcOfferConstraints s;
     _rtcAnswerConstraints := _rtcAnswerConstraints s;
     _rtcReady := _rtcReady s; _timers := _timers s;
     _direction := _direction s; _local_identity := _local_identity s;
     _remote_identity := _remote_identity s; _start_time := _start_time s;
     _end_time := _end_time s; _tones := _tones s;
     _sessionTimers := _sessionTimers s; _data := _data s;
     _listeners := _listeners s;
     _connection := _connection s;
     _connectionPromiseQueue := _connectionPromiseQueue s |}.

Definition set_is_confirmed v (s : RTCSession) : RTCSession :=
  {| _id := _id s; _status := _status s; _dialog := _dialog s;
     _earlyDialogs := _earlyDialogs s; _contact := _contact s;
     _from_tag := _from_tag s; _to_tag := _to_tag s; _request := _request s;
     _is_canceled := _is_canceled s; _cancel_reason := _cancel_reason s;
     _is_confirmed := v; _late_sdp := _late_sdp s;
     _rtcOfferConstraints := _rtcOfferConstraints s;
     _rtcAnswerConstraints := _rtcAnswerConstraints s;
     _rtcReady := _rtcReady s; _timers := _timers s;
     _direction := _direction s; _local_identity := _local_identity s;
     _remote_identity := _remote_identity s; _start_time := _start_time s;
     _end_time := _end_time s; _tones := _tones s;
     _sessionTimers := _sessionTimers s; _data := _data s;
     _listeners := _listeners s;
     _connection := _connection s;
     _connectionPromiseQueue := _connectionPromiseQueue s |}.

Definition set_late_sdp v (s : RTCSession) : RTCSession :=
  {| _id := _id s; _status := _status s; _dialog := _dialog s;
     _earlyDialogs := _earlyDialogs s; _contact := _contact s;
     _from_tag := _from_tag s; _to_tag := _to_tag s; _request := _request s;
     _is_canceled := _is_canceled s; _cancel_reason := _cancel_reason s;
     _is_confirmed := _is_confirmed s; _late_sdp := v;
     _rtcOfferConstraints := _rtcOfferConstraints s;
     _rtcAnswerConstraints := _rtcAnswerConstraints s;
     _rtcReady := _rtcReady s; _timers := _timers s;
     _direction := _direction s; _local_identity := _local_identity s;
     _remote_identity := _remote_identity s; _start_time := _start_time s;
     _end_time := _end_time s; _tones := _tones s;
     _sessionTimers := _sessionTimers s; _data := _data s;
     _listeners := _listeners s;
     _connection := _connection s;
     _connectionPromiseQueue := _connectionPromiseQueue s |}.

Definition set_rtcReady v (s : RTCSession) : RTCSession :=
  {| _id := _id s; _status := _status s; _dialog := _dialog s;
     _earlyDialogs := _earlyDialogs s; _contact := _contact s;
     _from_tag := _from_tag s; _to_tag := _to_tag s; _request := _request s;
     _is_canceled := _is_canceled s; _cancel_reason := _cancel_reason s;
     _is_confirmed := _is_confirmed s; _late_sdp := _late_sdp s;
     _rtcOfferConstraints := _rtcOfferConstraints s;
     _rtcAnswerConstraints := _rtcAnswerConstraints s;
     _rtcReady := v; _timers := _timers s;
     _direction := _direction s; _local_identity := _local_identity s;
     _remote_identity := _remote_identity s; _start_time := _start_time s;
     _end_time := _end_time s; _tones := _tones s;
     _sessionTimers := _sessionTimers s; _data := _data s;
     _listeners := _listeners s;
     _connection := _connection s;
     _connectionPromiseQueue := _connectionPromiseQueue s |}.

Definition set_timers v (s : RTCSession) : RTCSession :=
  {| _id := _id s; _status := _status s; _dialog := _dialog s;
     _earlyDialogs := _earlyDialogs s; _contact := _contact s;
     _from_tag := _from_tag s; _to_tag := _to_tag s; _request := _request s;
     _is_canceled := _is_canceled s; _cancel_reason := _cancel_reason s;
     _is_confirmed := _is_confirmed s; _late_sdp := _late_sdp s;
     _rtcOfferConstraints := _rtcOfferConstraints s;
     _rtcAnswerConstraints := _rtcAnswerConstraints s;
     _rtcReady := _rtcReady s; _timers := v;
     _direction := _direction s; _local_identity := _local_identity s;
     _remote_identity := _remote_identity s; _start_time := _start_time s;
     _end_time := _end_time s; _tones := _tones s;
     _sessionTimers := _sessionTimers s; _data := _data s;
     _listeners := _listeners s;
     _connection := _connection s;
     _connectionPromiseQueue := _connectionPromiseQueue s |}.

Definition set_identity dir loc rem (s : RTCSession) : RTCSession :=
  {| _id := _id s; _status := _status s; _dialog := _dialog s;
     _earlyDialogs := _earlyDialogs s; _contact := _contact s;
     _from_tag := _from_tag s; _to_tag := _to_tag s; _request := _request s;
     _is_canceled := _is_canceled s; _cancel_reason := _cancel_reason s;
     _is_confirmed := _is_confirmed s; _late_sdp := _late_sdp s;
     _rtcOfferConstraints := _rtcOfferConstraints s;
     _rtcAnswerConstraints := _rtcAnswerConstraints s;
     _rtcReady := _rtcReady s; _timers := _timers s;
     _direction := dir; _local_identity := loc;
     _remote_identity := rem; _start_time := _start_time s;
     _end_time := _end_time s; _tones := _tones s;
     _sessionTimers := _sessionTimers s; _data := _data s;
     _listeners := _listeners s;
     _connection := _connection s;
     _connectionPromiseQueue := _connectionPromiseQueue s |}.

Definition set_start_time v (s : RTCSession) : RTCSession :=
  {| _id := _id s; _status := _status s; _dialog := _dialog s;
     _earlyDialogs := _earlyDialogs s; _contact := _contact s;
     _from_tag := _from_tag s; _to_tag := _to_tag s; _request := _request s;
     _is_canceled := _is_canceled s; _cancel_reason := _cancel_reason s;
     _is_confirmed := _is_confirmed s; _late_sdp := _late_sdp s;
     _rtcOfferConstraints := _rtcOfferConstraints s;
     _rtcAnswerConstraints := _rtcAnswerConstraints s;
     _rtcReady := _rtcReady s; _timers := _timers s;
     _direction := _direction s; _local_identity := _local_identity s;
     _remote_identity := _remote_identity s; _start_time := v;
     _end_time := _end_time s; _tones := _tones s;
     _sessionTimers := _sessionTimers s; _data := _data s;
     _listeners := _listeners s;
     _connection := _connection s;
     _connectionPromiseQueue := _connectionPromiseQueue s |}.

Definition set_end_time v (s : RTCSession) : RTCSession :=
  {| _id := _id s; _status := _status s; _dialog := _dialog s;
     _earlyDialogs := _earlyDialogs s; _contact := _contact s;
     _from_tag := _from_tag s; _to_tag := _to_tag s; _request := _request s;
     _is_canceled := _is_canceled s; _cancel_reason := _cancel_reason s;
     _is_confirmed := _is_confirmed s; _late_sdp := _late_sdp s;
     _rtcOfferConstraints := _rtcOfferConstraints s;
     _rtcAnswerConstraints := _rtcAnswerConstraints s;
     _rtcReady := _rtcReady s; _timers := _timers s;
     _direction := _direction s; _local_identity := _local_identity s;
     _remote_identity := _remote_identity s; _start_time := _start_time s;
     _end_time := v; _tones := _tones s;
     _sessionTimers := _sessionTimers s; _data := _data s;
     _listeners := _listeners s;
     _connection := _connection s;
     _connectionPromiseQueue := _connectionPromiseQueue s |}.

Definition set_tones v (s : RTCSession) : RTCSession :=
  {| _id := _id s; _status := _status s; _dialog := _dialog s;
     _earlyDialogs := _earlyDialogs s; _contact := _contact s;
     _from_tag := _from_tag s; _to_tag := _to_tag s; _request := _request s;
     _is_canceled := _is_canceled s; _cancel_reason := _cancel_reason s;
     _is_confirmed := _is_confirmed s; _late_sdp := _late_sdp s;
     _rtcOfferConstraints := _rtcOfferConstraints s;
     _rtcAnswerConstraints := _rtcAnswerConstraints s;
     _rtcReady := _rtcReady s; _timers := _timers s;
     _direction := _direction s; _local_identity := _local_identity s;
     _remote_identity := _remote_identity s; _start_time := _start_time s;
     _end_time := _end_time s; _tones := v;
     _sessionTimers := _sessionTimers s; _data := _data s;
     _listeners := _listeners s;
     _connection := _connection s;
     _connectionPromiseQueue := _connectionPromiseQueue s |}.

Definition set_sessionTimers v (s : RTCSession) : RTCSession :=
  {| _id := _id s; _status := _status s; _dialog := _dialog s;
     _earlyDialogs := _earlyDialogs s; _contact := _contact s;
     _from_tag := _from_tag s; _to_tag := _to_tag s; _request := _request s;
     _is_canceled := _is_canceled s; _cancel_reason := _cancel_reason s;
     _is_confirmed := _is_confirmed s; _late_sdp := _late_sdp s;
     _rtcOfferConstraints := _rtcOfferConstraints s;
     _rtcAnswerConstraints := _rtcAnswerConstraints s;
     _rtcReady := _rtcReady s; _timers := _timers s;
     _direction := _direction s; _local_identity := _local_identity s;
     _remote_identity := _remote_identity s; _start_time := _start_time s;
     _end_time := _end_time s; _tones := _tones s;
     _sessionTimers := v; _data := _data s;
     _listeners := _listeners s;
     _connection := _connection s;
     _connectionPromiseQueue := _connectionPromiseQueue s |}.

Definition set_data v (s : RTCSession) : RTCSession :=
  {| _id := _id s; _status := _status s; _dialog := _dialog s;
     _earlyDialogs := _earlyDialogs s; _contact := _contact s;
     _from_tag := _from_tag s; _to_tag := _to_tag s; _request := _request s;
     _is_canceled := _is_canceled s; _cancel_reason := _cancel_reason s;
     _is_confirmed := _is_confirmed s; _late_sdp := _late_sdp s;
     _rtcOfferConstraints := _rtcOfferConstraints s;
     _rtcAnswerConstraints := _rtcAnswerConstraints s;
     _rtcReady := _rtcReady s; _timers := _timers s;
     _direction := _direction s; _local_identity := _local_identity s;
     _remote_identity := _remote_identity s; _start_time := _start_time s;
     _end_time := _end_time s; _tones := _tones s;
     _sessionTimers := _sessionTimers s; _data := v;
     _listeners := _listeners s;
     _connection := _connection s;
     _connectionPromiseQueue := _connectionPromiseQueue s |}.

Definition set_listeners v (s : RTCSession) : RTCSession :=
  {| _id := _id s; _status := _status s; _dialog := _dialog s;
     _earlyDialogs := _earlyDialogs s; _contact := _contact s;
     _from_tag := _from_tag s; _to_tag := _to_tag s; _request := _request s;
     _is_canceled := _is_canceled s; _cancel_reason := _cancel_reason s;
     _is_confirmed := _is_confirmed s; _late_sdp := _late_sdp s;
     _rtcOfferConstraints := _rtcOfferConstraints s;
     _rtcAnswerConstraints := _rtcAnswerConstraints s;
     _rtcReady := _rtcReady s; _timers := _timers s;
     _direction := _direction s; _local_identity := _local_identity s;
     _remote_identity := _remote_identity s; _start_time := _start_time s;
     _end_time := _end_time s; _tones := _tones s;
     _sessionTimers := _sessionTimers s; _data := _data s;
     _listeners := v;
     _connection := _connection s;
     _connectionPromiseQueue := _connectionPromiseQueue s |}.

Definition set_connectionPromiseQueue v (s : RTCSession) : RTCSession :=
  {| _id := _id s; _status := _status s; _dialog := _dialog s;
     _earlyDialogs := _earlyDialogs s; _contact := _contact s;
     _from_tag := _from_tag s; _to_tag := _to_tag s; _request := _request s;
     _is_canceled := _is_canceled s; _cancel_reason := _cancel_reason s;
     _is_confirmed := _is_confirmed s; _late_sdp := _late_sdp s;
     _rtcOfferConstraints := _rtcOfferConstraints s;
     _rtcAnswerConstraints := _rtcAnswerConstraints s;
     _rtcReady := _rtcReady s; _timers := _timers s;
     _direction := _direction s; _local_identity := _local_identity s;
     _remote_identity := _remote_identity s; _start_time := _start_time s;
     _end_time := _end_time s; _tones := _tones s;
     _sessionTimers := _sessionTimers s; _data := _data s;
     _listeners := _listeners s;
     _connection := _connection s;
     _connectionPromiseQueue := v |}.

Definition set_ackTimer v (t : Timers_) : Timers_ :=
  {| ackTimer := v; expiresTimer := expiresTimer t;
     invite2xxTimer := invite2xxTimer t;
     userNoAnswerTimer := userNoAnswerTimer t |}.

Definition set_invite2xxTimer v (t : Timers_) : Timers_ :=
  {| ackTimer := ackTimer t; expiresTimer := expiresTimer t;
     invite2xxTimer := v;
     userNoAnswerTimer := userNoAnswerTimer t |}.

Definition set_defaultExpires v (t : SessionTimers) : SessionTimers :=
  {| enabled := enabled t; refreshMethod := refreshMethod t;
     defaultExpires := v; currentExpires := currentExpires t;
     running := running t; refresher := refresher t; timer := timer t |}.

Definition set_currentExpires v (t : SessionTimers) : SessionTimers :=
  {| enabled := enabled t; refreshMethod := refreshMethod t;
     defaultExpires := defaultExpires t; currentExpires := v;
     running := running t; refresher := refresher t; timer := timer t |}.

Definition set_running v (t : SessionTimers) : SessionTimers :=
  {| enabled := enabled t; refreshMethod := refreshMethod t;
     defaultExpires := defaultExpires t; currentExpires := currentExpires t;
     running := v; refresher := refresher t; timer := timer t |}.

Definition set_refresher v (t : SessionTimers) : SessionTimers :=
  {| enabled := enabled t; refreshMethod := refreshMethod t;
     defaultExpires := defaultExpires t; currentExpires := currentExpires t;
     running := running t; refresher := v; timer := timer t |}.

Definition set_timer v (t : SessionTimers) : SessionTimers :=
  {| enabled := enabled t; refreshMethod := refreshMethod t;
     defaultExpires := defaultExpires t; currentExpires := currentExpires t;
     running := running t; refresher := refresher t; timer := v |}.

(** ** Options of the public operations *)

Record TerminateOptions := {
  opt_cause : option Cause;
  opt_extraHeaders : list string;
  opt_body : option string;
  opt_status_code : option Z;
  opt_reason_phrase : option string
}.

(** A numeric option as the caller may pass it: nothing (or any falsy value),
    an integer, or a truthy value that [Utils.isDecimal] refuses (a string
    that is no number, a fraction, an object). *)
Inductive NumArg :=
| NumAbsent
| NumInt (n : Z)
| NumInvalid (shown : string).

(** The [tones] argument of [sendDTMF]: [undefined], a non-negative integer,
    a string, or a value of another type (shown as [shown]). *)
Inductive TonesArg :=
| TonesUndefined
| TonesNumber (n : N)
| TonesString (s : string)
| TonesOther (shown : string).

Record DTMFOptions := {
  dtmf_duration : NumArg;
  dtmf_interToneGap : NumArg;
  dtmf_extraHeaders : list string
}.

Record ConnectOptions := {
  co_eventHandlers : list string;
  co_extraHeaders : list string;
  co_data : option Data;
  co_sessionTimersExpires : NumArg;
  co_anonymous : bool
}.

Record RenegotiateOptions := {
  ro_rtcOfferConstraints : option string;
  ro_useUpdate : bool;
  ro_extraHeaders : list string
}.

(** What a listener of [reinvite] or [update] passes to [data.reject]. *)
Record RejectOptions := {
  rj_status_code : option Z;
  rj_reason_phrase : option string;
  rj_extraHeaders : list string
}.

(** ** Events, effects, timers, continuations *)

Module Ev.

Inductive t :=
| connecting (request : option InitialRequest)
| sending (request : OutgoingRequest)
| progress (originator : Originator) (response : option IncomingResponse)
| accepted (originator : Originator) (response : option IncomingResponse)
| confirmed (originator : Originator) (ack : option IncomingRequest)
| ended (originator : Originator) (message : option AnyMessage)
        (cause : Cause)
| failed (originator : Originator) (message : option AnyMessage)
         (cause : Cause)
| sdp (originator : Originator) (type : SdpType) (sdp : string)
| ackReceived (request : IncomingRequest)
| byeReceived (originator : Originator)
| reinvite (request : IncomingRequest)
| update (request : IncomingRequest)
| icecandidate (candidate : string)
| peerconnection_createofferfailed
| peerconnection_createanswerfailed
| peerconnection_setlocaldescriptionfailed
| peerconnection_setremotedescriptionfailed.

End Ev.

(** Which response handlers a request sent through the dialog carries. *)
Inductive RequestHandlers :=
| NoHandlers
| ReinviteHandlers (eventHandlers : OfferHandlers)
| UpdateHandlers (sdpOffer : bool) (eventHandlers : OfferHandlers).

(** What the session does to the rest of the library, in order. *)
Inductive Effect :=
| emit (e : Ev.t)
| reply (request : IncomingRequest) (code : Z) (reason : option string)
        (extraHeaders : list string) (body : option string)
| cancel (request : OutgoingRequest) (reason : option string)
| dialog_sendRequest (dialog : DialogId) (m : Method)
                     (extraHeaders : list string) (body : option string)
                     (eventHandlers : RequestHandlers)
| dialog_terminate (dialog : DialogId)
| ua_newRTCSession (originator : Originator) (request : OutgoingRequest)
| ua_destroyRTCSession
| request_sender_send (request : OutgoingRequest)
| dtmf_send (tone : Ascii.ascii) (duration : Z) (interToneGap : NumArg)
| info_send (contentType : option string) (body : option string)
| dtmf_init_incoming (request : IncomingRequest)
| info_init_incoming (request : IncomingRequest)
| initCallback.

(** The functions handed to [setTimeout], with the variables they close over. *)
Inductive TimerCallback :=
| invite2xxRetransmission (request : IncomingRequest) (body : option string)
                          (timeout : Z)
| ackTimerExpired
| sessionRefresh
| sessionExpired
| _sendDTMF (position : nat) (duration : Z) (interToneGap : Z)
            (options : DTMFOptions).

Inductive Exception :=
| TypeError (message : string)
| InvalidStateError (status : Status)
| Error (message : string).

Record World := {
  this : RTCSession;
  timeouts : list (nat * (Z * TimerCallback));
  next_timeout : nat;
  promises : list Continuation;
  trace : list Effect;
  clock : Z
}.

Definition with_this (f : RTCSession -> RTCSession) (w : World) : World :=
  {| this := f (this w); timeouts := timeouts w;
     next_timeout := next_timeout w; promises := promises w;
     trace := trace w; clock := clock w |}.

Definition with_timeouts v n (w : World) : World :=
  {| this := this w; timeouts := v; next_timeout := n;
     promises := promises w; trace := trace w; clock := clock w |}.

Definition with_promises v (w : World) : World :=
  {| this := this w; timeouts := timeouts w;
     next_timeout := next_timeout w; promises := v;
     trace := trace w; clock := clock w |}.

Definition with_trace v (w : World) : World :=
  {| this := this w; timeouts := timeouts w;
     next_timeout := next_timeout w; promises := promises w;
     trace := v; clock := clock w |}.

(** ** The monad of session code *)

Inductive Completion (A : Type) :=
| Normal (a : A)
| Thrown (e : Exception).
Arguments Normal {A} a.
Arguments Thrown {A} e.

Definition M (A : Type) : Type := World -> Completion A * World.

Definition ret {A} (a : A) : M A := fun w => (Normal a, w).

Definition bind {A B} (m : M A) (k : A -> M B) : M B :=
  fun w =>
    match m w with
    | (Normal a, w') => k a w'
    | (Thrown e, w') => (Thrown e, w')
    end.

Definition throw {A} (e : Exception) : M A := fun w => (Thrown e, w).

(** [try { m } catch (e) { h e }]. *)
Definition catch {A} (m : M A) (h : Exception -> M A) : M A :=
  fun w =>
    match m w with
    | (Normal a, w') => (Normal a, w')
    | (Thrown e, w') => h e w'
    end.

Notation "'let*' x ':=' m 'in' k" := (bind m (fun x => k))
  (at level 10, x name, m at level 100, k at level 200).
Notation "m ;; k" := (bind m (fun _ => k))
  (at level 100, k at level 200, right associativity).

Definition get_this : M RTCSession := fun w => (Normal (this w), w).

Definition assign (f : RTCSession -> RTCSession) : M unit :=
  fun w => (Normal tt, with_this f w).

Definition do (e : Effect) : M unit :=
  fun w => (Normal tt, with_trace (trace w ++ [e]) w).

Definition new_Date : M Z := fun w => (Normal (clock w), w).

(** [setTimeout(cb, delay)]: the timer is pending under a fresh handle and
    keeps [delay], in milliseconds, as the code passed it.  How long the
    host waits for it is [host_delay] of that number. *)
Definition setTimeout (cb : TimerCallback) (delay : Z) : M (option nat) :=
  fun w =>
    (Normal (Some (next_timeout w)),
     with_timeouts (timeouts w ++ [(next_timeout w, (delay, cb))])
                   (S (next_timeout w)) w).

(** The longest delay that a timer of the host takes: the host keeps the
    delay in a signed integer of 32 bits. *)
Definition TIMEOUT_MAX : Z := 2 ^ 31 - 1.

(** The milliseconds that the host waits before a timer armed with [delay]
    expires.  A delay from 1 to [TIMEOUT_MAX] is waited for; with any other
    delay the timer of Node.js expires after 1 millisecond (a browser
    reduces the delay to 32 bits and does not wait where the result is
    negative). *)
Definition host_delay (delay : Z) : Z :=
  if bool_decide (1 ≤ delay ≤ TIMEOUT_MAX) then delay else 1.

(** The pending timers once [clearTimeout(handle)] has run; clearing [null]
    clears nothing. *)
Definition cleared (handle : option nat)
    (pending : list (nat * (Z * TimerCallback)))
  : list (nat * (Z * TimerCallback)) :=
  match handle with
  | Some h => filter (fun t => t.1 ≠ h) pending
  | None => pending
  end.

Definition clearTimeout (handle : option nat) : M unit :=
  fun w =>
    (Normal tt,
     with_timeouts (cleared handle (timeouts w)) (next_timeout w) w).

(** [promise.then(k)] on the chain of the initial request: [k] runs in a
    later turn. *)
Definition then_ (k : Continuation) : M unit :=
  fun w => (Normal tt, with_promises (promises w ++ [k]) w).

(** [this._connectionPromiseQueue = this._connectionPromiseQueue.then(k)]:
    [k] waits in the queue of the peer connection. *)
Definition queue_then (k : Continuation) : M unit :=
  assign (fun s => set_connectionPromiseQueue
                     (_connectionPromiseQueue s ++ [k]) s).

Fixpoint for_each {A} (f : A -> M unit) (l : list A) : M unit :=
  match l with
  | [] => ret tt
  | a :: l => f a ;; for_each f l
  end.

Definition when (b : bool) (m : M unit) : M unit :=
  if b then m else ret tt.

(** ** Collaborators *)

(** The parts of the library the session calls and that live in other files:
    constants, timer values, helpers, the dialog class and the UA. *)
Record Externals := {
  (* Constants.js *)
  REASON_PHRASE : Z -> option string;
  cause_string : Cause -> string;
  SESSION_EXPIRES : Z;
  MIN_SESSION_EXPIRES : Z;
  (* Timers.js, in milliseconds *)
  T1 : Z;
  T2 : Z;
  TIMER_H : Z;
  (* RTCSession/DTMF.js, the C object *)
  DEFAULT_DURATION : Z;
  MIN_DURATION : Z;
  MAX_DURATION : Z;
  DEFAULT_INTER_TONE_GAP : Z;
  MIN_INTER_TONE_GAP : Z;
  (* Utils.js *)
  newTag : string;
  sipErrorCause : Z -> Cause;
  (* Dialog.js: the constructor gives a dialog or sets its error field *)
  new_Dialog : SIPMessage -> DialogType -> DialogState -> string + Dialog;
  Dialog_update : Dialog -> SIPMessage -> DialogType -> Dialog;
  (* the UA and the request it builds *)
  ua_session_timers : bool;
  ua_session_timers_refresh_method : Method;
  ua_uri : string;
  ua_normalizeTarget : string -> option string;
  ua_contact_toString : bool -> string;
  new_call_id : string
}.

Section Session.

Context (X : Externals).

(** ** Construction *)

Definition constructor : RTCSession :=
  {| _id := None;
     _status := STATUS_NULL;
     _dialog := None;
     _earlyDialogs := ∅;
     _contact := None;
     _from_tag := None;
     _to_tag := None;
     _request := None;
     _is_canceled := false;
     _cancel_reason := Some "";
     _is_confirmed := false;
     _late_sdp := false;
     _rtcOfferConstraints := None;
     _rtcAnswerConstraints := None;
     _rtcReady := true;
     _timers := {| ackTimer := None; expiresTimer := None;
                   invite2xxTimer := None; userNoAnswerTimer := None |};
     _direction := None;
     _local_identity := None;
     _remote_identity := None;
     _start_time := None;
     _end_time := None;
     _tones := None;
     _sessionTimers :=
       {| enabled := ua_session_timers X;
          refreshMethod := ua_session_timers_refresh_method X;
          defaultExpires := SESSION_EXPIRES X;
          currentExpires := None;
          running := false;
          refresher := false;
          timer := None |};
     _data := [];
     _listeners := [];
     _connection := None;
     _connectionPromiseQueue := [] |}.

(** The world a fresh session starts in. *)
Definition new_world (now : Z) : World :=
  {| this := constructor; timeouts := []; next_timeout := 0%nat;
     promises := []; trace := []; clock := now |}.

Definition isInProgress (s : RTCSession) : bool :=
  match _status s with
  | STATUS_NULL | STATUS_INVITE_SENT | STATUS_1XX_RECEIVED
  | STATUS_INVITE_RECEIVED | STATUS_WAITING_FOR_ANSWER => true
  | _ => false
  end.

Definition isEstablished (s : RTCSession) : bool :=
  match _status s with
  | STATUS_ANSWERED | STATUS_WAITING_FOR_ACK | STATUS_CONFIRMED => true
  | _ => false
  end.

Definition isEnded (s : RTCSession) : bool :=
  match _status s with
  | STATUS_CANCELED | STATUS_TERMINATED => true
  | _ => false
  end.

(** ** Closing the session and the events that end it *)

(** The body of the loop of [_close] over the early dialogs. *)
Definition terminate_early_dialog (kd : string * Dialog) : M unit :=
  do (dialog_terminate (id kd.2));;
  assign (fun s => set_earlyDialogs (delete kd.1 (_earlyDialogs s)) s).

Definition _close : M unit :=
  let* s := get_this in
  if decide (_status s = STATUS_TERMINATED) then ret tt
  else
    assign (set_status STATUS_TERMINATED);;
    (* Clear SIP timers. *)
    clearTimeout (ackTimer (_timers s));;
    clearTimeout (expiresTimer (_timers s));;
    clearTimeout (invite2xxTimer (_timers s));;
    clearTimeout (userNoAnswerTimer (_timers s));;
    (* Clear Session Timers. *)
    clearTimeout (timer (_sessionTimers s));;
    (* Terminate confirmed dialog. *)
    match _dialog s with
    | Some d => do (dialog_terminate (id d));; assign (set_dialog None)
    | None => ret tt
    end;;
    (* Terminate early dialogs. *)
    for_each terminate_early_dialog (map_to_list (_earlyDialogs s));;
    do ua_destroyRTCSession.

Definition _ended (originator : Originator) (message : option AnyMessage)
    (cause : Cause) : M unit :=
  let* now := new_Date in
  assign (set_end_time (Some now));;
  _close;;
  do (emit (Ev.ended originator message cause)).

Definition _failed (originator : Originator) (message : option AnyMessage)
    (cause : Cause) : M unit :=
  _close;;
  do (emit (Ev.failed originator message cause)).

Definition _confirmed (originator : Originator)
    (ack : option IncomingRequest) : M unit :=
  assign (set_is_confirmed true);;
  do (emit (Ev.confirmed originator ack)).

Definition _accepted (originator : Originator)
    (message : option IncomingResponse) : M unit :=
  let* now := new_Date in
  assign (set_start_time (Some now));;
  do (emit (Ev.accepted originator message)).

Definition _progress (originator : Originator)
    (response : option IncomingResponse) : M unit :=
  do (emit (Ev.progress originator response)).

Definition _connecting (request : option InitialRequest) : M unit :=
  do (emit (Ev.connecting request)).

Definition _newRTCSession (originator : Originator)
    (request : OutgoingRequest) : M unit :=
  do (ua_newRTCSession originator request).

(** ** Requests within the dialog *)

(** [this._dialog.sendRequest(method, options)]; reading the method of a
    missing dialog is a TypeError of the language. *)
Definition sendRequest (m : Method) (extraHeaders : list string)
    (body : option string) (eventHandlers : RequestHandlers) : M unit :=
  let* s := get_this in
  match _dialog s with
  | Some d => do (dialog_sendRequest (id d) m extraHeaders body eventHandlers)
  | None => throw (TypeError "this._dialog is undefined")
  end.

(** [this._request.cancel(reason)] on the outgoing INVITE. *)
Definition request_cancel (reason : option string) : M unit :=
  let* s := get_this in
  match _request s with
  | Some (OutgoingInvite r) => do (cancel r reason)
  | Some (IncomingInvite _) =>
      throw (TypeError "this._request.cancel is not a function")
  | None => throw (TypeError "this._request is null")
  end.

(** [this._request.reply(code)] on the incoming INVITE. *)
Definition request_reply (code : Z) : M unit :=
  let* s := get_this in
  match _request s with
  | Some (IncomingInvite r) => do (reply r code None [] None)
  | Some (OutgoingInvite _) =>
      throw (TypeError "this._request.reply is not a function")
  | None => throw (TypeError "this._request is null")
  end.

(** ** terminate *)

Definition invalid_status_code (status_code : option Z) : bool :=
  match status_code with
  | Some c => negb (c =? 0) && ((c <? 200) || (c >=? 700))
  | None => false
  end.

Definition show_number (n : option Z) : string :=
  match n with
  | Some n => pretty n
  | None => "undefined"
  end.

Definition reason_phrase_of (given : option string) (status_code : option Z)
  : option string :=
  or_string given
    (or_string (status_code ≫= REASON_PHRASE X) (Some "")).

(** The header [Reason: SIP ;cause=<code>; text="<phrase>"] of a BYE. *)
Definition Reason_header (status_code : option Z)
    (reason_phrase : option string) : string :=
  "Reason: SIP ;cause=" +:+ show_number status_code
  +:+ "; text=" +:+ dquote +:+ show reason_phrase +:+ dquote.

Definition cause_or_BYE (cause : option Cause) : Cause :=
  match cause with
  | Some (causes.CUSTOM "") | None => causes.BYE
  | Some c => c
  end.

Definition terminate (options : TerminateOptions) : M unit :=
  let cause := cause_or_BYE (opt_cause options) in
  let extraHeaders := opt_extraHeaders options in
  let body := opt_body options in
  let status_code := opt_status_code options in
  let* s := get_this in
  (* Check Session Status. *)
  if decide (_status s = STATUS_TERMINATED)
  then throw (InvalidStateError (_status s))
  else
    match _status s with
    (* - UAC - *)
    | STATUS_NULL | STATUS_INVITE_SENT | STATUS_1XX_RECEIVED =>
        if invalid_status_code status_code
        then throw (TypeError ("Invalid status_code: "
                               +:+ show_number status_code))
        else
          let cancel_reason :=
            if truthy_number status_code
            then
              let reason_phrase :=
                reason_phrase_of (opt_reason_phrase options) status_code in
              Some ("SIP ;cause=" +:+ show_number status_code
                    +:+ " ;text=" +:+ dquote +:+ show reason_phrase
                    +:+ dquote)
            else None in
          (if decide (_status s = STATUS_NULL
                      ∨ _status s = STATUS_INVITE_SENT)
           then
             assign (set_is_canceled true);;
             assign (set_cancel_reason cancel_reason)
           else request_cancel cancel_reason);;
          assign (set_status STATUS_CANCELED);;
          _failed local None causes.CANCELED
    | STATUS_WAITING_FOR_ACK | STATUS_CONFIRMED =>
        let reason_phrase :=
          reason_phrase_of (opt_reason_phrase options) status_code in
        if invalid_status_code status_code
        then throw (TypeError ("Invalid status_code: "
                               +:+ show_number status_code))
        else
          let extraHeaders :=
            if truthy_number status_code
            then extraHeaders ++ [Reason_header status_code reason_phrase]
            else extraHeaders in
          sendRequest BYE extraHeaders body NoHandlers;;
          _ended local None cause
    | _ => ret tt
    end.

(** ** Session callbacks *)

Definition onTransportError : M unit :=
  let* s := get_this in
  when (bool_decide (_status s ≠ STATUS_TERMINATED))
    (terminate {| opt_cause := Some causes.CONNECTION_ERROR;
                  opt_extraHeaders := []; opt_body := None;
                  opt_status_code := Some 500;
                  opt_reason_phrase :=
                    Some (cause_string X causes.CONNECTION_ERROR) |}).

Definition onRequestTimeout : M unit :=
  let* s := get_this in
  when (bool_decide (_status s ≠ STATUS_TERMINATED))
    (terminate {| opt_cause := Some causes.REQUEST_TIMEOUT;
                  opt_extraHeaders := []; opt_body := None;
                  opt_status_code := Some 408;
                  opt_reason_phrase :=
                    Some (cause_string X causes.REQUEST_TIMEOUT) |}).

Definition onDialogError : M unit :=
  let* s := get_this in
  when (bool_decide (_status s ≠ STATUS_TERMINATED))
    (terminate {| opt_cause := Some causes.DIALOG_ERROR;
                  opt_extraHeaders := []; opt_body := None;
                  opt_status_code := Some 500;
                  opt_reason_phrase :=
                    Some (cause_string X causes.DIALOG_ERROR) |}).

(** ** sendDTMF *)

(** The character class of [/^[0-9A-DR#*,]+$/i]. *)
Definition is_tone (c : Ascii.ascii) : bool :=
  let n := Ascii.nat_of_ascii c in
  ((48 <=? n) && (n <=? 57))%nat       (* 0-9 *)
  || ((65 <=? n) && (n <=? 68))%nat    (* A-D *)
  || ((97 <=? n) && (n <=? 100))%nat   (* a-d *)
  || (n =? 82)%nat || (n =? 114)%nat   (* R r *)
  || (n =? 35)%nat                     (* # *)
  || (n =? 42)%nat                     (* * *)
  || (n =? 44)%nat.                    (* , *)

Definition matches_tones (s : string) : bool :=
  negb (String.eqb s "") && forallb is_tone (String.list_ascii_of_string s).

(** [typeof tones === 'number'] turns into the decimal string; afterwards
    only a string can pass the check of the tones. *)
Definition tones_to_string (tones : TonesArg) : string + string :=
  match tones with
  | TonesUndefined => inr "undefined"
  | TonesNumber n => inl (pretty n)
  | TonesString s => inl s
  | TonesOther shown => inr shown
  end.

(** The value of [options.duration || null]. *)
Definition or_null (a : NumArg) : NumArg :=
  match a with
  | NumInt 0 => NumAbsent
  | a => a
  end.

(** One run of the inner function [_sendDTMF] of [sendDTMF], with the
    variables of the call that created it. *)
Definition _sendDTMF_run (position : nat) (duration interToneGap : Z)
    (options : DTMFOptions) : M unit :=
  let* s := get_this in
  if bool_decide (_status s = STATUS_TERMINATED)
     || negb (truthy_string (_tones s))
     || (String.length (default "" (_tones s)) <=? position)%nat
  then
    (* Stop sending DTMF. *)
    assign (set_tones None)
  else
    match String.get position (default "" (_tones s)) with
    | None => assign (set_tones None)
    | Some tone =>
        let position := S position in
        let* timeout :=
          (if Ascii.eqb tone ","%char
           then ret 2000
           else
             do (dtmf_send tone duration (dtmf_interToneGap options));;
             ret (duration + interToneGap)) in
        (* Set timeout for the next tone. *)
        let* _h := setTimeout (_sendDTMF position duration interToneGap
                                 options) timeout in
        ret tt
    end.

(** The [onFailed] handler given to every tone that is sent. *)
Definition dtmf_onFailed : M unit := assign (set_tones None).

Definition sendDTMF (tones : TonesArg) (options : DTMFOptions) : M unit :=
  let position := 0%nat in
  let duration := or_null (dtmf_duration options) in
  let interToneGap := or_null (dtmf_interToneGap options) in
  match tones with
  | TonesUndefined => throw (TypeError "Not enough arguments")
  | _ =>
    let* s := get_this in
    (* Check Session Status. *)
    if bool_decide (_status s ≠ STATUS_CONFIRMED
                    ∧ _status s ≠ STATUS_WAITING_FOR_ACK)
    then throw (InvalidStateError (_status s))
    else
      (* Convert to string.  Check tones. *)
      match tones_to_string tones with
      | inr shown => throw (TypeError ("Invalid tones: " +:+ shown))
      | inl tones =>
        if negb (matches_tones tones)
        then throw (TypeError ("Invalid tones: " +:+ tones))
        else
          (* Check duration. *)
          let* duration :=
            match duration with
            | NumInvalid shown =>
                throw (TypeError ("Invalid tone duration: " +:+ shown))
            | NumAbsent => ret (DEFAULT_DURATION X)
            | NumInt d =>
                if d <? MIN_DURATION X then ret (MIN_DURATION X)
                else if d >? MAX_DURATION X then ret (MAX_DURATION X)
                else ret (Z.abs d)
            end in
          (* Check interToneGap. *)
          let* interToneGap' :=
            match interToneGap with
            | NumInvalid shown =>
                throw (TypeError ("Invalid interToneGap: " +:+ shown))
            | NumAbsent => ret (DEFAULT_INTER_TONE_GAP X)
            | NumInt g =>
                if g <? MIN_INTER_TONE_GAP X
                then ret (MIN_INTER_TONE_GAP X)
                else ret (Z.abs g)
            end in
          let* s := get_this in
          if truthy_string (_tones s)
          then
            (* Tones are already queued, just add to the queue. *)
            assign (set_tones (Some (default "" (_tones s) +:+ tones)))
          else
            assign (set_tones (Some tones));;
            (* Send the first tone. *)
            _sendDTMF_run position duration interToneGap' options
      end
  end.

(** ** sendInfo *)

Definition sendInfo (contentType : option string) (body : option string)
  : M unit :=
  let* s := get_this in
  if bool_decide (_status s ≠ STATUS_CONFIRMED
                  ∧ _status s ≠ STATUS_WAITING_FOR_ACK)
  then throw (InvalidStateError (_status s))
  else do (info_send contentType body).

(** ** Re-offers: renegotiate, _sendReinvite, _sendUpdate *)

(** Check if RTCSession is ready for an outgoing re-INVITE or UPDATE with
    SDP. *)
Definition _isReadyToReOffer (s : RTCSession) : bool :=
  if negb (_rtcReady s) then false
  else
    match _dialog s with
    | None => false            (* No established yet. *)
    | Some d =>
        (* Another INVITE transaction is in progress. *)
        if uac_pending_reply d || uas_pending_reply d then false
        else true
    end.

Definition show_expires (n : option Z) : string :=
  match n with
  | Some n => pretty n
  | None => "null"
  end.

Definition contact_header (s : RTCSession) : string :=
  "Contact: " +:+ default "null" (_contact s).

Definition running_session_expires (s : RTCSession) : list string :=
  if running (_sessionTimers s)
  then ["Session-Expires: "
        +:+ show_expires (currentExpires (_sessionTimers s))
        +:+ ";refresher="
        +:+ (if refresher (_sessionTimers s) then "uac" else "uas")]
  else [].

Definition or_constraints (a b : option string) : option string :=
  match a with
  | Some _ => a
  | None => b
  end.

Definition _sendReinvite (extraHeaders : list string)
    (rtcOfferConstraints : option string) (eventHandlers : OfferHandlers)
  : M unit :=
  let* s := get_this in
  let rtcOfferConstraints :=
    or_constraints rtcOfferConstraints (_rtcOfferConstraints s) in
  let extraHeaders :=
    extraHeaders ++ [contact_header s; "Content-Type: application/sdp"]
                 ++ running_session_expires s in
  queue_then (sendReinvite_createOffer extraHeaders rtcOfferConstraints
                                  eventHandlers).

Definition _sendUpdate (sdpOffer : bool) (extraHeaders : list string)
    (rtcOfferConstraints : option string) (eventHandlers : OfferHandlers)
  : M unit :=
  let* s := get_this in
  let rtcOfferConstraints :=
    or_constraints rtcOfferConstraints (_rtcOfferConstraints s) in
  let extraHeaders :=
    extraHeaders ++ [contact_header s] ++ running_session_expires s in
  if sdpOffer
  then
    queue_then (sendUpdate_createOffer
             (extraHeaders ++ ["Content-Type: application/sdp"])
             rtcOfferConstraints eventHandlers)
  else
    (* No SDP. *)
    sendRequest UPDATE extraHeaders None (UpdateHandlers false eventHandlers).

Definition renegotiate (options : RenegotiateOptions) (done : bool)
  : M bool :=
  let rtcOfferConstraints := ro_rtcOfferConstraints options in
  let* s := get_this in
  if bool_decide (_status s ≠ STATUS_WAITING_FOR_ACK
                  ∧ _status s ≠ STATUS_CONFIRMED)
  then ret false
  else if negb (_isReadyToReOffer s)
  then ret false
  else
    let eventHandlers := renegotiate_eventHandlers done in
    (if ro_useUpdate options
     then _sendUpdate true (ro_extraHeaders options) rtcOfferConstraints
                      eventHandlers
     else _sendReinvite (ro_extraHeaders options) rtcOfferConstraints
                        eventHandlers);;
    ret true.

(** The [failed] handler that [renegotiate] installs. *)
Definition renegotiate_failed : M unit :=
  terminate {| opt_cause := Some causes.WEBRTC_ERROR;
               opt_extraHeaders := []; opt_body := None;
               opt_status_code := Some 500;
               opt_reason_phrase := Some "Media Renegotiation Failed" |}.

(** ** SIP timers *)

(** The update of the variable [timeout] inside
    [invite2xxRetransmission]. *)
Definition next_invite2xx_timeout (timeout : Z) : Z :=
  if timeout <? T2 X
  then
    let timeout := timeout * 2 in
    if timeout >? T2 X then T2 X else timeout
  else timeout.

Definition arm_invite2xxTimer (request : IncomingRequest)
    (body : option string) (timeout : Z) : M unit :=
  let* h := setTimeout (invite2xxRetransmission request body timeout)
                       timeout in
  assign (fun s => set_timers (set_invite2xxTimer h (_timers s)) s).

(** RFC3261 13.3.1.4: response retransmissions cannot be accomplished by
    the transaction layer. *)
Definition _setInvite2xxTimer (request : IncomingRequest)
    (body : option string) : M unit :=
  let timeout := T1 X in
  arm_invite2xxTimer request body timeout.

Definition invite2xxRetransmission_run (request : IncomingRequest)
    (body : option string) (timeout : Z) : M unit :=
  let* s := get_this in
  if bool_decide (_status s ≠ STATUS_WAITING_FOR_ACK) then ret tt
  else
    do (reply request 200 None [contact_header s] body);;
    let timeout := next_invite2xx_timeout timeout in
    arm_invite2xxTimer request body timeout.

(** RFC3261 14.2: a UAS that never receives an ACK generates a BYE. *)
Definition _setACKTimer : M unit :=
  let* h := setTimeout ackTimerExpired (TIMER_H X) in
  assign (fun s => set_timers (set_ackTimer h (_timers s)) s).

Definition ackTimerExpired_run : M unit :=
  let* s := get_this in
  if bool_decide (_status s = STATUS_WAITING_FOR_ACK)
  then
    clearTimeout (invite2xxTimer (_timers s));;
    sendRequest BYE [] None NoHandlers;;
    _ended remote None causes.NO_ACK
  else ret tt.

(** ** Session timers (RFC 4028) *)

Definition _runSessionTimer : M unit :=
  let* s := get_this in
  let expires := default 0 (currentExpires (_sessionTimers s)) in
  assign (fun s => set_sessionTimers (set_running true (_sessionTimers s)) s);;
  clearTimeout (timer (_sessionTimers s));;
  let* h :=
    (if refresher (_sessionTimers s)
     then (* I'm the refresher. *)
       setTimeout sessionRefresh (expires * 500)
     else (* I'm not the refresher. *)
       setTimeout sessionExpired (expires * 1100)) in
  assign (fun s => set_sessionTimers (set_timer h (_sessionTimers s)) s).

Definition sessionRefresh_run : M unit :=
  let* s := get_this in
  if bool_decide (_status s = STATUS_TERMINATED) then ret tt
  else if bool_decide (refreshMethod (_sessionTimers s) = UPDATE)
  then _sendUpdate false [] None no_eventHandlers
  else _sendReinvite [] None no_eventHandlers.

Definition sessionExpired_run : M unit :=
  let* s := get_this in
  if bool_decide (_status s = STATUS_TERMINATED) then ret tt
  else
    terminate {| opt_cause := Some causes.REQUEST_TIMEOUT;
                 opt_extraHeaders := []; opt_body := None;
                 opt_status_code := Some 408;
                 opt_reason_phrase := Some "Session Timer Expired" |}.

(** Both handlers return the extra headers of the 200 response. *)
Definition _handleSessionTimersInIncomingRequest (request : IncomingRequest)
    (responseExtraHeaders : list string) : M (list string) :=
  let* s := get_this in
  if negb (enabled (_sessionTimers s)) then ret responseExtraHeaders
  else
    let '(expires, session_expires_refresher) :=
      if truthy_number (session_expires request)
         && (default 0 (session_expires request)
             >=? MIN_SESSION_EXPIRES X)
      then (default 0 (session_expires request),
            default "uas" (or_string (session_expires_refresher request)
                                     (Some "uas")))
      else (defaultExpires (_sessionTimers s), "uas") in
    assign (fun s => set_sessionTimers
                       (set_currentExpires (Some expires)
                                           (_sessionTimers s)) s);;
    assign (fun s => set_sessionTimers
                       (set_refresher
                          (String.eqb session_expires_refresher "uas")
                          (_sessionTimers s)) s);;
    _runSessionTimer;;
    ret (responseExtraHeaders
           ++ ["Session-Expires: " +:+ pretty expires +:+ ";refresher="
               +:+ session_expires_refresher]).

Definition _handleSessionTimersInIncomingResponse
    (response : IncomingResponse) : M unit :=
  let* s := get_this in
  if negb (enabled (_sessionTimers s)) then ret tt
  else
    let '(expires, session_expires_refresher) :=
      if truthy_number (session_expires response)
         && (default 0 (session_expires response)
             >=? MIN_SESSION_EXPIRES X)
      then (default 0 (session_expires response),
            default "uac" (or_string (session_expires_refresher response)
                                     (Some "uac")))
      else (defaultExpires (_sessionTimers s), "uac") in
    assign (fun s => set_sessionTimers
                       (set_currentExpires (Some expires)
                                           (_sessionTimers s)) s);;
    assign (fun s => set_sessionTimers
                       (set_refresher
                          (String.eqb session_expires_refresher "uac")
                          (_sessionTimers s)) s);;
    _runSessionTimer.

(** ** Dialog management *)

Definition message_of (m : AnyMessage) : SIPMessage :=
  match m with
  | MsgRequest r => r
  | MsgResponse r => r
  end.

Definition _createDialog (message : AnyMessage) (type : DialogType)
    (early : bool) : M bool :=
  let m := message_of message in
  let local_tag := match type with UAS => to_tag m | UAC => from_tag m end in
  let remote_tag := match type with UAS => from_tag m | UAC => to_tag m end in
  let id := call_id m +:+ show local_tag +:+ show remote_tag in
  let* s := get_this in
  let early_dialog := _earlyDialogs s !! id in
  if early
  then
    (* Early Dialog. *)
    match early_dialog with
    | Some _ => ret true
    | None =>
        match new_Dialog X m type STATUS_EARLY with
        | inl error =>
            _failed remote (Some message) causes.INTERNAL_ERROR;;
            ret false
        | inr early_dialog =>
            assign (fun s => set_earlyDialogs
                               (<[id := early_dialog]> (_earlyDialogs s)) s);;
            ret true
        end
    end
  else
    (* Confirmed Dialog. *)
    assign (set_from_tag (from_tag m));;
    assign (set_to_tag (to_tag m));;
    match early_dialog with
    | Some early_dialog =>
        (* In case the dialog is in _early_ state, update it. *)
        assign (set_dialog (Some (Dialog_update X early_dialog m type)));;
        assign (fun s => set_earlyDialogs (delete id (_earlyDialogs s)) s);;
        ret true
    | None =>
        (* Otherwise, create a _confirmed_ dialog. *)
        match new_Dialog X m type STATUS_DIALOG_CONFIRMED with
        | inl error =>
            _failed remote (Some message) causes.INTERNAL_ERROR;;
            ret false
        | inr dialog =>
            assign (set_dialog (Some dialog));;
            ret true
        end
    end.

Definition _acceptAndTerminate (response : IncomingResponse)
    (status_code : option Z) (reason_phrase : option string) : M unit :=
  let extraHeaders :=
    if truthy_number status_code
    then
      let reason_phrase := reason_phrase_of reason_phrase status_code in
      [Reason_header status_code reason_phrase]
    else [] in
  let* s := get_this in
  (* An error on dialog creation will fire 'failed' event. *)
  let* have_dialog :=
    (match _dialog s with
     | Some _ => ret true
     | None => _createDialog (MsgResponse response) UAC false
     end) in
  when have_dialog
    (sendRequest ACK [] None NoHandlers;;
     sendRequest BYE extraHeaders None NoHandlers);;
  (* Update session status. *)
  assign (set_status STATUS_TERMINATED).

(** ** In-dialog requests *)

Definition lower (c : ascii) : ascii :=
  let n := nat_of_ascii c in
  if ((65 <=? n) && (n <=? 90))%nat then ascii_of_nat (n + 32) else c.

(** [s.match(/^prefix/i)] for a lower-case [prefix]. *)
Fixpoint starts_with_ci (prefix s : string) : bool :=
  match prefix, s with
  | EmptyString, _ => true
  | String p prefix, String c s =>
      Ascii.eqb p (lower c) && starts_with_ci prefix s
  | String _ _, EmptyString => false
  end.

(** The [reject] function handed to the listeners of [reinvite] and
    [update]. *)
Definition reject (request : IncomingRequest) (options : RejectOptions)
  : M unit :=
  let status_code :=
    if truthy_number (rj_status_code options)
    then default 403 (rj_status_code options) else 403 in
  let reason_phrase := or_string (rj_reason_phrase options) (Some "") in
  let extraHeaders := rj_extraHeaders options in
  let* s := get_this in
  if bool_decide (_status s ≠ STATUS_CONFIRMED) then ret tt
  else if (status_code <? 300) || (status_code >=? 700)
  then throw (TypeError ("Invalid status_code: " +:+ pretty status_code))
  else do (reply request status_code reason_phrase extraHeaders None).

Definition _processInDialogSdpOffer (request : IncomingRequest)
    (k : IncomingRequest -> string -> Continuation) : M unit :=
  let sdp := default "" (body request) in
  do (emit (Ev.sdp remote offer sdp));;
  queue_then (k request sdp).

(** The listener of [reinvite] either calls [data.reject] with some options
    or does not. *)
Definition _receiveReinvite (request : IncomingRequest)
    (listener : option RejectOptions) : M unit :=
  let contentType := content_type request in
  (* Emit 'reinvite'. *)
  do (emit (Ev.reinvite request));;
  match listener with
  | Some options => reject request options
  | None =>
      assign (set_late_sdp false);;
      if negb (truthy_string (body request))
      then
        (* Request without SDP. *)
        assign (set_late_sdp true);;
        queue_then (reinvite_createOffer request)
      else if negb (bool_decide (contentType = Some "application/sdp"))
      then do (reply request 415 None [] None)
      else _processInDialogSdpOffer request reinvite_processOffer
  end.

(** The function [sendAnswer] inside [_receiveReinvite]; [sent] tells
    whether the transaction layer calls the [onSuccess] argument of
    [reply]. *)
Definition reinvite_sendAnswer (request : IncomingRequest)
    (desc : option string) (sent : bool) : M unit :=
  let* s := get_this in
  let extraHeaders := [contact_header s] in
  let* extraHeaders :=
    _handleSessionTimersInIncomingRequest request extraHeaders in
  do (reply request 200 None extraHeaders desc);;
  when sent
    (assign (set_status STATUS_WAITING_FOR_ACK);;
     _setInvite2xxTimer request desc;;
     _setACKTimer).

(** The function [sendAnswer] inside [_receiveUpdate]. *)
Definition update_sendAnswer (request : IncomingRequest)
    (desc : option string) : M unit :=
  let* s := get_this in
  let extraHeaders := [contact_header s] in
  let* extraHeaders :=
    _handleSessionTimersInIncomingRequest request extraHeaders in
  do (reply request 200 None extraHeaders desc).

Definition _receiveUpdate (request : IncomingRequest)
    (listener : option RejectOptions) : M unit :=
  let contentType := content_type request in
  (* Emit 'update'. *)
  do (emit (Ev.update request));;
  match listener with
  | Some options => reject request options
  | None =>
      if negb (truthy_string (body request))
      then update_sendAnswer request None
      else if negb (bool_decide (contentType = Some "application/sdp"))
      then do (reply request 415 None [] None)
      else _processInDialogSdpOffer request update_processOffer
  end.

Definition receiveRequest (request : IncomingRequest)
    (listener : option RejectOptions) : M unit :=
  let* s := get_this in
  match method request with
  | CANCEL =>
      (* Terminate the whole session in case the user didn't accept (or yet
         send the answer) nor reject the request opening the session. *)
      if bool_decide (_status s = STATUS_WAITING_FOR_ANSWER
                      ∨ _status s = STATUS_ANSWERED)
      then
        assign (set_status STATUS_CANCELED);;
        request_reply 487;;
        _failed remote (Some (MsgRequest request)) causes.CANCELED
      else ret tt
  (* Requests arriving here are in-dialog requests. *)
  | ACK =>
      do (emit (Ev.ackReceived request));;
      if bool_decide (_status s ≠ STATUS_WAITING_FOR_ACK) then ret tt
      else
        (* Update signaling status. *)
        assign (set_status STATUS_CONFIRMED);;
        clearTimeout (ackTimer (_timers s));;
        clearTimeout (invite2xxTimer (_timers s));;
        if _late_sdp s
        then
          if negb (truthy_string (body request))
          then
            terminate {| opt_cause := Some causes.MISSING_SDP;
                         opt_extraHeaders := []; opt_body := None;
                         opt_status_code := Some 400;
                         opt_reason_phrase := None |}
          else
            do (emit (Ev.sdp remote answer (default "" (body request))));;
            queue_then (ack_setRemoteDescription request
                                            (default "" (body request)))
        else
          when (negb (_is_confirmed s))
            (_confirmed remote (Some request))
  | BYE =>
      if bool_decide (_status s = STATUS_CONFIRMED
                      ∨ _status s = STATUS_WAITING_FOR_ACK)
      then
        do (emit (Ev.byeReceived remote));;
        do (reply request 200 None [] None);;
        _ended remote (Some (MsgRequest request)) causes.BYE
      else do (reply request 403 (Some "Wrong Status") [] None)
  | INVITE =>
      if bool_decide (_status s = STATUS_CONFIRMED)
      then _receiveReinvite request listener
      else do (reply request 403 (Some "Wrong Status") [] None)
  | INFO =>
      if bool_decide (_status s = STATUS_1XX_RECEIVED
                      ∨ _status s = STATUS_WAITING_FOR_ANSWER
                      ∨ _status s = STATUS_ANSWERED
                      ∨ _status s = STATUS_WAITING_FOR_ACK
                      ∨ _status s = STATUS_CONFIRMED)
      then
        let contentType := content_type request in
        if truthy_string contentType
           && starts_with_ci "application/dtmf-relay" (default "" contentType)
        then do (dtmf_init_incoming request)
        else if bool_decide (contentType ≠ None)
        then do (info_init_incoming request)
        else do (reply request 415 None [] None)
      else do (reply request 403 (Some "Wrong Status") [] None)
  | UPDATE =>
      if bool_decide (_status s = STATUS_CONFIRMED)
      then _receiveUpdate request listener
      else do (reply request 403 (Some "Wrong Status") [] None)
  | OTHER _ => do (reply request 501 None [] None)
  end.

(** ** connect and the initial INVITE *)

(** Initial Request Sender: the request sender is created and the chain
    [Promise.resolve().then(..).then(..).catch(..)] is started. *)
Definition _sendInitialRequest (sdp : option string) : M unit :=
  then_ (initialRequest_connecting sdp).

(** The handler of [catch] at the end of that chain: it returns, or logs the
    error. *)
Definition initialRequest_catch (error : Exception) : M unit := ret tt.

(** First [then] of the chain. *)
Definition initialRequest_connecting_run (sdp : option string) : M unit :=
  catch
    (let* s := get_this in
     if bool_decide (_status s = STATUS_TERMINATED)
     then throw (Error "terminated")
     else
       _connecting (_request s);;
       then_ (initialRequest_sending sdp))
    initialRequest_catch.

(** Second [then] of the chain. *)
Definition initialRequest_sending_run (sdp : option string) : M unit :=
  catch
    (let* s := get_this in
     if _is_canceled s || bool_decide (_status s = STATUS_TERMINATED)
     then throw (Error "terminated")
     else
       match _request s with
       | Some (OutgoingInvite r) =>
           let r :=
             {| o_target := o_target r; o_call_id := o_call_id r;
                o_from_tag := o_from_tag r; o_anonymous := o_anonymous r;
                o_extraHeaders := o_extraHeaders r; o_body := sdp |} in
           assign (set_request (Some (OutgoingInvite r)));;
           assign (set_status STATUS_INVITE_SENT);;
           (* Emit 'sending' so the app can mangle the body before the
              request is sent. *)
           do (emit (Ev.sending r));;
           do (request_sender_send r)
       | _ => throw (TypeError "this._request has no body property")
       end)
    initialRequest_catch.

Definition connect (target : option string) (sdp : option string)
    (options : ConnectOptions) (init : bool) : M unit :=
  let originalTarget := target in
  let eventHandlers := co_eventHandlers options in
  let extraHeaders := co_extraHeaders options in
  assign (fun s => set_data (default (_data s) (co_data options)) s);;
  (* Check target. *)
  match target with
  | None => throw (TypeError "Not enough arguments")
  | Some target =>
    let* s := get_this in
    (* Check Session Status. *)
    if bool_decide (_status s ≠ STATUS_NULL)
    then throw (InvalidStateError (_status s))
    else
      (* Check target validity. *)
      match ua_normalizeTarget X target with
      | None => throw (TypeError ("Invalid target: " +:+ show originalTarget))
      | Some target =>
        (* Session Timers. *)
        when (enabled (_sessionTimers s))
          (match co_sessionTimersExpires options with
           | NumInt e =>
               assign (fun s =>
                 set_sessionTimers
                   (set_defaultExpires
                      (if e >=? MIN_SESSION_EXPIRES X then e
                       else SESSION_EXPIRES X)
                      (_sessionTimers s)) s)
           | _ => ret tt
           end);;
        (* Set event handlers. *)
        for_each (fun event =>
                    assign (fun s => set_listeners (_listeners s ++ [event]) s))
                 eventHandlers;;
        (* Session parameter initialization. *)
        assign (set_from_tag (Some (newTag X)));;
        (* Set anonymous property. *)
        let anonymous := co_anonymous options in
        let contact := ua_contact_toString X anonymous in
        assign (set_contact (Some contact));;
        let extraHeaders :=
          extraHeaders
          ++ (if anonymous
              then ["P-Preferred-Identity: " +:+ ua_uri X; "Privacy: id"]
              else [])
          ++ ["Contact: " +:+ contact; "Content-Type: application/sdp"] in
        let* s := get_this in
        let extraHeaders :=
          extraHeaders
          ++ (if enabled (_sessionTimers s)
              then ["Session-Expires: "
                    +:+ pretty (defaultExpires (_sessionTimers s))]
              else []) in
        let request :=
          {| o_target := target; o_call_id := new_call_id X;
             o_from_tag := newTag X; o_anonymous := anonymous;
             o_extraHeaders := extraHeaders; o_body := None |} in
        assign (set_request (Some (OutgoingInvite request)));;
        assign (set_id (Some (new_call_id X +:+ newTag X)));;
        (* Set internal properties. *)
        assign (set_identity (Some outgoing)
                  (Some (if anonymous
                         then "sip:anonymous@anonymous.invalid"
                         else ua_uri X))
                  (Some target));;
        (* User explicitly provided a newRTCSession callback. *)
        when init (do initCallback);;
        _newRTCSession local request;;
        _sendInitialRequest sdp
      end
  end.

(** ** Reception of a response to the initial INVITE *)

Definition _receiveInviteResponse (response : IncomingResponse) : M unit :=
  let code := status_code response in
  let* s := get_this in
  (* Handle 2XX retransmissions and responses from forked requests. *)
  if bool_decide (is_Some (_dialog s)) && (200 <=? code) && (code <=? 299)
  then
    match _dialog s with
    | Some d =>
        if bool_decide (id_call_id (id d) = call_id response
                        ∧ local_tag (id d) = from_tag response
                        ∧ remote_tag (id d) = to_tag response)
        then
          (* A retransmission from the endpoint that established the
             dialog: send an ACK. *)
          sendRequest ACK [] None NoHandlers
        else
          (* If not, send an ACK and terminate. *)
          match new_Dialog X response UAC STATUS_DIALOG_CONFIRMED with
          | inl error => ret tt
          | inr dialog =>
              sendRequest ACK [] None NoHandlers;;
              sendRequest BYE [] None NoHandlers
          end
    | None => ret tt
    end
  (* Proceed to cancellation if the user requested. *)
  else if _is_canceled s
  then
    if (100 <=? code) && (code <? 200)
    then request_cancel (_cancel_reason s)
    else if (200 <=? code) && (code <? 299)
    then _acceptAndTerminate response None None
    else ret tt
  else if bool_decide (_status s ≠ STATUS_INVITE_SENT
                       ∧ _status s ≠ STATUS_1XX_RECEIVED)
  then ret tt
  else if code =? 100
  then assign (set_status STATUS_1XX_RECEIVED)
  else if (100 <=? code) && (code <=? 199)
  then
    (* Do nothing with 1xx responses without To tag. *)
    if negb (truthy_string (to_tag response)) then ret tt
    else
      (* Create Early Dialog if 1XX comes with contact. *)
      let* created :=
        (if bool_decide (is_Some (contact response))
         then _createDialog (MsgResponse response) UAC true
         else ret true) in
      when created
        (assign (set_status STATUS_1XX_RECEIVED);;
         _progress remote (Some response);;
         when (truthy_string (body response))
           (do (emit (Ev.sdp remote answer (default "" (body response))));;
            queue_then (progress_setRemoteDescription
                     (default "" (body response)))))
  else if (200 <=? code) && (code <=? 299)
  then
    assign (set_status STATUS_CONFIRMED);;
    if negb (truthy_string (body response))
    then
      _acceptAndTerminate response (Some 400)
        (Some (cause_string X causes.MISSING_SDP));;
      _failed remote (Some (MsgResponse response))
        causes.BAD_MEDIA_DESCRIPTION
    else
      (* An error on dialog creation will fire 'failed' event. *)
      let* created := _createDialog (MsgResponse response) UAC false in
      when created
        (do (emit (Ev.sdp remote answer (default "" (body response))));;
         queue_then (accept_setRemoteDescription response
                  (default "" (body response))))
  else
    _failed remote (Some (MsgResponse response)) (sipErrorCause X code).

(** ** Continuations once the peer connection has answered *)

(** After a 2xx with SDP two functions are chained on the queue of the
    peer connection.  The peer connection is the public attribute
    [connection] that the application provides; what it answers is given
    here as parameters.  This is the first function: when the signaling
    state of the peer connection is [stable] (an SDP answer was made for a
    180 or 183 with SDP) a new offer is created and set; [offer_error] is
    the error, as a string, that [createOffer] or [setLocalDescription] was
    rejected with.  The rejection is caught here, so that the second
    function runs in every case. *)
Definition accept_createOffer_run (response : IncomingResponse)
    (stable : bool) (offer_error : option string) : M unit :=
  if stable
  then
    match offer_error with
    | None => ret tt
    | Some error =>
        _acceptAndTerminate response (Some 500) (Some error);;
        _failed local (Some (MsgResponse response)) causes.WEBRTC_ERROR
    end
  else ret tt.

(** The second function calls
    [this._connection.setRemoteDescription(answer)] with two handlers:
    [then] when the peer connection took the answer ([applied]), [catch]
    when it did not or when the first handler throws. *)
Definition accept_setRemoteDescription_run (response : IncomingResponse)
    (applied : bool) : M unit :=
  catch
    (if applied
     then
       (* Handle Session Timers. *)
       _handleSessionTimersInIncomingResponse response;;
       _accepted remote (Some response);;
       sendRequest ACK [] None NoHandlers;;
       _confirmed local None
     else throw (Error "setRemoteDescription"))
    (fun error =>
       _acceptAndTerminate response (Some 488) (Some "Not Acceptable Here");;
       _failed remote (Some (MsgResponse response))
               causes.BAD_MEDIA_DESCRIPTION;;
       do (emit Ev.peerconnection_setremotedescriptionfailed)).

(** The continuation of a 2xx with SDP, once the queue of the peer
    connection has come to it: both functions, one after the other. *)
Definition accept_answer_run (response : IncomingResponse) (stable : bool)
    (offer_error : option string) (applied : bool) : M unit :=
  accept_createOffer_run response stable offer_error;;
  accept_setRemoteDescription_run response applied.

(** The handlers that an ACK with the late answer chains on the queue of the
    peer connection; [applied] tells whether the queue came to this point
    and the peer connection took the answer. *)
Definition ack_setRemoteDescription_run (request : IncomingRequest)
    (applied : bool) : M unit :=
  catch
    (if applied
     then
       let* s := get_this in
       when (negb (_is_confirmed s)) (_confirmed remote (Some request))
     else throw (Error "setRemoteDescription"))
    (fun error =>
       terminate {| opt_cause := Some causes.BAD_MEDIA_DESCRIPTION;
                    opt_extraHeaders := []; opt_body := None;
                    opt_status_code := Some 488;
                    opt_reason_phrase := None |};;
       do (emit Ev.peerconnection_setremotedescriptionfailed)).

(** ** Timers firing *)

Definition run_timeout (cb : TimerCallback) : M unit :=
  match cb with
  | invite2xxRetransmission request body timeout =>
      invite2xxRetransmission_run request body timeout
  | ackTimerExpired => ackTimerExpired_run
  | sessionRefresh => sessionRefresh_run
  | sessionExpired => sessionExpired_run
  | _sendDTMF position duration interToneGap options =>
      _sendDTMF_run position duration interToneGap options
  end.

(** The timer with handle [h] expires: it leaves the pending timers and its
    function runs.  A handle that is not pending does nothing. *)
Definition fire (h : nat) : M unit :=
  fun w =>
    match list_find (fun t => t.1 = h) (timeouts w) with
    | Some (_, (_, (_, cb))) =>
        run_timeout cb
          (with_timeouts (cleared (Some h) (timeouts w))
                         (next_timeout w) w)
    | None => (Normal tt, w)
    end.

(** ** Traces *)

(** What can happen to a session: a call of the public API, a message or an
    error handed over by the transaction layer, a timer that expires, the
    next continuation of the initial request, the failure of a DTMF tone. *)
Inductive Input :=
| call_connect (target : option string) (sdp : option string)
               (options : ConnectOptions) (init : bool)
| call_terminate (options : TerminateOptions)
| call_sendDTMF (tones : TonesArg) (options : DTMFOptions)
| call_sendInfo (contentType : option string) (body : option string)
| call_renegotiate (options : RenegotiateOptions) (done : bool)
| call_sendRequest (m : Method) (extraHeaders : list string)
                   (body : option string)
| request_received (request : IncomingRequest)
                   (listener : option RejectOptions)
| response_received (response : IncomingResponse)
| transport_error
| request_timeout
| dialog_error
| timeout_expired (h : nat)
| tone_failed
| next_tick.

(** The continuations of [_sendInitialRequest] run in order; those chained
    on the peer connection queue wait for the media engine and stay where
    they are. *)
Definition run_next_tick : M unit :=
  fun w =>
    match promises w with
    | initialRequest_connecting sdp :: rest =>
        initialRequest_connecting_run sdp (with_promises rest w)
    | initialRequest_sending sdp :: rest =>
        initialRequest_sending_run sdp (with_promises rest w)
    | _ => (Normal tt, w)
    end.

Definition step (i : Input) : M unit :=
  match i with
  | call_connect target sdp options init => connect target sdp options init
  | call_terminate options => terminate options
  | call_sendDTMF tones options => sendDTMF tones options
  | call_sendInfo contentType body => sendInfo contentType body
  | call_renegotiate options done => renegotiate options done;; ret tt
  | call_sendRequest m extraHeaders body =>
      sendRequest m extraHeaders body NoHandlers
  | request_received request listener => receiveRequest request listener
  | response_received response => _receiveInviteResponse response
  | transport_error => onTransportError
  | request_timeout => onRequestTimeout
  | dialog_error => onDialogError
  | timeout_expired h => fire h
  | tone_failed => dtmf_onFailed
  | next_tick => run_next_tick
  end.

(** A trace of inputs; an exception goes to the caller of the failed step
    and the session lives on with what the step did before. *)
Fixpoint run (inputs : list Input) (w : World) : World :=
  match inputs with
  | [] => w
  | i :: inputs => run inputs (step i w).2
  end.

End Session.

(** * Vocabulary of the properties *)

(** ** Observations *)

Definition status (w : World) : Status := _status (this w).

Definition is_ended (e : Effect) : bool :=
  match e with
  | emit (Ev.ended _ _ _) => true
  | _ => false
  end.

Definition is_failed (e : Effect) : bool :=
  match e with
  | emit (Ev.failed _ _ _) => true
  | _ => false
  end.

Definition count (p : Effect -> bool) (t : list Effect) : nat :=
  length (filter (fun e => p e = true) t).

(** The handles of the pending timers. *)
Definition pending_handles (w : World) : list nat := (timeouts w).*1.

(** The handles in use are below the next handle. *)
Definition well_timed (w : World) : Prop :=
  Forall (λ x, (x.1 < next_timeout w)%nat) (timeouts w).

(** The calls that [_close] makes on a session that is not terminated yet:
    the confirmed dialog and the early dialogs are terminated, the UA
    forgets the session. *)
Definition close_effects (s : RTCSession) : list Effect :=
  match _dialog s with
  | Some d => [dialog_terminate (id d)]
  | None => []
  end
  ++ map (λ kd : string * Dialog, dialog_terminate (id kd.2))
         (map_to_list (_earlyDialogs s))
  ++ [ua_destroyRTCSession].

(** The headers of the BYE that [terminate] sends. *)
Definition bye_headers (X : Externals) (options : TerminateOptions)
  : list string :=
  if truthy_number (opt_status_code options)
  then opt_extraHeaders options
       ++ [Reason_header (opt_status_code options)
             (reason_phrase_of X (opt_reason_phrase options)
                               (opt_status_code options))]
  else opt_extraHeaders options.

(** ** Properties of computations *)

(** The computation cannot throw. *)
Definition returns {A} (m : M A) : Prop :=
  ∀ w, ∃ a w', m w = (Normal a, w').

(** A computation is failure-atomic when an exception leaves the world it
    started from: nothing assigned, nothing emitted, nothing sent, no timer
    and no continuation added. *)
Definition failure_atomic {A} (m : M A) : Prop :=
  ∀ w e w', m w = (Thrown e, w') → w' = w.

(** A computation keeps a terminated session terminated. *)
Definition stays_terminated {A} (m : M A) : Prop :=
  ∀ w, status w = STATUS_TERMINATED → status (m w).2 = STATUS_TERMINATED.

(** A computation only adds to the trace. *)
Definition appends {A} (m : M A) : Prop :=
  ∀ w, ∃ more, trace (m w).2 = trace w ++ more.

(** ** Re-offer eligibility *)

(** Re-offer eligibility as the specification words it: the peer connection
    is ready, a confirmed dialog exists, and neither pending-reply flag of
    that dialog is set. *)
Definition eligible (s : RTCSession) : Prop :=
  _rtcReady s = true
  ∧ ∃ d, _dialog s = Some d
         ∧ uac_pending_reply d = false ∧ uas_pending_reply d = false.

(** ** Incoming CANCEL and ACK *)

(** The world inside [receiveRequest] when the CANCEL has been answered:
    the status is CANCELED and the 487 is on its way. *)
Definition canceled_by_peer (invite : IncomingRequest) (w : World) : World :=
  with_trace (trace w ++ [reply invite 487 None [] None])
             (with_this (set_status STATUS_CANCELED) w).

(** The world inside [receiveRequest] when an awaited ACK has been taken:
    [ackReceived] is emitted, the status is CONFIRMED, the ACK timer and the
    2xx retransmission timer are cleared. *)
Definition acknowledged (request : IncomingRequest) (w : World) : World :=
  with_timeouts
    (cleared (invite2xxTimer (_timers (this w)))
       (cleared (ackTimer (_timers (this w))) (timeouts w)))
    (next_timeout w)
    (with_this (set_status STATUS_CONFIRMED)
       (with_trace (trace w ++ [emit (Ev.ackReceived request)]) w)).

(** The options of the call of [terminate] for an ACK without the SDP that
    was due. *)
Definition missing_sdp : TerminateOptions :=
  {| opt_cause := Some causes.MISSING_SDP; opt_extraHeaders := [];
     opt_body := None; opt_status_code := Some 400;
     opt_reason_phrase := None |}.

(** ** Timers *)

(** The variable [timeout] of [_setInvite2xxTimer] when the timer is armed
    for the [n]-th retransmission. *)
Definition invite2xx_interval (X : Externals) (n : nat) : Z :=
  Nat.iter n (next_invite2xx_timeout X) (T1 X).

(** The world with the retransmission timer armed for the [n]-th
    retransmission of the 200 to [request], counted from [w]. *)
Definition retransmitting (X : Externals) (request : IncomingRequest)
    (body : option string) (n : nat) (w : World) : World :=
  {| this := set_timers
               (set_invite2xxTimer (Some (next_timeout w + n)%nat)
                                   (_timers (this w)))
               (this w);
     timeouts :=
       timeouts w
       ++ [((next_timeout w + n)%nat,
            (invite2xx_interval X n,
             invite2xxRetransmission request body
                                     (invite2xx_interval X n)))];
     next_timeout := S (next_timeout w + n);
     promises := promises w;
     trace := trace w
              ++ replicate n (reply request 200 None
                                    [contact_header (this w)] body);
     clock := clock w |}.

(** The world with the session timer armed: the old timer is cleared, the
    new one waits [delay] milliseconds to run [cb]. *)
Definition session_timer_armed (delay : Z) (cb : TimerCallback) (w : World)
  : World :=
  {| this := set_sessionTimers
               (set_timer (Some (next_timeout w))
                  (set_running true (_sessionTimers (this w))))
               (this w);
     timeouts := cleared (timer (_sessionTimers (this w))) (timeouts w)
                 ++ [(next_timeout w, (delay, cb))];
     next_timeout := S (next_timeout w);
     promises := promises w;
     trace := trace w;
     clock := clock w |}.

(** The options of the call of [terminate] by the watchdog. *)
Definition session_timer_expired : TerminateOptions :=
  {| opt_cause := Some causes.REQUEST_TIMEOUT; opt_extraHeaders := [];
     opt_body := None; opt_status_code := Some 408;
     opt_reason_phrase := Some "Session Timer Expired" |}.

(** ** DTMF tones *)

Abbreviation chars := String.list_ascii_of_string.

(** The INFO requests with a tone, as [dtmf.send] is called for them. *)
Definition is_dtmf_send (e : Effect) : bool :=
  match e with
  | dtmf_send _ _ _ => true
  | _ => false
  end.

Definition tones_sent (t : list Effect) : list Effect :=
  filter (λ e, is_dtmf_send e = true) t.

(** The calls of [dtmf.send] for a run of characters: one for each
    character that is not a comma. *)
Definition sends (duration : Z) (options : DTMFOptions) (l : list ascii)
  : list Effect :=
  map (λ c, dtmf_send c duration (dtmf_interToneGap options))
      (filter (λ c, Ascii.eqb c ","%char = false) l).

(** The duration and the gap that [sendDTMF] computes from valid options. *)
Definition duration_of (X : Externals) (options : DTMFOptions) : Z :=
  match or_null (dtmf_duration options) with
  | NumInt d =>
      if d <? MIN_DURATION X then MIN_DURATION X
      else if d >? MAX_DURATION X then MAX_DURATION X
      else Z.abs d
  | _ => DEFAULT_DURATION X
  end.

Definition interToneGap_of (X : Externals) (options : DTMFOptions) : Z :=
  match or_null (dtmf_interToneGap options) with
  | NumInt g =>
      if g <? MIN_INTER_TONE_GAP X then MIN_INTER_TONE_GAP X else Z.abs g
  | _ => DEFAULT_INTER_TONE_GAP X
  end.

(** Options that pass the checks of [sendDTMF]. *)
Definition valid_number (a : NumArg) : Prop :=
  match a with
  | NumInvalid _ => False
  | _ => True
  end.

Definition valid_options (options : DTMFOptions) : Prop :=
  valid_number (dtmf_duration options)
  ∧ valid_number (dtmf_interToneGap options).

(** The pending timers that go on with a sequence of tones. *)
Definition is_tone_timer (x : nat * (Z * TimerCallback)) : bool :=
  match x.2.2 with
  | _sendDTMF _ _ _ _ => true
  | _ => false
  end.

Definition next_tone_timer (w : World) : option nat :=
  (λ x : nat * (nat * (Z * TimerCallback)), x.2.1)
    <$> list_find (λ x, is_tone_timer x = true) (timeouts w).

(** Time passes for the tones: [n] times the oldest pending tone timer
    expires. *)
Fixpoint elapse (X : Externals) (n : nat) (w : World) : World :=
  match n with
  | O => w
  | S n =>
      match next_tone_timer w with
      | None => w
      | Some h => elapse X n (fire X h w).2
      end
  end.

(** A send sequence is running: the tones [t] are queued, the characters
    before [p] are done, and its timer, the youngest of all and the only
    tone timer, waits to go on from [p]. *)
Record Sending (d g : Z) (o : DTMFOptions) (t : string) (p : nat)
    (others : list (nat * (Z * TimerCallback))) (before : list Effect)
    (w : World) : Prop := {
  sending_timer :
    ∃ h delay,
      timeouts w = others ++ [(h, (delay, _sendDTMF p d g o))]
      ∧ next_timeout w = S h
      ∧ Forall (λ x, (x.1 < h)%nat ∧ is_tone_timer x = false) others;
  sending_tones : _tones (this w) = Some t;
  sending_status :
    status w = STATUS_CONFIRMED ∨ status w = STATUS_WAITING_FOR_ACK;
  sending_position : (1 ≤ p ≤ length (chars t))%nat;
  sending_sent :
    tones_sent (trace w) = before ++ sends d o (take p (chars t))
}.

(** ** The closed session *)

(** The handles that the session keeps of its own timers: the four SIP
    timers and the session timer. *)
Definition session_handles (s : RTCSession) : list (option nat) :=
  [ackTimer (_timers s); expiresTimer (_timers s);
   invite2xxTimer (_timers s); userNoAnswerTimer (_timers s);
   timer (_sessionTimers s)].

(** The world after [_close] has run on a session that was not terminated:
    the status is TERMINATED, the timers of the session are cleared, the
    dialogs are terminated and forgotten, the UA is told. *)
Definition closed (w : World) : World :=
  {| this := set_earlyDialogs ∅
               (set_dialog None (set_status STATUS_TERMINATED (this w)));
     timeouts :=
       cleared (timer (_sessionTimers (this w)))
         (cleared (userNoAnswerTimer (_timers (this w)))
            (cleared (invite2xxTimer (_timers (this w)))
               (cleared (expiresTimer (_timers (this w)))
                  (cleared (ackTimer (_timers (this w))) (timeouts w)))));
     next_timeout := next_timeout w;
     promises := promises w;
     trace := trace w ++ close_effects (this w);
     clock := clock w |}.

(** The world after [_ended] and after [_failed] on such a session. *)
Definition ended_with (originator : Originator) (message : option AnyMessage)
    (cause : Cause) (w : World) : World :=
  let w' := closed (with_this (set_end_time (Some (clock w))) w) in
  with_trace (trace w' ++ [emit (Ev.ended originator message cause)]) w'.

Definition failed_with (originator : Originator) (message : option AnyMessage)
    (cause : Cause) (w : World) : World :=
  let w' := closed w in
  with_trace (trace w' ++ [emit (Ev.failed originator message cause)]) w'.

(** One more effect on the trace. *)
Definition and_then (e : list Effect) (w : World) : World :=
  with_trace (trace w ++ e) w.

(** The reply to a request that the status of the session does not allow. *)
Definition wrong_status (request : IncomingRequest) : Effect :=
  reply request 403 (Some "Wrong Status") [] None.

(** The states in which an INFO request is taken. *)
Definition takes_info (st : Status) : Prop :=
  st = STATUS_1XX_RECEIVED ∨ st = STATUS_WAITING_FOR_ANSWER
  ∨ st = STATUS_ANSWERED ∨ st = STATUS_WAITING_FOR_ACK
  ∨ st = STATUS_CONFIRMED.

(** The status code and the reason phrase that [reject] replies with. *)
Definition reject_code (options : RejectOptions) : Z :=
  if truthy_number (rj_status_code options)
  then default 403 (rj_status_code options) else 403.

(** The event that announces an offer of the peer within the dialog. *)
Definition offer_event (request : IncomingRequest) : Ev.t :=
  match method request with
  | UPDATE => Ev.update request
  | _ => Ev.reinvite request
  end.

(** The string in lower case, as a match without case reads it. *)
Fixpoint lowercase (s : string) : string :=
  match s with
  | EmptyString => EmptyString
  | String c s => String (lower c) (lowercase s)
  end.

(** ** Dialogs *)

(** The key under which [_createDialog] looks a dialog up: call-id, local
    tag and remote tag of the message, as the role reads them. *)
Definition dialog_key (m : SIPMessage) (type : DialogType) : string :=
  call_id m
  +:+ show (match type with UAS => to_tag m | UAC => from_tag m end)
  +:+ show (match type with UAS => from_tag m | UAC => to_tag m end).

(** The response comes from the endpoint of the dialog. *)
Definition same_dialog (d : Dialog) (response : IncomingResponse) : Prop :=
  id_call_id (id d) = call_id response
  ∧ local_tag (id d) = from_tag response
  ∧ remote_tag (id d) = to_tag response.

(** A request without headers, body or handlers through the dialog [d]. *)
Definition plain (d : Dialog) (m : Method) : Effect :=
  dialog_sendRequest (id d) m [] None NoHandlers.

(** ** Cancelling an outgoing call *)

(** The reason that [terminate] gives to the CANCEL of an outgoing call. *)
Definition cancel_reason_of (X : Externals) (options : TerminateOptions)
  : option string :=
  if truthy_number (opt_status_code options)
  then Some ("SIP ;cause=" +:+ show_number (opt_status_code options)
             +:+ " ;text=" +:+ dquote
             +:+ show (reason_phrase_of X (opt_reason_phrase options)
                                        (opt_status_code options))
             +:+ dquote)
  else None.

(** The BYE that follows the ACK of an answer that cannot be used. *)
Definition bye_with_reason (X : Externals) (d : Dialog) (status_code : Z)
    (reason_phrase : string) : Effect :=
  dialog_sendRequest (id d) BYE
    [Reason_header (Some status_code)
       (reason_phrase_of X (Some reason_phrase) (Some status_code))]
    None NoHandlers.

(** The options of [terminate] in the three callbacks of the transaction
    layer. *)
Definition transport_error_options (X : Externals) : TerminateOptions :=
  {| opt_cause := Some causes.CONNECTION_ERROR; opt_extraHeaders := [];
     opt_body := None; opt_status_code := Some 500;
     opt_reason_phrase := Some (cause_string X causes.CONNECTION_ERROR) |}.

Definition request_timeout_options (X : Externals) : TerminateOptions :=
  {| opt_cause := Some causes.REQUEST_TIMEOUT; opt_extraHeaders := [];
     opt_body := None; opt_status_code := Some 408;
     opt_reason_phrase := Some (cause_string X causes.REQUEST_TIMEOUT) |}.

Definition dialog_error_options (X : Externals) : TerminateOptions :=
  {| opt_cause := Some causes.DIALOG_ERROR; opt_extraHeaders := [];
     opt_body := None; opt_status_code := Some 500;
     opt_reason_phrase := Some (cause_string X causes.DIALOG_ERROR) |}.

(** The world inside [terminate] on an outgoing call without provisional
    response, when the cancellation is noted and the status CANCELED is
    written. *)
Definition canceled_by_user (X : Externals) (options : TerminateOptions)
    (w : World) : World :=
  with_this (λ s, set_status STATUS_CANCELED
                    (set_cancel_reason (cancel_reason_of X options)
                                       (set_is_canceled true s))) w.

(** ** The initial request *)

(** The request with the body that [_sendInitialRequest] gives it. *)
Definition with_body (body : option string) (r : OutgoingRequest)
  : OutgoingRequest :=
  {| o_target := o_target r; o_call_id := o_call_id r;
     o_from_tag := o_from_tag r; o_anonymous := o_anonymous r;
     o_extraHeaders := o_extraHeaders r; o_body := body |}.

(** ** Values between bounds *)

(** The value kept between a lower and an upper bound. *)
Definition clamp (low high n : Z) : Z := Z.max low (Z.min high n).

(** ** The session timer after a message *)

(** The message offers an interval that the session takes. *)
Definition offers_expires (X : Externals) (m : SIPMessage) : bool :=
  truthy_number (session_expires m)
  && (default 0 (session_expires m) >=? MIN_SESSION_EXPIRES X).

(** The interval that the session takes from a message: the one the message
    offers, the default of the session when it offers none or too short a
    one. *)
Definition negotiated_expires (X : Externals) (m : SIPMessage)
    (s : RTCSession) : Z :=
  if offers_expires X m then default 0 (session_expires m)
  else defaultExpires (_sessionTimers s).

(** The refresher that goes with it, [role] being the side of the session:
    "uas" for a request, "uac" for a response. *)
Definition negotiated_refresher (X : Externals) (m : SIPMessage)
    (role : string) : string :=
  if offers_expires X m
  then default role (or_string (session_expires_refresher m) (Some role))
  else role.

(** The world with the interval and the refresher noted and the session
    timer armed for them. *)
Definition session_timer_set (expires : Z) (we_refresh : bool) (w : World)
  : World :=
  let w' :=
    with_this (λ s, set_sessionTimers
                      (set_refresher we_refresh
                         (set_currentExpires (Some expires)
                                             (_sessionTimers s))) s) w in
  if we_refresh then session_timer_armed (expires * 500) sessionRefresh w'
  else session_timer_armed (expires * 1100) sessionExpired w'.

(** The header that tells the peer. *)
Definition Session_Expires_header (expires : Z) (refresher : string)
  : string :=
  "Session-Expires: " +:+ pretty expires +:+ ";refresher=" +:+ refresher.

(** The delay is one that the host waits for as it is. *)
Definition host_takes (delay : Z) : Prop := 1 ≤ delay ≤ TIMEOUT_MAX.

(** The delay that [_runSessionTimer] asks for: half the interval for the
    refresher, 1.1 times the interval otherwise, in milliseconds. *)
Definition session_timer_delay (expires : Z) (we_refresh : bool) : Z :=
  if we_refresh then expires * 500 else expires * 1100.

(** The milliseconds that the host waits for the pending timer with handle
    [h]. *)
Definition waits_for (h : nat) (w : World) : option Z :=
  (λ x : nat * (nat * (Z * TimerCallback)), host_delay x.2.2.1)
    <$> list_find (λ t, t.1 = h) (timeouts w).

(** ** The dialog that an answer confirms *)

(** The confirmed dialog that [_createDialog] makes of a final response: the
    early dialog stored under the key of the response, updated, when there
    is one, and a new dialog otherwise. *)
Definition confirmed_dialog (X : Externals) (response : IncomingResponse)
    (s : RTCSession) : string + Dialog :=
  match _earlyDialogs s !! dialog_key response UAC with
  | Some early_dialog => inr (Dialog_update X early_dialog response UAC)
  | None => new_Dialog X response UAC STATUS_DIALOG_CONFIRMED
  end.

(** The world when [_createDialog] has made [d] the dialog of the session:
    the tags of the response are noted and the early dialog of its key is
    gone. *)
Definition with_confirmed_dialog (response : IncomingResponse) (d : Dialog)
    (w : World) : World :=
  with_this (λ s, set_earlyDialogs
                    (delete (dialog_key response UAC) (_earlyDialogs s))
                    (set_dialog (Some d)
                       (set_to_tag (to_tag response)
                          (set_from_tag (from_tag response) s)))) w.




(** ** Invariants *)

(** The pending timers have distinct handles, all below the next handle. *)
Definition timers_ok (w : World) : Prop :=
  well_timed w ∧ NoDup (pending_handles w).

(** The pending timers that run the refresh or the watchdog of the session
    timer. *)
Definition is_session_timer (x : nat * (Z * TimerCallback)) : bool :=
  match x.2.2 with
  | sessionRefresh | sessionExpired => true
  | _ => false
  end.

Definition pending_session_timers (w : World)
  : list (nat * (Z * TimerCallback)) :=
  filter (λ x, is_session_timer x = true) (timeouts w).

(** Every pending session timer is the one whose handle the session
    keeps. *)
Definition session_timer_kept (w : World) : Prop :=
  Forall (λ x, is_session_timer x = true
               → timer (_sessionTimers (this w)) = Some x.1)
         (timeouts w).

(** The timers are in order and the session timer is kept. *)
Definition one_session_timer (w : World) : Prop :=
  timers_ok w ∧ session_timer_kept w.

(** The status is not CANCELED. *)
Definition not_canceled (w : World) : Prop := status w ≠ STATUS_CANCELED.

(** A computation keeps a property of the world, however it ends. *)
Definition preserves (P : World → Prop) {A} (m : M A) : Prop :=
  ∀ w, P w → P (m w).2.

(** * A library and sessions to compute with *)

(** ** The collaborators *)

(** Modelled from the spec: the table [REASON_PHRASE] of Constants.js, for
    the status codes that the session itself uses (standard SIP reason
    phrases). *)
Definition reason_phrases (c : Z) : option string :=
  if c =? 400 then Some "Bad Request"
  else if c =? 408 then Some "Request Timeout"
  else if c =? 487 then Some "Request Terminated"
  else if c =? 488 then Some "Not Acceptable Here"
  else if c =? 500 then Some "Server Internal Error"
  else None.

(** Modelled from the spec: the strings of the causes in Constants.js that
    the session uses as reason phrases. *)
Definition cause_strings (c : Cause) : string :=
  match c with
  | causes.CONNECTION_ERROR => "Connection Error"
  | causes.REQUEST_TIMEOUT => "Request Timeout"
  | causes.DIALOG_ERROR => "Dialog Error"
  | causes.MISSING_SDP => "Missing SDP"
  | causes.CUSTOM text => text
  | _ => "Error"
  end.

(** Modelled from the spec: [Utils.sipErrorCause], the mapping of a response
    status to a cause (404 to NOT_FOUND, 486 and 600 to BUSY, 301 and 302 to
    REDIRECTED, 408 to REQUEST_TIMEOUT, 480 and 410 to UNAVAILABLE, REJECTED
    otherwise). *)
Definition sip_error_cause (c : Z) : Cause :=
  if (c =? 486) || (c =? 600) then causes.BUSY
  else if c =? 404 then causes.NOT_FOUND
  else if (c =? 301) || (c =? 302) then causes.REDIRECTED
  else if c =? 408 then causes.REQUEST_TIMEOUT
  else if (c =? 480) || (c =? 410) then causes.UNAVAILABLE
  else causes.REJECTED.

(** Modelled from the spec: the constructor of Dialog.js.  A dialog is
    created with a role from a SIP message and is identified by call-id,
    local tag and remote tag; construction fails on a malformed message,
    here one without Contact header. *)
Definition dialog_of (m : SIPMessage) (type : DialogType)
    (state : DialogState) : string + Dialog :=
  match contact m with
  | None => inl "unable to create a Dialog without Contact header field"
  | Some _ =>
      inr {| id := {| id_call_id := call_id m;
                      local_tag := match type with
                                   | UAS => to_tag m | UAC => from_tag m end;
                      remote_tag := match type with
                                    | UAS => from_tag m | UAC => to_tag m end |};
             dialog_state := state;
             uac_pending_reply := false;
             uas_pending_reply := false |}
  end.

(** Modelled from the spec: the values that the other files of the library
    give to [Externals].  The timers are those of RFC 3261 (T1 = 500 ms,
    T2 = 4 s, Timer H = 64 T1); the session-timer and DTMF constants, the tag,
    the call-id and the addresses are sample values. *)
Definition library : Externals :=
  {| REASON_PHRASE := reason_phrases;
     cause_string := cause_strings;
     SESSION_EXPIRES := 90;
     MIN_SESSION_EXPIRES := 60;
     T1 := 500;
     T2 := 4000;
     TIMER_H := 64 * 500;
     DEFAULT_DURATION := 100;
     MIN_DURATION := 70;
     MAX_DURATION := 6000;
     DEFAULT_INTER_TONE_GAP := 500;
     MIN_INTER_TONE_GAP := 50;
     newTag := "tag1";
     sipErrorCause := sip_error_cause;
     new_Dialog := dialog_of;
     Dialog_update := fun d m type =>
       {| id := id d; dialog_state := STATUS_DIALOG_CONFIRMED;
          uac_pending_reply := uac_pending_reply d;
          uas_pending_reply := uas_pending_reply d |};
     ua_session_timers := true;
     ua_session_timers_refresh_method := UPDATE;
     ua_uri := "sip:alice@example.com";
     ua_normalizeTarget := fun t =>
       if String.eqb t "" then None else Some t;
     ua_contact_toString := fun anonymous =>
       if anonymous then "<sip:anonymous@anonymous.invalid;transport=ws>"
       else "<sip:alice@192.0.2.1;transport=ws;ob>";
     new_call_id := "call1" |}.

(** ** Options and messages *)

Definition no_connect_options : ConnectOptions :=
  {| co_eventHandlers := []; co_extraHeaders := []; co_data := None;
     co_sessionTimersExpires := NumAbsent; co_anonymous := false |}.

Definition no_terminate_options : TerminateOptions :=
  {| opt_cause := None; opt_extraHeaders := []; opt_body := None;
     opt_status_code := None; opt_reason_phrase := None |}.

Definition no_dtmf_options : DTMFOptions :=
  {| dtmf_duration := NumAbsent; dtmf_interToneGap := NumAbsent;
     dtmf_extraHeaders := [] |}.

Definition attachment : Data := [("ticket", "42")].

Definition connect_options_with_data : ConnectOptions :=
  {| co_eventHandlers := []; co_extraHeaders := [];
     co_data := Some attachment;
     co_sessionTimersExpires := NumAbsent; co_anonymous := false |}.

(** A final response with neither body nor Contact. *)
Definition bare_200 : IncomingResponse :=
  {| status_code := 200;
     response_message :=
       {| call_id := "call1"; from_tag := Some "tag1"; to_tag := Some "tag2";
          body := None; content_type := None; contact := None;
          session_expires := None; session_expires_refresher := None |} |}.

Definition some_message : SIPMessage :=
  {| call_id := "call2"; from_tag := Some "tag3"; to_tag := None;
     body := Some "v=0"; content_type := Some "application/sdp";
     contact := Some "<sip:carol@192.0.2.7>";
     session_expires := None; session_expires_refresher := None |}.

Definition incoming_invite : IncomingRequest :=
  {| method := INVITE; request_message := some_message |}.

Definition cancel_request : IncomingRequest :=
  {| method := CANCEL; request_message := some_message |}.

(** A re-INVITE without SDP, the ACK without SDP and the BYE of the same
    dialog. *)
Definition late_reinvite : IncomingRequest :=
  {| method := INVITE;
     request_message :=
       {| call_id := "call1"; from_tag := Some "tag2"; to_tag := Some "tag1";
          body := None; content_type := None;
          contact := Some "<sip:bob@192.0.2.9>";
          session_expires := None; session_expires_refresher := None |} |}.

Definition bare_ack : IncomingRequest :=
  {| method := ACK; request_message := late_reinvite |}.

Definition bye_request : IncomingRequest :=
  {| method := BYE; request_message := late_reinvite |}.

Definition idle_dialog : Dialog :=
  {| id := {| id_call_id := "call1"; local_tag := Some "tag1";
              remote_tag := Some "tag2" |};
     dialog_state := STATUS_DIALOG_CONFIRMED;
     uac_pending_reply := false;
     uas_pending_reply := false |}.

Definition busy_dialog : Dialog :=
  {| id := {| id_call_id := "call1"; local_tag := Some "tag1";
              remote_tag := Some "tag2" |};
     dialog_state := STATUS_DIALOG_CONFIRMED;
     uac_pending_reply := true;
     uas_pending_reply := false |}.

(** ** Sessions *)

(** The user calls: [connect], then the two continuations of the initial
    request. *)
Definition calling : list Input :=
  [call_connect (Some "sip:bob@example.com") (Some "v=0") no_connect_options
                false;
   next_tick; next_tick].

(** A fresh session that the user terminated at once. *)
Definition given_up : World :=
  run library [call_terminate no_terminate_options] (new_world library 0).

(** The world inside [terminate], called on a fresh session without
    options, when [this._status = C.STATUS_CANCELED] has just run. *)
Definition canceling : World :=
  with_this (fun s => set_status STATUS_CANCELED
                        (set_cancel_reason None (set_is_canceled true s)))
            (new_world library 0).

(** An incoming call that rings: the INVITE is pending and not answered. *)
Definition ringing : World :=
  with_this (fun s => set_request (Some (IncomingInvite incoming_invite))
                        (set_status STATUS_WAITING_FOR_ANSWER s))
            (new_world library 0).

(** A session in the state CONFIRMED and nothing else. *)
Definition confirmed_session : World :=
  with_this (set_status STATUS_CONFIRMED) (new_world library 0).

(** An established session. *)
Definition established : World :=
  with_this (fun s => set_contact (Some "<sip:alice@192.0.2.1;transport=ws>")
                        (set_dialog (Some idle_dialog)
                           (set_status STATUS_CONFIRMED s)))
            (new_world library 0).

(** An established session whose dialog waits for the reply to a re-INVITE
    it sent. *)
Definition reinviting : World :=
  with_this (fun s => set_dialog (Some busy_dialog)
                        (set_status STATUS_CONFIRMED s))
            (new_world library 0).

(** The established session after the 200 to a re-INVITE was sent. *)
Definition waiting_for_ack : World :=
  with_this (set_status STATUS_WAITING_FOR_ACK) established.

(** The established session has answered a re-INVITE without SDP with its
    own offer and waits for the ACK that carries the answer. *)
Definition awaiting_ack : World :=
  with_this (set_late_sdp true)
    (reinvite_sendAnswer library late_reinvite (Some "v=0") true
                         established).2.

(** The established session with 90 seconds negotiated for the session
    timer, the peer being the refresher. *)
Definition timed_session : World :=
  with_this (fun s => set_sessionTimers
                        (set_currentExpires (Some 90) (_sessionTimers s)) s)
            established.

(** The established session receives a re-INVITE without SDP, whose offer
    waits in the queue of the peer connection, and then a BYE. *)
Definition hung_up : World :=
  run library [request_received late_reinvite None;
               request_received bye_request None] established.

(** An outgoing call whose INVITE is sent. *)
Definition invite_sent : World := run library calling (new_world library 0).

(** An INFO with a DTMF tone, a request with a method that the session does
    not know, and a re-INVITE that the user rejects without options. *)
Definition dtmf_info : IncomingRequest :=
  {| method := INFO;
     request_message :=
       {| call_id := "call1"; from_tag := Some "tag2"; to_tag := Some "tag1";
          body := Some "Signal=1"; content_type := Some "Application/DTMF-Relay";
          contact := None;
          session_expires := None; session_expires_refresher := None |} |}.

Definition options_request : IncomingRequest :=
  {| method := OTHER "OPTIONS"; request_message := late_reinvite |}.

Definition no_reject_options : RejectOptions :=
  {| rj_status_code := None; rj_reason_phrase := None;
     rj_extraHeaders := [] |}.

(** Responses to the INVITE of [calling]: ringing, busy, and an answer
    without SDP that has a Contact header. *)
Definition ringing_180 : IncomingResponse :=
  {| status_code := 180;
     response_message :=
       {| call_id := "call1"; from_tag := Some "tag1"; to_tag := Some "tag2";
          body := None; content_type := None;
          contact := Some "<sip:bob@192.0.2.9>";
          session_expires := None; session_expires_refresher := None |} |}.

Definition busy_486 : IncomingResponse :=
  {| status_code := 486; response_message := bare_200 |}.

Definition sdpless_200 : IncomingResponse :=
  {| status_code := 200; response_message := ringing_180 |}.

(** The same answer from another branch of a forked INVITE. *)
Definition forked_200 : IncomingResponse :=
  {| status_code := 200;
     response_message :=
       {| call_id := "call1"; from_tag := Some "tag1"; to_tag := Some "tag9";
          body := Some "v=0"; content_type := Some "application/sdp";
          contact := Some "<sip:bob@192.0.2.10>";
          session_expires := None; session_expires_refresher := None |} |}.

(** An answer with SDP and Contact, and the call that waits for it with a
    reason to give up: the user is busy elsewhere. *)
Definition answer_200 : IncomingResponse :=
  {| status_code := 200;
     response_message :=
       {| call_id := "call1"; from_tag := Some "tag1"; to_tag := Some "tag2";
          body := Some "v=0"; content_type := Some "application/sdp";
          contact := Some "<sip:bob@192.0.2.9>";
          session_expires := None; session_expires_refresher := None |} |}.

Definition busy_elsewhere : TerminateOptions :=
  {| opt_cause := None; opt_extraHeaders := []; opt_body := None;
     opt_status_code := Some 486; opt_reason_phrase := Some "Busy" |}.

(** The INVITE of [calling], as it was sent. *)
Definition sent_invite : OutgoingRequest :=
  {| o_target := "sip:bob@example.com"; o_call_id := "call1";
     o_from_tag := "tag1"; o_anonymous := false;
     o_extraHeaders :=
       ["Contact: <sip:alice@192.0.2.1;transport=ws;ob>";
        "Content-Type: application/sdp"; "Session-Expires: 90"];
     o_body := Some "v=0" |}.

(** The call of [calling] rings. *)
Definition ringing_call : World :=
  run library [response_received ringing_180] invite_sent.

(** The dialog that the answer of the other branch opens. *)
Definition forked_dialog : Dialog :=
  {| id := {| id_call_id := "call1"; local_tag := Some "tag1";
              remote_tag := Some "tag9" |};
     dialog_state := STATUS_DIALOG_CONFIRMED;
     uac_pending_reply := false;
     uas_pending_reply := false |}.

(** A call placed with anonymous identity and one more header. *)
Definition anonymous_options : ConnectOptions :=
  {| co_eventHandlers := ["progress"]; co_extraHeaders := ["X-Ticket: 42"];
     co_data := None; co_sessionTimersExpires := NumInt 120;
     co_anonymous := true |}.

(** Tones that last too long, with a gap that is too short. *)
Definition long_tones : DTMFOptions :=
  {| dtmf_duration := NumInt 10000; dtmf_interToneGap := NumInt 10;
     dtmf_extraHeaders := [] |}.

(** An UPDATE without body that asks for 120 seconds, the peer refreshing;
    one that asks for 30 seconds; the 200 to a refresh of the session. *)
Definition refresh_update : IncomingRequest :=
  {| method := UPDATE;
     request_message :=
       {| call_id := "call1"; from_tag := Some "tag2"; to_tag := Some "tag1";
          body := None; content_type := None;
          contact := Some "<sip:bob@192.0.2.9>";
          session_expires := Some 120;
          session_expires_refresher := Some "uac" |} |}.

Definition hasty_update : IncomingRequest :=
  {| method := UPDATE;
     request_message :=
       {| call_id := "call1"; from_tag := Some "tag2"; to_tag := Some "tag1";
          body := None; content_type := None;
          contact := Some "<sip:bob@192.0.2.9>";
          session_expires := Some 30;
          session_expires_refresher := Some "uac" |} |}.

(** A re-INVITE with an offer, and the ACK that follows its answer. *)
Definition offer_reinvite : IncomingRequest :=
  {| method := INVITE;
     request_message :=
       {| call_id := "call1"; from_tag := Some "tag2"; to_tag := Some "tag1";
          body := Some "v=0"; content_type := Some "application/sdp";
          contact := Some "<sip:bob@192.0.2.9>";
          session_expires := None; session_expires_refresher := None |} |}.

Definition update_options : RenegotiateOptions :=
  {| ro_rtcOfferConstraints := None; ro_useUpdate := true;
     ro_extraHeaders := ["X-Reason: hold"] |}.

(** The call of [calling] is answered with SDP; the answer waits for the
    peer connection. *)
Definition answered_call : World :=
  run library [response_received answer_200] invite_sent.

(** The call is answered and the peer refreshes the session twice: the
    first time it leaves the refresh to itself, the second time to the
    session. *)
Definition two_refreshes : list Input :=
  calling ++ [response_received answer_200;
              request_received refresh_update None;
              request_received hasty_update None].

(** An UPDATE without body by which the peer asks for a session of 1952258
    seconds, more than 22 days, that it refreshes itself; one that asks for
    4294968 seconds and leaves the refresh to the session. *)
Definition long_update : IncomingRequest :=
  {| method := UPDATE;
     request_message :=
       {| call_id := "call1"; from_tag := Some "tag2"; to_tag := Some "tag1";
          body := None; content_type := None;
          contact := Some "<sip:bob@192.0.2.9>";
          session_expires := Some 1952258;
          session_expires_refresher := Some "uac" |} |}.

Definition longer_update : IncomingRequest :=
  {| method := UPDATE;
     request_message :=
       {| call_id := "call1"; from_tag := Some "tag2"; to_tag := Some "tag1";
          body := None; content_type := None;
          contact := Some "<sip:bob@192.0.2.9>";
          session_expires := Some 4294968;
          session_expires_refresher := Some "uas" |} |}.

(** * Properties *)

(** ** Reasoning about session code *)

(** Unfold the plumbing of the monad and compute. *)
Ltac run_M :=
  unfold when, ret, bind, throw, catch, get_this, queue_then, assign, do,
         new_Date, then_, clearTimeout, setTimeout in *;
  cbn [fst snd this timeouts next_timeout promises trace clock
       with_this with_timeouts with_promises with_trace] in *.

(** ** terminate in the states of an incoming call that is not answered *)

(** C10. In the states INVITE_RECEIVED, WAITING_FOR_ANSWER and ANSWERED the
    switch of [terminate] has no case: the call returns normally and the
    world is the same, so the status is kept, nothing is sent and no event
    is emitted. *)
Theorem terminate_without_case (X : Externals) (options : TerminateOptions)
    (w : World) :
  status w = STATUS_INVITE_RECEIVED
  ∨ status w = STATUS_WAITING_FOR_ANSWER
  ∨ status w = STATUS_ANSWERED →
  terminate X options w = (Normal tt, w).
Proof.
  unfold status, terminate. run_M.
  intros [H | [H | H]]; rewrite H; reflexivity.
Qed.

Lemma terminate_without_case_witness :
  (status ringing = STATUS_INVITE_RECEIVED
   ∨ status ringing = STATUS_WAITING_FOR_ANSWER
   ∨ status ringing = STATUS_ANSWERED)
  ∧ terminate library
      {| opt_cause := None; opt_extraHeaders := []; opt_body := None;
         opt_status_code := Some 486; opt_reason_phrase := None |}
      ringing
    = (Normal tt, ringing).
Proof.
  split.
  - right; left; reflexivity.
  - apply (terminate_without_case library); right; left; reflexivity.
Defined.

(** ** renegotiate *)

Lemma _isReadyToReOffer_eligible (s : RTCSession) :
  _isReadyToReOffer s = true ↔ eligible s.
Proof.
  unfold _isReadyToReOffer, eligible.
  destruct (_rtcReady s); simpl.
  - destruct (_dialog s) as [d|].
    + destruct (uac_pending_reply d) eqn:Huac,
               (uas_pending_reply d) eqn:Huas; simpl;
        (split; [intros ?; try discriminate | intros [_ (d' & Hd & ? & ?)]]);
        try (split; [done | exists d; done]);
        injection Hd as <-; congruence.
    + split; [discriminate | intros [_ (d & ? & _)]; discriminate].
  - split; [discriminate | intros [? _]; discriminate].
Qed.

Lemma renegotiate_not_ready options done (w : World) :
  _isReadyToReOffer (this w) = false →
  renegotiate options done w = (Normal false, w).
Proof.
  intros H. unfold renegotiate. run_M. rewrite H.
  by destruct (bool_decide _).
Qed.

Lemma renegotiate_true options done (w w' : World) :
  renegotiate options done w = (Normal true, w') →
  (_status (this w) = STATUS_WAITING_FOR_ACK
   ∨ _status (this w) = STATUS_CONFIRMED)
  ∧ _isReadyToReOffer (this w) = true.
Proof.
  unfold renegotiate. run_M.
  case_bool_decide as Hst; [discriminate|].
  destruct (_isReadyToReOffer (this w)); [|discriminate].
  intros _. split; [|done].
  destruct (decide (_status (this w) = STATUS_WAITING_FOR_ACK)); [by left|].
  destruct (decide (_status (this w) = STATUS_CONFIRMED)); [by right|].
  exfalso; apply Hst; done.
Qed.

(** A call of [renegotiate] never throws. *)
Lemma renegotiate_returns options done (w : World) :
  ∃ b w', renegotiate options done w = (Normal b, w').
Proof.
  unfold renegotiate. run_M.
  case_bool_decide; [eauto|].
  destruct (_isReadyToReOffer (this w)); [|eauto]. simpl.
  destruct (ro_useUpdate options); unfold _sendUpdate, _sendReinvite;
    run_M; eauto.
Qed.

(** C7. [renegotiate] returns false, and leaves the world as it is (nothing
    sent, no field changed), whenever the session is not eligible to
    re-offer; and it returns true only for an eligible session. *)
Theorem renegotiate_eligibility
    (options : RenegotiateOptions) (done : bool) (w : World) :
  (¬ eligible (this w) →
   renegotiate options done w = (Normal false, w))
  ∧ (∀ w', renegotiate options done w = (Normal true, w') →
           eligible (this w)).
Proof.
  split.
  - intros Hne. apply renegotiate_not_ready.
    destruct (_isReadyToReOffer (this w)) eqn:H; [|done].
    exfalso. by apply Hne, _isReadyToReOffer_eligible.
  - intros w' H. apply _isReadyToReOffer_eligible.
    by apply renegotiate_true in H as [_ ?].
Qed.

Lemma renegotiate_eligibility_witness :
  ¬ eligible (this reinviting)
  ∧ renegotiate {| ro_rtcOfferConstraints := None; ro_useUpdate := false;
                   ro_extraHeaders := [] |} false reinviting
    = (Normal false, reinviting).
Proof.
  assert (H : ¬ eligible (this reinviting)).
  { intros [_ (d & Hd & Huac & _)]. injection Hd as <-. discriminate. }
  split; [exact H|].
  exact (proj1 (renegotiate_eligibility _ false reinviting) H).
Defined.

(** ** Computations that cannot throw *)

Lemma returns_ret {A} (a : A) : returns (ret a).
Proof. intros w. by exists a, w. Qed.

Lemma returns_bind {A B} (m : M A) (k : A → M B) :
  returns m → (∀ a, returns (k a)) → returns (bind m k).
Proof.
  intros Hm Hk w. destruct (Hm w) as (a & w1 & E).
  unfold bind. rewrite E. apply Hk.
Qed.

Lemma returns_assign f : returns (assign f).
Proof. intros w. by eexists _, _. Qed.

Lemma returns_do e : returns (do e).
Proof. intros w. by eexists _, _. Qed.

Lemma returns_then_ k : returns (then_ k).
Proof. intros w. by eexists _, _. Qed.

Lemma returns_queue_then k : returns (queue_then k).
Proof. intros w. by eexists _, _. Qed.

Lemma returns_get_this : returns get_this.
Proof. intros w. by eexists _, _. Qed.

Lemma returns_new_Date : returns new_Date.
Proof. intros w. by eexists _, _. Qed.

Lemma returns_setTimeout cb delay : returns (setTimeout cb delay).
Proof. intros w. by eexists _, _. Qed.

Lemma returns_clearTimeout h : returns (clearTimeout h).
Proof. intros w. by eexists _, _. Qed.

Lemma returns_when b m : returns m → returns (when b m).
Proof. destruct b; [done|]. intros _. apply returns_ret. Qed.

Lemma returns_for_each {A} (f : A → M unit) (l : list A) :
  (∀ a, returns (f a)) → returns (for_each f l).
Proof.
  intros Hf. induction l as [|a l IH]; simpl.
  - apply returns_ret.
  - apply returns_bind; [apply Hf | intros _; apply IH].
Qed.

Create HintDb returns discriminated.
#[local] Hint Resolve returns_ret returns_assign returns_do returns_then_
  returns_queue_then
  returns_get_this returns_new_Date returns_setTimeout returns_clearTimeout
  : returns.

Ltac returns_step :=
  lazymatch goal with
  | |- returns (bind _ _) => apply returns_bind; [|intros ?]
  | |- returns (when _ _) => apply returns_when
  | |- returns (for_each _ _) => apply returns_for_each; intros ?
  | |- returns (if ?b then _ else _) => destruct b
  | |- returns (match ?x with _ => _ end) => destruct x
  | |- returns _ => solve [auto with returns]
  end.

Ltac returns_auto := repeat returns_step.

Lemma returns__close : returns _close.
Proof. unfold _close, terminate_early_dialog. returns_auto. Qed.

#[local] Hint Resolve returns__close : returns.

Lemma returns__ended o m c : returns (_ended o m c).
Proof. unfold _ended. returns_auto. Qed.

Lemma returns__failed o m c : returns (_failed o m c).
Proof. unfold _failed. returns_auto. Qed.

#[local] Hint Resolve returns__ended returns__failed : returns.

Lemma returns__sendDTMF_run p d g o : returns (_sendDTMF_run p d g o).
Proof. unfold _sendDTMF_run. returns_auto. Qed.

#[local] Hint Resolve returns__sendDTMF_run : returns.

(** What a throwing call leaves behind. *)
Lemma thrown_returns {A} (m : M A) w e w' :
  returns m → m w = (Thrown e, w') → False.
Proof. intros H E. destruct (H w) as (a & w1 & E'). congruence. Qed.

(** ** What closing a session does *)

Lemma for_each_early_dialogs (l : list (string * Dialog)) (w : World) :
  for_each terminate_early_dialog l w
  = (Normal tt,
     with_trace (trace w ++ map (λ kd : string * Dialog,
                                   dialog_terminate (id kd.2)) l)
       (with_this (fun s => set_earlyDialogs
                              (foldl (λ m kd, delete kd.1 m)
                                     (_earlyDialogs s) l) s) w)).
Proof.
  revert w. induction l as [|kd l IH]; intros w.
  - simpl. unfold ret. f_equal. destruct w as [s ? ? ? ? ?], s.
    unfold with_trace, with_this, set_earlyDialogs; simpl.
    by rewrite app_nil_r.
  - cbn [for_each]. unfold bind at 1, terminate_early_dialog at 1.
    unfold bind at 1, do at 1, assign at 1. rewrite IH. f_equal.
    unfold with_trace, with_this, set_earlyDialogs; simpl.
    by rewrite <- app_assoc.
Qed.

Lemma _close_status (w : World) : status (_close w).2 = STATUS_TERMINATED.
Proof.
  unfold _close. run_M. case_decide as H; [done|].
  destruct (_dialog (this w)); run_M; by rewrite for_each_early_dialogs.
Qed.

Lemma _close_trace (w : World) :
  status w ≠ STATUS_TERMINATED →
  trace (_close w).2 = trace w ++ close_effects (this w).
Proof.
  intros Hw. unfold _close, close_effects. run_M.
  case_decide as H; [done|].
  destruct (_dialog (this w)); run_M; rewrite for_each_early_dialogs;
    simpl; by rewrite <- ?app_assoc.
Qed.

Lemma _close_terminated (w : World) :
  status w = STATUS_TERMINATED → _close w = (Normal tt, w).
Proof. intros Hw. unfold _close. run_M. by case_decide. Qed.

Lemma _failed_status o m c (w : World) :
  status (_failed o m c w).2 = STATUS_TERMINATED.
Proof.
  unfold _failed, bind. pose proof (_close_status w) as H.
  destruct (returns__close w) as ([] & w1 & E). rewrite E in *. done.
Qed.

Lemma _failed_trace o m c (w : World) :
  status w ≠ STATUS_TERMINATED →
  trace (_failed o m c w).2
  = trace w ++ close_effects (this w) ++ [emit (Ev.failed o m c)].
Proof.
  intros Hw. unfold _failed, bind. pose proof (_close_trace w Hw) as H.
  destruct (returns__close w) as ([] & w1 & E). rewrite E in *.
  simpl in *. by rewrite H, <- app_assoc.
Qed.

Lemma _failed_normal o m c (w : World) : (_failed o m c w).1 = Normal tt.
Proof.
  destruct (returns__failed o m c w) as ([] & w1 & E). by rewrite E.
Qed.

Lemma _ended_status o m c (w : World) :
  status (_ended o m c w).2 = STATUS_TERMINATED.
Proof.
  unfold _ended. run_M.
  set (w0 := with_this _ w).
  pose proof (_close_status w0) as H.
  destruct (returns__close w0) as ([] & w1 & E). rewrite E in *. done.
Qed.

Lemma _ended_trace o m c (w : World) :
  status w ≠ STATUS_TERMINATED →
  trace (_ended o m c w).2
  = trace w ++ close_effects (this w) ++ [emit (Ev.ended o m c)].
Proof.
  intros Hw. unfold _ended. run_M.
  set (w0 := with_this _ w).
  assert (Hw0 : status w0 ≠ STATUS_TERMINATED) by done.
  pose proof (_close_trace w0 Hw0) as H.
  destruct (returns__close w0) as ([] & w1 & E). rewrite E in *.
  simpl in *. rewrite H, <- app_assoc. done.
Qed.

Lemma _ended_normal o m c (w : World) : (_ended o m c w).1 = Normal tt.
Proof.
  destruct (returns__ended o m c w) as ([] & w1 & E). by rewrite E.
Qed.

(** ** Calls that fail before they act *)

Lemma failure_atomic_returns {A} (m : M A) : returns m → failure_atomic m.
Proof. intros H w e w' E. by destruct (thrown_returns m w e w'). Qed.

Lemma failure_atomic_throw {A} e : failure_atomic (@throw A e).
Proof. intros w e' w' E. by injection E. Qed.

Lemma failure_atomic_get {A} (k : RTCSession → M A) :
  (∀ s, failure_atomic (k s)) → failure_atomic (bind get_this k).
Proof. intros H w e w'. unfold bind, get_this. apply H. Qed.

Lemma failure_atomic_then {A B} (m : M A) (k : A → M B) :
  failure_atomic m → (∀ a, returns (k a)) → failure_atomic (bind m k).
Proof.
  intros Hm Hk w e w'. unfold bind.
  destruct (m w) as [[a|e1] w1] eqn:E.
  - intros E'. by destruct (thrown_returns (k a) w1 e w').
  - intros E'. injection E' as <- <-. by apply (Hm w e1).
Qed.

Lemma failure_atomic_sendRequest m hs b h :
  failure_atomic (sendRequest m hs b h).
Proof.
  unfold sendRequest. apply failure_atomic_get. intros s.
  destruct (_dialog s).
  - apply failure_atomic_returns; auto with returns.
  - apply failure_atomic_throw.
Qed.

Lemma failure_atomic_request_cancel r : failure_atomic (request_cancel r).
Proof.
  unfold request_cancel. apply failure_atomic_get. intros s.
  destruct (_request s) as [[?|?]|];
    try apply failure_atomic_throw.
  apply failure_atomic_returns; auto with returns.
Qed.

Lemma failure_atomic_bind_ret {A B} (a : A) (k : A → M B) :
  failure_atomic (k a) → failure_atomic (bind (ret a) k).
Proof. done. Qed.

Lemma failure_atomic_bind_throw {A B} e (k : A → M B) :
  failure_atomic (bind (throw e) k).
Proof. intros w e' w' E. by injection E. Qed.

Ltac atomic_step :=
  lazymatch goal with
  | |- failure_atomic (throw _) => apply failure_atomic_throw
  | |- failure_atomic (bind (throw _) _) => apply failure_atomic_bind_throw
  | |- failure_atomic (bind (ret _) _) => apply failure_atomic_bind_ret
  | |- failure_atomic (bind (match ?x with _ => _ end) _) => destruct x
  | |- failure_atomic (bind get_this _) =>
      apply failure_atomic_get; intros ?
  | |- failure_atomic (if ?b then _ else _) => destruct b
  | |- failure_atomic (match ?x with _ => _ end) => destruct x
  | |- failure_atomic (bind (if ?b then _ else _) _) => destruct b
  | |- failure_atomic _ =>
      first [ apply failure_atomic_returns; solve [returns_auto]
            | apply failure_atomic_then;
              [ first [ apply failure_atomic_sendRequest
                      | apply failure_atomic_request_cancel ]
              | intros ?; solve [returns_auto] ] ]
  end.

Lemma failure_atomic_terminate (X : Externals) options :
  failure_atomic (terminate X options).
Proof. unfold terminate. repeat atomic_step. Qed.

Lemma failure_atomic_sendDTMF (X : Externals) tones options :
  failure_atomic (sendDTMF X tones options).
Proof.
  unfold sendDTMF. destruct tones; repeat atomic_step.
Qed.

Lemma failure_atomic_sendInfo contentType body :
  failure_atomic (sendInfo contentType body).
Proof. unfold sendInfo. repeat atomic_step. Qed.

(** [connect] stores [options.data] first and validates afterwards: the part
    after the assignment is failure-atomic, the call is not. *)
Lemma connect_thrown (X : Externals) target sdp options init w e w' :
  connect X target sdp options init w = (Thrown e, w') →
  w' = with_this (fun s => set_data (default (_data s) (co_data options)) s)
                 w.
Proof.
  unfold connect. unfold bind at 1, assign at 1.
  match goal with
  | |- ?m ?w1 = _ → _ =>
      assert (H : failure_atomic m); [|by apply H]
  end.
  repeat atomic_step.
  apply failure_atomic_returns.
  unfold _newRTCSession, _sendInitialRequest. returns_auto.
Qed.

(** C8. A call of [connect] without target on a fresh session, with a
    [data] option, throws its TypeError and leaves the session with the new
    [data] attachment: the world after the failed call is not the world
    before it.  The other fields, the trace, the timers and the
    continuations are the same. *)
Theorem connect_failure_keeps_data :
  connect library None (Some "v=0") connect_options_with_data false
          (new_world library 0)
  = (Thrown (TypeError "Not enough arguments"),
     with_this (set_data attachment) (new_world library 0))
  ∧ _data (this (new_world library 0)) = []
  ∧ _data (this (with_this (set_data attachment) (new_world library 0)))
    = attachment.
Proof. split; [reflexivity | split; reflexivity]. Qed.

(** ** The terminated session *)

Lemma stays_terminated_ret {A} (a : A) : stays_terminated (ret a).
Proof. by intros w. Qed.

Lemma stays_terminated_throw {A} e : stays_terminated (@throw A e).
Proof. by intros w. Qed.

Lemma stays_terminated_bind {A B} (m : M A) (k : A → M B) :
  stays_terminated m → (∀ a, stays_terminated (k a)) →
  stays_terminated (bind m k).
Proof.
  intros Hm Hk w H. unfold bind. specialize (Hm w H).
  destruct (m w) as [[a|e] w1]; simpl in *; [by apply Hk | done].
Qed.

Lemma stays_terminated_get {A} (k : RTCSession → M A) :
  (∀ s, _status s = STATUS_TERMINATED → stays_terminated (k s)) →
  stays_terminated (bind get_this k).
Proof. intros Hk w H. unfold bind, get_this. by apply Hk. Qed.

Lemma stays_terminated_catch {A} (m : M A) h :
  stays_terminated m → (∀ e, stays_terminated (h e)) →
  stays_terminated (catch m h).
Proof.
  intros Hm Hh w H. unfold catch. specialize (Hm w H).
  destruct (m w) as [[a|e] w1]; simpl in *; [done | by apply Hh].
Qed.

Lemma stays_terminated_assign f :
  (∀ s, _status (f s) = _status s) → stays_terminated (assign f).
Proof. intros Hf w H. unfold status in *. simpl. by rewrite Hf. Qed.

Lemma stays_terminated_set_status :
  stays_terminated (assign (set_status STATUS_TERMINATED)).
Proof. by intros w H. Qed.

Lemma stays_terminated_do e : stays_terminated (do e).
Proof. by intros w. Qed.

Lemma stays_terminated_then_ k : stays_terminated (then_ k).
Proof. by intros w. Qed.

Lemma stays_terminated_queue_then k : stays_terminated (queue_then k).
Proof. by intros w. Qed.

Lemma stays_terminated_new_Date : stays_terminated new_Date.
Proof. by intros w. Qed.

Lemma stays_terminated_setTimeout cb d : stays_terminated (setTimeout cb d).
Proof. by intros w. Qed.

Lemma stays_terminated_clearTimeout h : stays_terminated (clearTimeout h).
Proof. by intros w. Qed.

Lemma stays_terminated_when b m :
  stays_terminated m → stays_terminated (when b m).
Proof. destruct b; [done|]. intros _. apply stays_terminated_ret. Qed.

Lemma stays_terminated_for_each {A} (f : A → M unit) l :
  (∀ a, stays_terminated (f a)) → stays_terminated (for_each f l).
Proof.
  intros Hf. induction l as [|a l IH]; simpl.
  - apply stays_terminated_ret.
  - apply stays_terminated_bind; [apply Hf | intros _; apply IH].
Qed.

Create HintDb terminated discriminated.
#[local] Hint Resolve stays_terminated_ret stays_terminated_throw
  stays_terminated_do stays_terminated_then_ stays_terminated_queue_then
  stays_terminated_new_Date
  stays_terminated_setTimeout stays_terminated_clearTimeout
  stays_terminated_set_status : terminated.

(** One step of a proof that a function keeps the terminated status: the
    status read from the session is known, the tests on it are decided. *)
Ltac terminated_step :=
  lazymatch goal with
  | |- stays_terminated (bind get_this _) =>
      let s := fresh "s" in
      let Hs := fresh "Hs" in
      apply stays_terminated_get; intros s Hs; try rewrite !Hs
  | |- stays_terminated (bind _ _) =>
      apply stays_terminated_bind; [|intros ?]
  | |- stays_terminated (catch _ _) =>
      apply stays_terminated_catch; [|intros ?]
  | |- stays_terminated (when _ _) => apply stays_terminated_when
  | |- stays_terminated (for_each _ _) =>
      apply stays_terminated_for_each; intros ?
  | |- stays_terminated (assign _) =>
      first [ apply stays_terminated_set_status
            | apply stays_terminated_assign; intros ?; reflexivity ]
  | |- stays_terminated (if bool_decide _ then _ else _) =>
      case_bool_decide; try (exfalso; naive_solver congruence)
  | |- stays_terminated (if bool_decide _ || _ then _ else _) =>
      case_bool_decide; try (exfalso; naive_solver congruence); simpl
  | |- stays_terminated (if decide _ then _ else _) =>
      case_decide; try (exfalso; naive_solver congruence)
  | |- stays_terminated (if ?b then _ else _) => destruct b eqn:?
  | |- stays_terminated (match ?x with _ => _ end) => destruct x eqn:?
  | |- stays_terminated _ => solve [auto with terminated]
  end.

Ltac terminated_auto := repeat terminated_step.

Lemma stays_terminated__close : stays_terminated _close.
Proof. unfold _close, terminate_early_dialog. terminated_auto. Qed.

#[local] Hint Resolve stays_terminated__close : terminated.

Lemma stays_terminated__failed o m c : stays_terminated (_failed o m c).
Proof. unfold _failed. terminated_auto. Qed.

Lemma stays_terminated__ended o m c : stays_terminated (_ended o m c).
Proof. unfold _ended. terminated_auto. Qed.

#[local] Hint Resolve stays_terminated__failed stays_terminated__ended
  : terminated.

Lemma stays_terminated_sendRequest m hs b h :
  stays_terminated (sendRequest m hs b h).
Proof. unfold sendRequest. terminated_auto. Qed.

Lemma stays_terminated_request_cancel r :
  stays_terminated (request_cancel r).
Proof. unfold request_cancel. terminated_auto. Qed.

#[local] Hint Resolve stays_terminated_sendRequest
  stays_terminated_request_cancel : terminated.

Lemma stays_terminated_terminate (X : Externals) options :
  stays_terminated (terminate X options).
Proof. unfold terminate. terminated_auto. Qed.

#[local] Hint Resolve stays_terminated_terminate : terminated.

Lemma stays_terminated__createDialog (X : Externals) m t early :
  stays_terminated (_createDialog X m t early).
Proof. unfold _createDialog. terminated_auto. Qed.

#[local] Hint Resolve stays_terminated__createDialog : terminated.

Lemma stays_terminated__acceptAndTerminate (X : Externals) r c p :
  stays_terminated (_acceptAndTerminate X r c p).
Proof. unfold _acceptAndTerminate. terminated_auto. Qed.

#[local] Hint Resolve stays_terminated__acceptAndTerminate : terminated.

Lemma stays_terminated__receiveInviteResponse (X : Externals) r :
  stays_terminated (_receiveInviteResponse X r).
Proof. unfold _receiveInviteResponse. terminated_auto. Qed.

Lemma stays_terminated_receiveRequest (X : Externals) r l :
  stays_terminated (receiveRequest X r l).
Proof. unfold receiveRequest. terminated_auto. Qed.

Lemma stays_terminated_connect (X : Externals) t sdp o init :
  stays_terminated (connect X t sdp o init).
Proof. unfold connect. terminated_auto. Qed.

Lemma stays_terminated_sendDTMF (X : Externals) t o :
  stays_terminated (sendDTMF X t o).
Proof. unfold sendDTMF. terminated_auto. Qed.

Lemma stays_terminated_sendInfo c b : stays_terminated (sendInfo c b).
Proof. unfold sendInfo. terminated_auto. Qed.

Lemma stays_terminated_renegotiate o d : stays_terminated (renegotiate o d).
Proof. unfold renegotiate. terminated_auto. Qed.

Lemma stays_terminated_run_timeout (X : Externals) cb :
  stays_terminated (run_timeout X cb).
Proof.
  destruct cb; simpl.
  - unfold invite2xxRetransmission_run. terminated_auto.
  - unfold ackTimerExpired_run. terminated_auto.
  - unfold sessionRefresh_run. terminated_auto.
  - unfold sessionExpired_run. terminated_auto.
  - unfold _sendDTMF_run. terminated_auto.
Qed.

Lemma stays_terminated_fire (X : Externals) h :
  stays_terminated (fire X h).
Proof.
  intros w H. unfold fire.
  destruct (list_find _ _) as [[? [? [? cb]]]|]; [|done].
  by apply stays_terminated_run_timeout.
Qed.

Lemma stays_terminated_initialRequest_connecting sdp :
  stays_terminated (initialRequest_connecting_run sdp).
Proof.
  unfold initialRequest_connecting_run, initialRequest_catch, _connecting.
  terminated_auto.
Qed.

Lemma stays_terminated_initialRequest_sending sdp :
  stays_terminated (initialRequest_sending_run sdp).
Proof.
  unfold initialRequest_sending_run, initialRequest_catch.
  apply stays_terminated_catch; [|intros; apply stays_terminated_ret].
  apply stays_terminated_get. intros s Hs.
  rewrite bool_decide_eq_true_2, orb_true_r by done.
  apply stays_terminated_throw.
Qed.

Lemma stays_terminated_run_next_tick : stays_terminated run_next_tick.
Proof.
  intros w H. unfold run_next_tick.
  destruct (promises w) as [|[] rest]; try done.
  - by apply stays_terminated_initialRequest_connecting.
  - by apply stays_terminated_initialRequest_sending.
Qed.

Lemma terminated_step (X : Externals) (i : Input) :
  stays_terminated (step X i).
Proof.
  destruct i; simpl.
  - apply stays_terminated_connect.
  - apply stays_terminated_terminate.
  - apply stays_terminated_sendDTMF.
  - apply stays_terminated_sendInfo.
  - apply stays_terminated_bind;
      [apply stays_terminated_renegotiate | intros; apply stays_terminated_ret].
  - apply stays_terminated_sendRequest.
  - apply stays_terminated_receiveRequest.
  - apply stays_terminated__receiveInviteResponse.
  - unfold onTransportError. terminated_auto.
  - unfold onRequestTimeout. terminated_auto.
  - unfold onDialogError. terminated_auto.
  - apply stays_terminated_fire.
  - unfold dtmf_onFailed. terminated_auto.
  - apply stays_terminated_run_next_tick.
Qed.

(** A call of [terminate] that cancels an outgoing call writes CANCELED
    and leaves the session TERMINATED. *)
Lemma terminate_cancels (X : Externals) (options : TerminateOptions)
    (w : World) :
  status w = STATUS_NULL ∨ status w = STATUS_INVITE_SENT
  ∨ status w = STATUS_1XX_RECEIVED →
  (terminate X options w).1 = Normal tt →
  status (terminate X options w).2 = STATUS_TERMINATED.
Proof.
  unfold status, terminate, request_cancel. run_M.
  intros [H | [H | H]]; rewrite H; simpl;
    destruct (invalid_status_code _); try discriminate;
    try (intros _; apply _failed_status).
  destruct (_request (this w)) as [[r|r]|]; try discriminate.
  intros _. apply _failed_status.
Qed.

(** C2. Once the status is TERMINATED it stays TERMINATED: a call of the
    public API, an incoming request or response, an error reported by the
    transaction layer, a timer that expires, a failed tone and the
    continuations of the initial request all leave a terminated session
    terminated.  CANCELED is not final: a call of [terminate] in NULL,
    INVITE_SENT or 1XX_RECEIVED that returns has written CANCELED and ends
    with the status TERMINATED. *)
Theorem terminated_is_final (X : Externals) (i : Input)
    (options : TerminateOptions) (w : World) :
  (status w = STATUS_TERMINATED →
   status (step X i w).2 = STATUS_TERMINATED)
  ∧ (status w = STATUS_NULL ∨ status w = STATUS_INVITE_SENT
     ∨ status w = STATUS_1XX_RECEIVED →
     (terminate X options w).1 = Normal tt →
     status (terminate X options w).2 = STATUS_TERMINATED).
Proof.
  split.
  - apply terminated_step.
  - apply terminate_cancels.
Qed.

(** The same along a whole trace. *)
Corollary terminated_is_final_run (X : Externals) (inputs : list Input)
    (w : World) :
  status w = STATUS_TERMINATED →
  status (run X inputs w) = STATUS_TERMINATED.
Proof.
  revert w. induction inputs as [|i inputs IH]; intros w H; simpl; [done|].
  by apply IH, terminated_step.
Qed.

Lemma terminated_is_final_witness :
  status given_up = STATUS_TERMINATED
  ∧ status (step library (response_received bare_200) given_up).2
    = STATUS_TERMINATED
  ∧ status (new_world library 0) = STATUS_NULL
  ∧ (terminate library no_terminate_options (new_world library 0)).1
    = Normal tt
  ∧ status (terminate library no_terminate_options (new_world library 0)).2
    = STATUS_TERMINATED.
Proof.
  destruct (terminated_is_final library (response_received bare_200)
              no_terminate_options given_up) as [Hfinal _].
  destruct (terminated_is_final library (response_received bare_200)
              no_terminate_options (new_world library 0)) as [_ Hcancel].
  split; [reflexivity|]. split; [exact (Hfinal eq_refl)|].
  split; [reflexivity|]. split; [reflexivity|].
  exact (Hcancel (or_introl eq_refl) eq_refl).
Defined.

(** C2, as stated, fails: [terminate] on a fresh session writes CANCELED and
    goes on with [_failed], whose [_close] replaces CANCELED with
    TERMINATED.  The session had the status CANCELED and has the status
    TERMINATED afterwards. *)
Lemma canceled_is_overwritten :
  terminate library no_terminate_options (new_world library 0)
  = _failed local None causes.CANCELED canceling
  ∧ status canceling = STATUS_CANCELED
  ∧ status (_failed local None causes.CANCELED canceling).2
    = STATUS_TERMINATED
  ∧ status given_up = STATUS_TERMINATED.
Proof. repeat split; reflexivity. Qed.

(** The continuation of a re-INVITE without SDP calls [sendAnswer] without
    looking at the status (the one of a re-INVITE with SDP looks): when the
    offer is ready and the reply is sent, a session terminated in the
    meantime waits for an ACK again. *)
Remark sendAnswer_after_termination :
  status hung_up = STATUS_TERMINATED
  ∧ _connectionPromiseQueue (this hung_up)
    = [reinvite_createOffer late_reinvite]
  ∧ status (reinvite_sendAnswer library late_reinvite (Some "v=0") true
                                hung_up).2
    = STATUS_WAITING_FOR_ACK.
Proof. repeat split; reflexivity. Qed.

(** ** The events that end a session *)

(** C1. An outgoing call is answered by a 200 that has neither body nor
    Contact header.  [_receiveInviteResponse] calls [_acceptAndTerminate],
    whose [_createDialog] fails and fires [failed] (INTERNAL_ERROR), and
    then fires [failed] again (BAD_MEDIA_DESCRIPTION): the event is emitted
    twice. *)
Theorem failed_fires_twice :
  status (run library calling (new_world library 0)) = STATUS_INVITE_SENT
  ∧ count is_failed (trace (run library calling (new_world library 0)))
    = 0%nat
  ∧ filter (λ e, is_failed e = true)
      (trace (run library (calling ++ [response_received bare_200])
                  (new_world library 0)))
    = [emit (Ev.failed remote (Some (MsgResponse bare_200))
                       causes.INTERNAL_ERROR);
       emit (Ev.failed remote (Some (MsgResponse bare_200))
                       causes.BAD_MEDIA_DESCRIPTION)].
Proof. repeat split; reflexivity. Qed.

(** The same defect on another path: the user cancels the call, and the 200
    that crosses the cancellation has no Contact header. *)
Remark failed_fires_twice_after_cancel :
  count is_failed
    (trace (run library
              (calling ++ [call_terminate no_terminate_options;
                           response_received bare_200])
              (new_world library 0)))
  = 2%nat.
Proof. reflexivity. Qed.

(** ** An incoming CANCEL *)

(** C3. A CANCEL for a session in WAITING_FOR_ANSWER or ANSWERED with a
    pending INVITE sets the status to CANCELED, replies 487 to that INVITE
    and runs [_failed]: the session is closed, its status ends as
    TERMINATED, and [failed] fires with originator remote and cause
    CANCELED.  In every other status the CANCEL does nothing at all: no
    reply, no event, no change of the session. *)
Theorem cancel_received (X : Externals) (request : IncomingRequest)
    (listener : option RejectOptions) (w : World) :
  method request = CANCEL →
  (∀ invite,
     status w = STATUS_WAITING_FOR_ANSWER ∨ status w = STATUS_ANSWERED →
     _request (this w) = Some (IncomingInvite invite) →
     receiveRequest X request listener w
     = _failed remote (Some (MsgRequest request)) causes.CANCELED
               (canceled_by_peer invite w)
     ∧ status (canceled_by_peer invite w) = STATUS_CANCELED
     ∧ (receiveRequest X request listener w).1 = Normal tt
     ∧ status (receiveRequest X request listener w).2 = STATUS_TERMINATED
     ∧ trace (receiveRequest X request listener w).2
       = trace w ++ [reply invite 487 None [] None]
         ++ close_effects (this w)
         ++ [emit (Ev.failed remote (Some (MsgRequest request))
                             causes.CANCELED)])
  ∧ (status w ≠ STATUS_WAITING_FOR_ANSWER →
     status w ≠ STATUS_ANSWERED →
     receiveRequest X request listener w = (Normal tt, w)).
Proof.
  intros Hm. unfold receiveRequest. rewrite Hm. unfold status.
  split.
  - intros invite Hst Hreq.
    assert (E : (let* s := get_this in
                 if bool_decide (_status s = STATUS_WAITING_FOR_ANSWER
                                 ∨ _status s = STATUS_ANSWERED)
                 then assign (set_status STATUS_CANCELED);;
                      request_reply 487;;
                      _failed remote (Some (MsgRequest request))
                              causes.CANCELED
                 else ret tt) w
                = _failed remote (Some (MsgRequest request)) causes.CANCELED
                          (canceled_by_peer invite w)).
    { unfold request_reply. run_M.
      rewrite bool_decide_eq_true_2 by done. simpl. by rewrite Hreq. }
    rewrite E. split; [done|]. split; [done|].
    split; [apply _failed_normal|]. split; [apply _failed_status|].
    rewrite _failed_trace.
    + unfold canceled_by_peer. simpl. by rewrite <- app_assoc.
    + done.
  - intros H1 H2. run_M. rewrite bool_decide_eq_false_2; [done|].
    by intros [?|?].
Qed.

Lemma cancel_received_witness :
  method cancel_request = CANCEL
  ∧ (status ringing = STATUS_WAITING_FOR_ANSWER
     ∨ status ringing = STATUS_ANSWERED)
  ∧ _request (this ringing) = Some (IncomingInvite incoming_invite)
  ∧ status (receiveRequest library cancel_request None ringing).2
    = STATUS_TERMINATED
  ∧ trace (receiveRequest library cancel_request None ringing).2
    = [reply incoming_invite 487 None [] None;
       ua_destroyRTCSession;
       emit (Ev.failed remote (Some (MsgRequest cancel_request))
                       causes.CANCELED)].
Proof.
  assert (Hm : method cancel_request = CANCEL) by reflexivity.
  assert (Hs : status ringing = STATUS_WAITING_FOR_ANSWER
               ∨ status ringing = STATUS_ANSWERED) by (left; reflexivity).
  assert (Hr : _request (this ringing)
               = Some (IncomingInvite incoming_invite)) by reflexivity.
  destruct (cancel_received library cancel_request None ringing Hm)
    as [H _].
  destruct (H incoming_invite Hs Hr) as (_ & _ & _ & Hst & Htr).
  split; [exact Hm|]. split; [exact Hs|]. split; [exact Hr|].
  split; [exact Hst | exact Htr].
Defined.

(** C3, as stated, fails: after the CANCEL the session is not in the state
    CANCELED; [_failed] has closed it and the status is TERMINATED. *)
Lemma cancel_ends_terminated :
  status ringing = STATUS_WAITING_FOR_ANSWER
  ∧ status (receiveRequest library cancel_request None ringing).2
    = STATUS_TERMINATED
  ∧ status (receiveRequest library cancel_request None ringing).2
    ≠ STATUS_CANCELED.
Proof. split; [reflexivity|]. split; [reflexivity | discriminate]. Qed.

(** ** The trace only grows *)

Lemma appends_same {A} (m : M A) :
  (∀ w, trace (m w).2 = trace w) → appends m.
Proof. intros H w. exists []. by rewrite app_nil_r. Qed.

Lemma appends_bind {A B} (m : M A) (k : A → M B) :
  appends m → (∀ a, appends (k a)) → appends (bind m k).
Proof.
  intros Hm Hk w. unfold bind. destruct (Hm w) as [l1 E1].
  destruct (m w) as [[a|e] w1]; simpl in *.
  - destruct (Hk a w1) as [l2 E2]. exists (l1 ++ l2).
    by rewrite E2, E1, app_assoc.
  - by exists l1.
Qed.

Lemma appends_do e : appends (do e).
Proof. intros w. by exists [e]. Qed.

Lemma appends_ret {A} (a : A) : appends (ret a).
Proof. by apply appends_same. Qed.

Lemma appends_throw {A} e : appends (@throw A e).
Proof. by apply appends_same. Qed.

Lemma appends_assign f : appends (assign f).
Proof. by apply appends_same. Qed.

Lemma appends_get_this : appends get_this.
Proof. by apply appends_same. Qed.

Lemma appends_new_Date : appends new_Date.
Proof. by apply appends_same. Qed.

Lemma appends_clearTimeout h : appends (clearTimeout h).
Proof. by apply appends_same. Qed.

Lemma appends_setTimeout cb d : appends (setTimeout cb d).
Proof. by apply appends_same. Qed.

Lemma appends_then_ k : appends (then_ k).
Proof. by apply appends_same. Qed.

Lemma appends_queue_then k : appends (queue_then k).
Proof. by apply appends_same. Qed.

Lemma appends_when b m : appends m → appends (when b m).
Proof. destruct b; [done|]. intros _. apply appends_ret. Qed.

Lemma appends_for_each {A} (f : A → M unit) l :
  (∀ a, appends (f a)) → appends (for_each f l).
Proof.
  intros Hf. induction l as [|a l IH]; simpl.
  - apply appends_ret.
  - apply appends_bind; [apply Hf | intros _; apply IH].
Qed.

Create HintDb appends discriminated.
#[local] Hint Resolve appends_do appends_ret appends_throw appends_assign
  appends_get_this appends_new_Date appends_clearTimeout appends_setTimeout
  appends_then_ appends_queue_then : appends.

Ltac appends_step :=
  lazymatch goal with
  | |- appends (bind _ _) => apply appends_bind; [|intros ?]
  | |- appends (when _ _) => apply appends_when
  | |- appends (for_each _ _) => apply appends_for_each; intros ?
  | |- appends (if ?b then _ else _) => destruct b
  | |- appends (match ?x with _ => _ end) => destruct x
  | |- appends _ => solve [auto with appends]
  end.

Ltac appends_auto := repeat appends_step.

Lemma appends__close : appends _close.
Proof. unfold _close, terminate_early_dialog. appends_auto. Qed.

#[local] Hint Resolve appends__close : appends.

Lemma appends_terminate (X : Externals) options :
  appends (terminate X options).
Proof.
  unfold terminate, _failed, _ended, sendRequest, request_cancel.
  appends_auto.
Qed.

(** ** terminate on an established session *)

Lemma terminate_established (X : Externals) (options : TerminateOptions)
    (w : World) (d : Dialog) :
  status w = STATUS_CONFIRMED ∨ status w = STATUS_WAITING_FOR_ACK →
  _dialog (this w) = Some d →
  invalid_status_code (opt_status_code options) = false →
  (terminate X options w).1 = Normal tt
  ∧ status (terminate X options w).2 = STATUS_TERMINATED
  ∧ trace (terminate X options w).2
    = trace w
      ++ [dialog_sendRequest (id d) BYE (bye_headers X options)
                             (opt_body options) NoHandlers]
      ++ close_effects (this w)
      ++ [emit (Ev.ended local None (cause_or_BYE (opt_cause options)))].
Proof.
  intros Hst Hd Hok.
  set (w1 := with_trace
               (trace w ++ [dialog_sendRequest (id d) BYE
                              (bye_headers X options) (opt_body options)
                              NoHandlers]) w).
  assert (E : terminate X options w
              = _ended local None (cause_or_BYE (opt_cause options)) w1).
  { unfold terminate, sendRequest, bye_headers, status in *. run_M.
    destruct Hst as [Hst|Hst]; rewrite Hst; simpl; rewrite Hok, Hd;
      by destruct (truthy_number _). }
  rewrite E. split; [apply _ended_normal|]. split; [apply _ended_status|].
  rewrite _ended_trace.
  - subst w1. simpl. by rewrite <- app_assoc.
  - subst w1. unfold status in *. simpl. destruct Hst; congruence.
Qed.

(** ** Cleared timers *)

Lemma cleared_subset handle pending x :
  x ∈ cleared handle pending → x ∈ pending.
Proof.
  destruct handle as [h|]; simpl; [|done].
  rewrite list_elem_of_filter. by intros [_ ?].
Qed.

Lemma cleared_gone h pending x : x ∈ cleared (Some h) pending → x.1 ≠ h.
Proof. simpl. rewrite list_elem_of_filter. by intros [? _]. Qed.

Lemma cleared_other handle pending x :
  x ∈ pending → handle ≠ Some x.1 → x ∈ cleared handle pending.
Proof.
  destruct handle as [h|]; simpl; [|done].
  intros Hx Hne. apply list_elem_of_filter. split; [|done].
  intros E. apply Hne. by rewrite E.
Qed.

(** ** An incoming ACK *)

Lemma ack_ignored (X : Externals) request listener (w : World) :
  method request = ACK →
  status w ≠ STATUS_WAITING_FOR_ACK →
  receiveRequest X request listener w
  = (Normal tt, with_trace (trace w ++ [emit (Ev.ackReceived request)]) w).
Proof.
  intros Hm Hst. unfold receiveRequest. rewrite Hm. run_M.
  by rewrite bool_decide_eq_true_2.
Qed.

Lemma ack_without_sdp (X : Externals) request listener (w : World) :
  method request = ACK →
  status w = STATUS_WAITING_FOR_ACK →
  _late_sdp (this w) = true →
  truthy_string (body request) = false →
  receiveRequest X request listener w
  = terminate X missing_sdp (acknowledged request w).
Proof.
  intros Hm Hst Hlate Hbody. unfold receiveRequest. rewrite Hm. run_M.
  rewrite bool_decide_eq_false_2 by (intros H; by apply H).
  by rewrite Hlate, Hbody.
Qed.

Lemma ack_confirms (X : Externals) request listener (w : World) :
  method request = ACK →
  status w = STATUS_WAITING_FOR_ACK →
  _late_sdp (this w) = false ∨ truthy_string (body request) = true →
  (receiveRequest X request listener w).1 = Normal tt
  ∧ status (receiveRequest X request listener w).2 = STATUS_CONFIRMED
  ∧ timeouts (receiveRequest X request listener w).2
    = timeouts (acknowledged request w)
  ∧ ∃ more, trace (receiveRequest X request listener w).2
            = trace w ++ emit (Ev.ackReceived request) :: more.
Proof.
  intros Hm Hst Hcase. unfold receiveRequest. rewrite Hm.
  unfold _confirmed. run_M.
  rewrite bool_decide_eq_false_2 by (intros H; by apply H).
  destruct (_late_sdp (this w)) eqn:Hlate.
  - destruct Hcase as [?|Hbody]; [done|]. rewrite Hbody. simpl.
    repeat split; try done. eexists. by rewrite <- app_assoc.
  - destruct (_is_confirmed (this w)); simpl; repeat split; try done.
    + by exists [].
    + eexists. by rewrite <- app_assoc.
Qed.

(** C4. An incoming ACK always emits [ackReceived], first of all.  When the
    status is not WAITING_FOR_ACK that is all.  Otherwise the status becomes
    CONFIRMED and the ACK timer and the 2xx retransmission timer are
    cleared; and when the session negotiates late SDP and the ACK has no
    body, [terminate] runs with cause MISSING_SDP and status code 400: with
    its dialog the session sends a BYE with the Reason header of code 400,
    is closed and emits [ended] with cause MISSING_SDP. *)
Theorem ack_received (X : Externals) (request : IncomingRequest)
    (listener : option RejectOptions) (w : World) :
  method request = ACK →
  (∃ more, trace (receiveRequest X request listener w).2
           = trace w ++ emit (Ev.ackReceived request) :: more)
  ∧ (status w ≠ STATUS_WAITING_FOR_ACK →
     receiveRequest X request listener w
     = (Normal tt,
        with_trace (trace w ++ [emit (Ev.ackReceived request)]) w))
  ∧ (status w = STATUS_WAITING_FOR_ACK →
     status (acknowledged request w) = STATUS_CONFIRMED
     ∧ (∀ h, ackTimer (_timers (this w)) = Some h
             ∨ invite2xxTimer (_timers (this w)) = Some h →
             h ∉ pending_handles (acknowledged request w))
     ∧ (_late_sdp (this w) = true →
        truthy_string (body request) = false →
        receiveRequest X request listener w
        = terminate X missing_sdp (acknowledged request w)
        ∧ ∀ d, _dialog (this w) = Some d →
            (receiveRequest X request listener w).1 = Normal tt
            ∧ status (receiveRequest X request listener w).2
              = STATUS_TERMINATED
            ∧ trace (receiveRequest X request listener w).2
              = trace w
                ++ [emit (Ev.ackReceived request);
                    dialog_sendRequest (id d) BYE
                      [Reason_header (Some 400)
                         (reason_phrase_of X None (Some 400))]
                      None NoHandlers]
                ++ close_effects (this w)
                ++ [emit (Ev.ended local None causes.MISSING_SDP)])
     ∧ (_late_sdp (this w) = false
        ∨ truthy_string (body request) = true →
        (receiveRequest X request listener w).1 = Normal tt
        ∧ status (receiveRequest X request listener w).2
          = STATUS_CONFIRMED
        ∧ timeouts (receiveRequest X request listener w).2
          = timeouts (acknowledged request w))).
Proof.
  intros Hm. split; [|split].
  - destruct (decide (status w = STATUS_WAITING_FOR_ACK)) as [Hst|Hst].
    + destruct (_late_sdp (this w)) eqn:Hlate;
        [destruct (truthy_string (body request)) eqn:Hbody|].
      * by apply ack_confirms; auto.
      * rewrite ack_without_sdp by done.
        destruct (appends_terminate X missing_sdp (acknowledged request w))
          as [more E].
        exists more. rewrite E. simpl. by rewrite <- app_assoc.
      * by apply ack_confirms; auto.
    + rewrite ack_ignored by done. by exists [].
  - by apply ack_ignored.
  - intros Hst. split; [done|]. split; [|split].
    + intros h Hh. unfold pending_handles. simpl.
      intros ([h' x] & -> & Hin)%list_elem_of_fmap. simpl in *.
      destruct Hh as [Hh|Hh]; rewrite Hh in Hin.
      * apply cleared_subset in Hin. by apply cleared_gone in Hin.
      * by apply cleared_gone in Hin.
    + intros Hlate Hbody. split; [by apply ack_without_sdp|].
      intros d Hd. rewrite ack_without_sdp by done.
      destruct (terminate_established X missing_sdp
                  (acknowledged request w) d) as (Hn & Hs & Ht);
        [by left | done | done |].
      split; [done|]. split; [done|]. rewrite Ht. simpl.
      by rewrite <- app_assoc.
    + intros Hcase.
      destruct (ack_confirms X request listener w Hm Hst Hcase)
        as (? & ? & ? & _).
      done.
Qed.

Lemma ack_received_witness :
  method bare_ack = ACK
  ∧ status awaiting_ack = STATUS_WAITING_FOR_ACK
  ∧ _late_sdp (this awaiting_ack) = true
  ∧ truthy_string (body bare_ack) = false
  ∧ _dialog (this awaiting_ack) = Some idle_dialog
  ∧ status (receiveRequest library bare_ack None awaiting_ack).2
    = STATUS_TERMINATED
  ∧ trace (receiveRequest library bare_ack None awaiting_ack).2
    = trace awaiting_ack
      ++ [emit (Ev.ackReceived bare_ack);
          dialog_sendRequest (id idle_dialog) BYE
            [Reason_header (Some 400) (Some "Bad Request")] None NoHandlers;
          dialog_terminate (id idle_dialog);
          ua_destroyRTCSession;
          emit (Ev.ended local None causes.MISSING_SDP)].
Proof.
  assert (Hm : method bare_ack = ACK) by reflexivity.
  assert (Hs : status awaiting_ack = STATUS_WAITING_FOR_ACK)
    by reflexivity.
  assert (Hl : _late_sdp (this awaiting_ack) = true) by reflexivity.
  assert (Hb : truthy_string (body bare_ack) = false) by reflexivity.
  assert (Hd : _dialog (this awaiting_ack) = Some idle_dialog)
    by reflexivity.
  destruct (ack_received library bare_ack None awaiting_ack Hm)
    as (_ & _ & H).
  destruct (H Hs) as (_ & _ & H' & _).
  destruct (H' Hl Hb) as [_ H''].
  destruct (H'' idle_dialog Hd) as (_ & Hst & Htr).
  split; [exact Hm|]. split; [exact Hs|]. split; [exact Hl|].
  split; [exact Hb|]. split; [exact Hd|]. split; [exact Hst | exact Htr].
Defined.

(** ** The 2xx retransmission timer *)

Lemma filter_all {A} (P : A → Prop) `{!∀ x, Decision (P x)} (l : list A) :
  Forall P l → filter P l = l.
Proof.
  induction 1 as [|x l Hx _ IH]; [done|].
  rewrite filter_cons, decide_True by done. by rewrite IH.
Qed.

(** A timer armed last and under a handle of its own expires: its function
    runs in the world without it. *)
Lemma fire_last (X : Externals) h d cb pending (w : World) :
  timeouts w = pending ++ [(h, (d, cb))] →
  Forall (λ x, x.1 ≠ h) pending →
  fire X h w
  = run_timeout X cb (with_timeouts pending (next_timeout w) w).
Proof.
  intros Ht Hfresh. unfold fire. rewrite Ht.
  rewrite list_find_app_r by (by apply list_find_None; eapply Forall_impl;
                               [exact Hfresh | intros x Hx E; by apply Hx]).
  simpl. rewrite decide_True by done. simpl.
  rewrite filter_app, filter_all by done.
  rewrite filter_cons, decide_False by (simpl; intros H; by apply H).
  by rewrite filter_nil, app_nil_r.
Qed.

Lemma _setInvite2xxTimer_arms (X : Externals) request body (w : World) :
  _setInvite2xxTimer X request body w
  = (Normal tt, retransmitting X request body 0 w).
Proof.
  unfold _setInvite2xxTimer, arm_invite2xxTimer, retransmitting. run_M.
  unfold invite2xx_interval. simpl.
  by rewrite Nat.add_0_r, app_nil_r.
Qed.

Lemma retransmission_fires (X : Externals) request body n (w : World) :
  well_timed w →
  status w = STATUS_WAITING_FOR_ACK →
  fire X (next_timeout w + n) (retransmitting X request body n w)
  = (Normal tt, retransmitting X request body (S n) w).
Proof.
  intros Hwt Hst.
  rewrite (fire_last X _ (invite2xx_interval X n)
             (invite2xxRetransmission request body (invite2xx_interval X n))
             (timeouts w)); [|done|].
  - simpl. unfold invite2xxRetransmission_run, arm_invite2xxTimer.
    unfold retransmitting at 1. run_M. simpl.
    unfold status in Hst. rewrite Hst. simpl. f_equal.
    unfold retransmitting, with_this, with_timeouts, with_trace. simpl.
    rewrite Nat.add_succ_r. f_equal.
    rewrite <- app_assoc. f_equal.
    change (reply request 200 None [contact_header (this w)] body
            :: replicate n (reply request 200 None
                                  [contact_header (this w)] body))
      with (replicate (S n) (reply request 200 None
                                   [contact_header (this w)] body)).
    by rewrite replicate_S_end.
  - eapply Forall_impl; [exact Hwt|]. simpl. intros x Hx. lia.
Qed.

Lemma retransmission_stops (X : Externals) request body timeout (w : World) :
  status w ≠ STATUS_WAITING_FOR_ACK →
  invite2xxRetransmission_run X request body timeout w = (Normal tt, w).
Proof.
  intros Hst. unfold invite2xxRetransmission_run. run_M.
  by rewrite bool_decide_eq_true_2.
Qed.

Lemma next_invite2xx_timeout_min (X : Externals) (timeout : Z) :
  0 < timeout ≤ T2 X →
  next_invite2xx_timeout X timeout = Z.min (2 * timeout) (T2 X).
Proof.
  intros H. unfold next_invite2xx_timeout.
  destruct (Z.ltb_spec timeout (T2 X)).
  - destruct (Z.gtb_spec (timeout * 2) (T2 X)); lia.
  - lia.
Qed.

Lemma invite2xx_interval_min (X : Externals) (n : nat) :
  0 < T1 X ≤ T2 X →
  invite2xx_interval X n = Z.min (T1 X * 2 ^ Z.of_nat n) (T2 X).
Proof.
  intros H. induction n as [|n IH].
  - unfold invite2xx_interval. simpl. lia.
  - unfold invite2xx_interval in *. rewrite Nat.iter_succ, IH.
    assert (0 < 2 ^ Z.of_nat n) by (apply Z.pow_pos_nonneg; lia).
    rewrite next_invite2xx_timeout_min by lia.
    rewrite Nat2Z.inj_succ, Z.pow_succ_r by lia. nia.
Qed.

(** The retransmission timer expires while the session does not wait for an
    ACK: nothing is sent and no timer is armed. *)
Lemma retransmission_fires_in_vain (X : Externals) request body n st
    (w : World) :
  well_timed w →
  st ≠ STATUS_WAITING_FOR_ACK →
  fire X (next_timeout w + n)
       (with_this (set_status st) (retransmitting X request body n w))
  = (Normal tt,
     with_timeouts (timeouts w) (S (next_timeout w + n))
       (with_this (set_status st) (retransmitting X request body n w))).
Proof.
  intros Hwt Hst.
  rewrite (fire_last X _ (invite2xx_interval X n)
             (invite2xxRetransmission request body (invite2xx_interval X n))
             (timeouts w)); [|done|].
  - simpl. by rewrite retransmission_stops.
  - eapply Forall_impl; [exact Hwt|]. simpl. intros x Hx. lia.
Qed.

(** C5. [_setInvite2xxTimer] arms the timer with the delay T1.  While the
    status is WAITING_FOR_ACK each expiry replies 200 to the request with
    the Contact header and the same body and arms the timer again with the
    next delay; the delay before the [n]-th retransmission is
    [min (T1 * 2^n) T2]: it doubles and is capped at T2.  An expiry in any
    other status sends nothing and arms no timer. *)
Theorem invite2xx_retransmissions (X : Externals)
    (request : IncomingRequest) (body : option string) (w : World) :
  0 < T1 X ≤ T2 X →
  well_timed w →
  _setInvite2xxTimer X request body w
  = (Normal tt, retransmitting X request body 0 w)
  ∧ invite2xx_interval X 0 = T1 X
  ∧ (∀ n, invite2xx_interval X n = Z.min (T1 X * 2 ^ Z.of_nat n) (T2 X))
  ∧ (∀ n, invite2xx_interval X (S n)
          = Z.min (2 * invite2xx_interval X n) (T2 X))
  ∧ (status w = STATUS_WAITING_FOR_ACK →
     ∀ n, fire X (next_timeout w + n) (retransmitting X request body n w)
          = (Normal tt, retransmitting X request body (S n) w))
  ∧ (∀ n st, st ≠ STATUS_WAITING_FOR_ACK →
       fire X (next_timeout w + n)
            (with_this (set_status st) (retransmitting X request body n w))
       = (Normal tt,
          with_timeouts (timeouts w) (S (next_timeout w + n))
            (with_this (set_status st)
                       (retransmitting X request body n w)))).
Proof.
  intros HT Hwt.
  split; [apply _setInvite2xxTimer_arms|].
  split; [done|].
  split; [intros n; by apply invite2xx_interval_min|].
  split.
  { intros n. unfold invite2xx_interval at 1. rewrite Nat.iter_succ.
    fold (invite2xx_interval X n).
    apply next_invite2xx_timeout_min.
    rewrite invite2xx_interval_min by done.
    assert (0 < 2 ^ Z.of_nat n) by (apply Z.pow_pos_nonneg; lia). nia. }
  split.
  - intros Hst n. by apply retransmission_fires.
  - intros n st Hst. by apply retransmission_fires_in_vain.
Qed.

Lemma well_timed_waiting_for_ack : well_timed waiting_for_ack.
Proof. constructor. Qed.

Lemma invite2xx_retransmissions_witness :
  (0 < T1 library ≤ T2 library)
  ∧ well_timed waiting_for_ack
  ∧ _setInvite2xxTimer library late_reinvite (Some "v=0") waiting_for_ack
    = (Normal tt,
       retransmitting library late_reinvite (Some "v=0") 0 waiting_for_ack)
  ∧ fire library 0
         (retransmitting library late_reinvite (Some "v=0") 0
                         waiting_for_ack)
    = (Normal tt,
       retransmitting library late_reinvite (Some "v=0") 1 waiting_for_ack)
  ∧ invite2xx_interval library 2 = 2000
  ∧ invite2xx_interval library 3 = 4000
  ∧ invite2xx_interval library 4 = 4000.
Proof.
  assert (HT : 0 < T1 library ≤ T2 library) by (simpl; lia).
  destruct (invite2xx_retransmissions library late_reinvite (Some "v=0")
              waiting_for_ack HT well_timed_waiting_for_ack)
    as (Harm & _ & Hmin & _ & Hfire & _).
  split; [exact HT|]. split; [exact well_timed_waiting_for_ack|].
  split; [exact Harm|].
  split; [exact (Hfire eq_refl 0%nat)|].
  rewrite !Hmin. repeat split; reflexivity.
Defined.

(** ** The session timer *)

Lemma _runSessionTimer_arms (expires : Z) (w : World) :
  currentExpires (_sessionTimers (this w)) = Some expires →
  _runSessionTimer w
  = (Normal tt,
     if refresher (_sessionTimers (this w))
     then session_timer_armed (expires * 500) sessionRefresh w
     else session_timer_armed (expires * 1100) sessionExpired w).
Proof.
  intros He. unfold _runSessionTimer. run_M. rewrite He. simpl.
  by destruct (refresher (_sessionTimers (this w))).
Qed.

Lemma well_timed_cleared handle (w : World) :
  well_timed w →
  Forall (λ x, x.1 ≠ next_timeout w) (cleared handle (timeouts w)).
Proof.
  unfold well_timed. rewrite !Forall_forall. intros H x Hx.
  apply cleared_subset in Hx. specialize (H x Hx). lia.
Qed.

Lemma session_timer_fires (X : Externals) delay cb (w : World) :
  well_timed w →
  fire X (next_timeout w) (session_timer_armed delay cb w)
  = run_timeout X cb
      (with_timeouts (cleared (timer (_sessionTimers (this w))) (timeouts w))
                     (S (next_timeout w))
                     (session_timer_armed delay cb w)).
Proof.
  intros Hwt.
  by rewrite (fire_last X _ delay cb
                (cleared (timer (_sessionTimers (this w))) (timeouts w)))
    by (done || by apply well_timed_cleared).
Qed.

Lemma sessionExpired_terminates (X : Externals) (w : World) :
  status w ≠ STATUS_TERMINATED →
  sessionExpired_run X w = terminate X session_timer_expired w.
Proof.
  intros Hst. unfold sessionExpired_run. run_M.
  by rewrite bool_decide_eq_false_2.
Qed.

Lemma sessionExpired_terminated (X : Externals) (w : World) :
  status w = STATUS_TERMINATED → sessionExpired_run X w = (Normal tt, w).
Proof.
  intros Hst. unfold sessionExpired_run. run_M.
  by rewrite bool_decide_eq_true_2.
Qed.

Lemma sessionRefresh_terminated (w : World) :
  status w = STATUS_TERMINATED → sessionRefresh_run w = (Normal tt, w).
Proof.
  intros Hst. unfold sessionRefresh_run. run_M.
  by rewrite bool_decide_eq_true_2.
Qed.

Lemma sessionRefresh_update (w : World) (d : Dialog) :
  status w ≠ STATUS_TERMINATED →
  refreshMethod (_sessionTimers (this w)) = UPDATE →
  _dialog (this w) = Some d →
  sessionRefresh_run w
  = (Normal tt,
     with_trace
       (trace w
        ++ [dialog_sendRequest (id d) UPDATE
              ([] ++ [contact_header (this w)]
                  ++ running_session_expires (this w))
              None (UpdateHandlers false no_eventHandlers)]) w).
Proof.
  intros Hst Hm Hd. unfold sessionRefresh_run, _sendUpdate, sendRequest.
  run_M. rewrite bool_decide_eq_false_2 by done.
  rewrite bool_decide_eq_true_2 by done. simpl. by rewrite Hd.
Qed.

Lemma sessionRefresh_reinvite (w : World) :
  status w ≠ STATUS_TERMINATED →
  refreshMethod (_sessionTimers (this w)) ≠ UPDATE →
  sessionRefresh_run w
  = (Normal tt,
     with_this
       (set_connectionPromiseQueue
          (_connectionPromiseQueue (this w)
           ++ [sendReinvite_createOffer
                 ([] ++ [contact_header (this w);
                         "Content-Type: application/sdp"]
                     ++ running_session_expires (this w))
                 (_rtcOfferConstraints (this w)) no_eventHandlers])) w).
Proof.
  intros Hst Hm. unfold sessionRefresh_run, _sendReinvite.
  run_M. rewrite bool_decide_eq_false_2 by done.
  by rewrite bool_decide_eq_false_2 by done.
Qed.

Lemma host_delay_taken (delay : Z) :
  host_takes delay → host_delay delay = delay.
Proof. intros H. unfold host_delay. by rewrite bool_decide_eq_true_2. Qed.

Lemma host_delay_late (delay : Z) :
  TIMEOUT_MAX < delay → host_delay delay = 1.
Proof.
  intros H. unfold host_delay. rewrite bool_decide_eq_false_2; [done|]. lia.
Qed.

Lemma waits_for_session_timer delay cb (w : World) :
  well_timed w →
  waits_for (next_timeout w) (session_timer_armed delay cb w)
  = Some (host_delay delay).
Proof.
  intros Hwt. unfold waits_for. simpl.
  pose proof (well_timed_cleared (timer (_sessionTimers (this w))) w Hwt)
    as Hc.
  induction (cleared _ (timeouts w)) as [|x l IH]; simpl.
  - by rewrite decide_True.
  - apply Forall_cons in Hc as [Hx Hl].
    rewrite decide_False by done.
    specialize (IH Hl).
    by destruct (list_find _ _) as [[i y]|]; simpl in *.
Qed.

(** What [_runSessionTimer] does with an interval that the host can wait
    for.  With the negotiated value [expires] (seconds) it arms one timer:
    for the refresher with [expires * 500] milliseconds, half of [expires]
    seconds, to send the refresh, an UPDATE or a re-INVITE as configured;
    otherwise with [expires * 1100] milliseconds, 1.1 times [expires]
    seconds, to run the watchdog; the host waits that long when the delay
    is at most [TIMEOUT_MAX].  On a terminated session both functions do
    nothing.  Otherwise the watchdog calls [terminate] with cause
    REQUEST_TIMEOUT, status code 408 and reason phrase
    "Session Timer Expired": an established session sends the BYE with that
    Reason header, is closed and emits [ended] with cause
    REQUEST_TIMEOUT. *)
Lemma session_timer_within_range (X : Externals) (expires : Z) (w : World) :
  currentExpires (_sessionTimers (this w)) = Some expires →
  well_timed w →
  (* the timer that is armed *)
  (refresher (_sessionTimers (this w)) = true →
   host_takes (expires * 500) →
   _runSessionTimer w
   = (Normal tt, session_timer_armed (expires * 500) sessionRefresh w)
   ∧ waits_for (next_timeout w) (_runSessionTimer w).2 = Some (expires * 500)
   ∧ 2 * (expires * 500) = expires * 1000)
  ∧ (refresher (_sessionTimers (this w)) = false →
     host_takes (expires * 1100) →
     _runSessionTimer w
     = (Normal tt, session_timer_armed (expires * 1100) sessionExpired w)
     ∧ waits_for (next_timeout w) (_runSessionTimer w).2
       = Some (expires * 1100)
     ∧ 10 * (expires * 1100) = 11 * (expires * 1000))
  (* its expiry runs the function it was armed with *)
  ∧ (∀ delay cb,
       fire X (next_timeout w) (session_timer_armed delay cb w)
       = run_timeout X cb
           (with_timeouts
              (cleared (timer (_sessionTimers (this w))) (timeouts w))
              (S (next_timeout w)) (session_timer_armed delay cb w)))
  (* the refresh *)
  ∧ (∀ w', status w' = STATUS_TERMINATED →
           run_timeout X sessionRefresh w' = (Normal tt, w'))
  ∧ (∀ w' d, status w' ≠ STATUS_TERMINATED →
       refreshMethod (_sessionTimers (this w')) = UPDATE →
       _dialog (this w') = Some d →
       run_timeout X sessionRefresh w'
       = (Normal tt,
          with_trace
            (trace w'
             ++ [dialog_sendRequest (id d) UPDATE
                   ([] ++ [contact_header (this w')]
                       ++ running_session_expires (this w'))
                   None (UpdateHandlers false no_eventHandlers)]) w'))
  ∧ (∀ w', status w' ≠ STATUS_TERMINATED →
       refreshMethod (_sessionTimers (this w')) ≠ UPDATE →
       run_timeout X sessionRefresh w'
       = (Normal tt,
          with_this
            (set_connectionPromiseQueue
               (_connectionPromiseQueue (this w')
                ++ [sendReinvite_createOffer
                      ([] ++ [contact_header (this w');
                              "Content-Type: application/sdp"]
                          ++ running_session_expires (this w'))
                      (_rtcOfferConstraints (this w')) no_eventHandlers]))
            w'))
  (* the watchdog *)
  ∧ (∀ w', status w' = STATUS_TERMINATED →
           run_timeout X sessionExpired w' = (Normal tt, w'))
  ∧ (∀ w', status w' ≠ STATUS_TERMINATED →
           run_timeout X sessionExpired w'
           = terminate X session_timer_expired w')
  ∧ (∀ w' d,
       status w' = STATUS_CONFIRMED ∨ status w' = STATUS_WAITING_FOR_ACK →
       _dialog (this w') = Some d →
       (run_timeout X sessionExpired w').1 = Normal tt
       ∧ status (run_timeout X sessionExpired w').2 = STATUS_TERMINATED
       ∧ trace (run_timeout X sessionExpired w').2
         = trace w'
           ++ [dialog_sendRequest (id d) BYE
                 [Reason_header (Some 408) (Some "Session Timer Expired")]
                 None NoHandlers]
           ++ close_effects (this w')
           ++ [emit (Ev.ended local None causes.REQUEST_TIMEOUT)]).
Proof.
  intros He Hwt.
  split.
  { intros Hr Hd. rewrite (_runSessionTimer_arms expires) by done.
    rewrite Hr. split; [done|]. split; [|lia]. simpl.
    by rewrite waits_for_session_timer, host_delay_taken. }
  split.
  { intros Hr Hd. rewrite (_runSessionTimer_arms expires) by done.
    rewrite Hr. split; [done|]. split; [|lia]. simpl.
    by rewrite waits_for_session_timer, host_delay_taken. }
  split; [intros; by apply session_timer_fires|].
  split; [intros; by apply sessionRefresh_terminated|].
  split; [intros; by apply sessionRefresh_update|].
  split; [intros; by apply sessionRefresh_reinvite|].
  split; [intros; by apply sessionExpired_terminated|].
  split; [intros; by apply sessionExpired_terminates|].
  intros w' d Hst Hd. simpl.
  rewrite sessionExpired_terminates
    by (unfold status in *; destruct Hst; congruence).
  by apply (terminate_established X session_timer_expired w' d).
Qed.

Lemma session_timer_within_range_witness :
  currentExpires (_sessionTimers (this timed_session)) = Some 90
  ∧ well_timed timed_session
  ∧ refresher (_sessionTimers (this timed_session)) = false
  ∧ host_takes (90 * 1100)
  ∧ _runSessionTimer timed_session
    = (Normal tt, session_timer_armed 99000 sessionExpired timed_session)
  ∧ waits_for (next_timeout timed_session) (_runSessionTimer timed_session).2
    = Some 99000
  ∧ trace (run_timeout library sessionExpired timed_session).2
    = [dialog_sendRequest (id idle_dialog) BYE
         [Reason_header (Some 408) (Some "Session Timer Expired")]
         None NoHandlers;
       dialog_terminate (id idle_dialog);
       ua_destroyRTCSession;
       emit (Ev.ended local None causes.REQUEST_TIMEOUT)].
Proof.
  assert (He : currentExpires (_sessionTimers (this timed_session))
               = Some 90) by reflexivity.
  assert (Hwt : well_timed timed_session) by constructor.
  assert (Hd : host_takes (90 * 1100))
    by (unfold host_takes, TIMEOUT_MAX; lia).
  destruct (session_timer_within_range library 90 timed_session He Hwt)
    as (_ & Harm & _ & _ & _ & _ & _ & _ & Hdog).
  destruct (Harm eq_refl Hd) as (Harmed & Hwaits & _).
  destruct (Hdog timed_session idle_dialog (or_introl eq_refl) eq_refl)
    as (_ & _ & Htrace).
  split; [exact He|]. split; [exact Hwt|]. split; [reflexivity|].
  split; [exact Hd|]. split; [exact Harmed|].
  split; [exact Hwaits | exact Htrace].
Defined.

(** C6. The session timer is not always scheduled at 0.5 times and at 1.1
    times the negotiated value.  [_runSessionTimer] hands the product in
    milliseconds to [setTimeout] as it is, and the handlers of the session
    timer take from the peer any value from MIN_SESSION_EXPIRES on.  An
    established session whose peer asks for 1952258 seconds in an UPDATE,
    and refreshes itself, arms the watchdog with 2147483800 milliseconds,
    more than the host takes, so that the host waits 1 millisecond: the
    watchdog expires at once, the session sends the BYE with the Reason of
    code 408 and ends with cause REQUEST_TIMEOUT.  With 4294968 seconds and
    the session as refresher, the refresh is due after 1 millisecond as
    well. *)
Theorem session_timer_overflow :
  let w1 := (step library (request_received long_update None)
                  answered_call).2 in
  let w2 := (step library (timeout_expired 0) w1).2 in
  let w3 := (step library (request_received longer_update None)
                  answered_call).2 in
  (* the request is taken and answered *)
  status answered_call = STATUS_CONFIRMED
  ∧ MIN_SESSION_EXPIRES library ≤ 1952258
  ∧ trace w1
    = trace answered_call
      ++ [emit (Ev.update long_update);
          reply long_update 200 None
            ["Contact: <sip:alice@192.0.2.1;transport=ws;ob>";
             "Session-Expires: 1952258;refresher=uac"] None]
  ∧ currentExpires (_sessionTimers (this w1)) = Some 1952258
  ∧ refresher (_sessionTimers (this w1)) = false
  (* the watchdog is armed with 1.1 times the interval *)
  ∧ timeouts w1 = [(0%nat, (1952258 * 1100, sessionExpired))]
  ∧ timer (_sessionTimers (this w1)) = Some 0%nat
  (* which the host does not wait for *)
  ∧ TIMEOUT_MAX < 1952258 * 1100
  ∧ waits_for 0 w1 = Some 1
  (* the session ends when it expires *)
  ∧ status w1 = STATUS_CONFIRMED
  ∧ status w2 = STATUS_TERMINATED
  ∧ trace w2
    = trace w1
      ++ [dialog_sendRequest (id idle_dialog) BYE
            [Reason_header (Some 408) (Some "Session Timer Expired")]
            None NoHandlers;
          dialog_terminate (id idle_dialog);
          ua_destroyRTCSession;
          emit (Ev.ended local None causes.REQUEST_TIMEOUT)]
  (* the refresher *)
  ∧ refresher (_sessionTimers (this w3)) = true
  ∧ timeouts w3 = [(0%nat, (4294968 * 500, sessionRefresh))]
  ∧ TIMEOUT_MAX < 4294968 * 500
  ∧ waits_for 0 w3 = Some 1.
Proof.
  cbv zeta.
  split; [reflexivity|]. split; [simpl; lia|].
  split; [vm_compute; reflexivity|]. split; [vm_compute; reflexivity|].
  split; [vm_compute; reflexivity|]. split; [vm_compute; reflexivity|].
  split; [vm_compute; reflexivity|].
  split; [unfold TIMEOUT_MAX; lia|].
  split; [vm_compute; reflexivity|]. split; [vm_compute; reflexivity|].
  split; [vm_compute; reflexivity|]. split; [vm_compute; reflexivity|].
  split; [vm_compute; reflexivity|]. split; [vm_compute; reflexivity|].
  split; [unfold TIMEOUT_MAX; lia | vm_compute; reflexivity].
Qed.

(** ** DTMF tones *)

Lemma string_get_lookup (s : string) (n : nat) :
  String.get n s = chars s !! n.
Proof.
  revert n. induction s as [|c s IH]; intros [|n]; simpl; try done.
Qed.

Lemma string_length_chars (s : string) : String.length s = length (chars s).
Proof. induction s as [|c s IH]; simpl; [done | by rewrite IH]. Qed.

Lemma chars_append (s1 s2 : string) :
  chars (s1 +:+ s2) = chars s1 ++ chars s2.
Proof. induction s1 as [|c s1 IH]; simpl; [done | by rewrite IH]. Qed.

Lemma matches_tones_append (s1 s2 : string) :
  matches_tones s1 = true → matches_tones s2 = true →
  matches_tones (s1 +:+ s2) = true.
Proof.
  unfold matches_tones. rewrite !andb_true_iff, chars_append, forallb_app.
  intros [Hne1 H1] [_ H2]. rewrite H1, H2. split; [|done].
  destruct s1; [done | done].
Qed.

Lemma matches_tones_truthy (s : string) :
  matches_tones s = true → truthy_string (Some s) = true.
Proof. unfold matches_tones. simpl. by intros [? _]%andb_true_iff. Qed.

Lemma matches_tones_length (s : string) :
  matches_tones s = true → (1 ≤ length (chars s))%nat.
Proof. destruct s; [done | simpl; lia]. Qed.

Lemma tones_sent_app (t1 t2 : list Effect) :
  tones_sent (t1 ++ t2) = tones_sent t1 ++ tones_sent t2.
Proof. apply filter_app. Qed.

Lemma sends_app d o (l1 l2 : list ascii) :
  sends d o (l1 ++ l2) = sends d o l1 ++ sends d o l2.
Proof. unfold sends. by rewrite filter_app, fmap_app. Qed.

Lemma elapse_idle (X : Externals) n (w : World) :
  next_tone_timer w = None → elapse X n w = w.
Proof. intros H. destruct n; simpl; [done | by rewrite H]. Qed.

Lemma elapse_add (X : Externals) a b (w : World) :
  elapse X (a + b) w = elapse X b (elapse X a w).
Proof.
  revert w. induction a as [|a IH]; intros w; simpl; [done|].
  destruct (next_tone_timer w) as [h|] eqn:E; [apply IH|].
  by rewrite elapse_idle.
Qed.

Lemma no_tone_timer (pending : list (nat * (Z * TimerCallback))) :
  Forall (λ x, is_tone_timer x = false) pending →
  list_find (λ x, is_tone_timer x = true) pending = None.
Proof.
  intros H. apply list_find_None. eapply Forall_impl; [exact H|].
  simpl. intros x Hx. by rewrite Hx.
Qed.

(** In a running sequence the next tone timer is the one of the sequence,
    and its expiry runs [_sendDTMF] in the world without it. *)
Lemma sending_fires (X : Externals) d g o t p others before (w : World) :
  Sending d g o t p others before w →
  ∃ h, next_tone_timer w = Some h
       ∧ next_timeout w = S h
       ∧ Forall (λ x, (x.1 < h)%nat ∧ is_tone_timer x = false) others
       ∧ fire X h w
         = _sendDTMF_run p d g o (with_timeouts others (S h) w).
Proof.
  intros [(h & delay & Ht & Hnext & Hothers) _ _ _ _].
  exists h. split; [|split; [done|split; [done|]]].
  - unfold next_tone_timer. rewrite Ht.
    rewrite list_find_app_r
      by (apply no_tone_timer; eapply Forall_impl; [exact Hothers|];
          by intros x [_ ?]).
    done.
  - rewrite (fire_last X h delay (_sendDTMF p d g o) others) by
      (done || (eapply Forall_impl; [exact Hothers|]; simpl;
                intros x [? _]; lia)).
    by rewrite Hnext.
Qed.

(** The timer of a running sequence expires before the end of the queue:
    the next character is done. *)
Lemma tick_goes_on (X : Externals) d g o t p others before (w : World) :
  Sending d g o t p others before w →
  (p < length (chars t))%nat →
  Sending d g o t (S p) others before (elapse X 1 w).
Proof.
  intros Hs Hlt.
  destruct (sending_fires X _ _ _ _ _ _ _ _ Hs)
    as (h & Hnext & Hcount & Hothers & Hfire).
  destruct Hs as [_ Htones Hst Hp Hsent].
  simpl. rewrite Hnext, Hfire.
  destruct (lookup_lt_is_Some_2 (chars t) p Hlt) as [c Hc].
  unfold _sendDTMF_run. run_M. rewrite Htones.
  assert (Htruthy : truthy_string (Some t) = true).
  { simpl. destruct t; [simpl in Hlt; lia | done]. }
  rewrite Htruthy.
  rewrite bool_decide_eq_false_2
    by (unfold status in Hst; destruct Hst; congruence).
  simpl. rewrite string_length_chars, string_get_lookup, Hc.
  rewrite (proj2 (Nat.leb_gt _ _)) by done.
  assert (Htake : take (S p) (chars t) = take p (chars t) ++ [c])
    by (by apply take_S_r).
  assert (Hnew : Forall (λ x, (x.1 < S h)%nat ∧ is_tone_timer x = false)
                        others).
  { eapply Forall_impl; [exact Hothers|]. simpl. intros x [? ?].
    split; [lia | done]. }
  destruct (Ascii.eqb c ",") eqn:Hcomma; simpl.
  - split; simpl; try done; [eauto 10 | lia |].
    rewrite Hsent, Htake, sends_app. unfold sends at 3. simpl.
    rewrite filter_cons, decide_False by (by rewrite Hcomma).
    by rewrite app_nil_r.
  - split; simpl; try done; [eauto 10 | lia |].
    rewrite tones_sent_app, Hsent, Htake, sends_app, <- app_assoc.
    f_equal. f_equal. unfold sends. simpl.
    by rewrite filter_cons, decide_True by done.
Qed.

(** The timer expires at the end of the queue: the sequence is over. *)
Lemma tick_ends (X : Externals) d g o t p others before (w : World) :
  Sending d g o t p others before w →
  p = length (chars t) →
  next_tone_timer (elapse X 1 w) = None
  ∧ tones_sent (trace (elapse X 1 w)) = before ++ sends d o (chars t).
Proof.
  intros Hs ->.
  destruct (sending_fires X _ _ _ _ _ _ _ _ Hs)
    as (h & Hnext & Hcount & Hothers & Hfire).
  destruct Hs as [_ Htones Hst Hp Hsent].
  simpl. rewrite Hnext, Hfire.
  unfold _sendDTMF_run. run_M. rewrite Htones.
  rewrite string_length_chars, Nat.leb_refl, orb_true_r. simpl.
  split; [|by rewrite Hsent, firstn_all].
  unfold next_tone_timer. simpl. rewrite no_tone_timer; [done|].
  eapply Forall_impl; [exact Hothers|]. by intros x [_ ?].
Qed.

Lemma ticks_go_on (X : Externals) d g o t others before j p (w : World) :
  Sending d g o t p others before w →
  (p + j ≤ length (chars t))%nat →
  Sending d g o t (p + j) others before (elapse X j w).
Proof.
  revert p w. induction j as [|j IH]; intros p w Hs Hle.
  - by rewrite Nat.add_0_r.
  - assert (Hstep : Sending d g o t (S p) others before (elapse X 1 w))
      by (apply tick_goes_on; [done | lia]).
    destruct (sending_fires X _ _ _ _ _ _ _ _ Hs) as (h & Hnext & _).
    simpl in *. rewrite Hnext in *.
    rewrite Nat.add_succ_r. apply (IH (S p)); [done | lia].
Qed.

(** A running sequence runs out: once time enough has passed, every
    character of the queue is done. *)
Lemma sequence_runs_out (X : Externals) d g o t others before n p
    (w : World) :
  Sending d g o t p others before w →
  (length (chars t) - p < n)%nat →
  tones_sent (trace (elapse X n w)) = before ++ sends d o (chars t).
Proof.
  intros Hs Hn.
  assert (Hp := sending_position _ _ _ _ _ _ _ _ Hs).
  set (j := (length (chars t) - p)%nat).
  assert (Hj : Sending d g o t (p + j) others before (elapse X j w))
    by (apply ticks_go_on; [done | lia]).
  replace (p + j)%nat with (length (chars t)) in Hj by lia.
  destruct (tick_ends X d g o t _ others before _ Hj eq_refl)
    as [Hidle Hsent].
  replace n with (j + (1 + (n - j - 1)))%nat by lia.
  rewrite !elapse_add. by rewrite (elapse_idle X _ _ Hidle).
Qed.

(** A call of [sendDTMF] that passes the checks either adds to the queue or
    starts a sequence. *)
Lemma sendDTMF_valid (X : Externals) t o (w : World) :
  status w = STATUS_CONFIRMED ∨ status w = STATUS_WAITING_FOR_ACK →
  matches_tones t = true →
  valid_options o →
  sendDTMF X (TonesString t) o w
  = (if truthy_string (_tones (this w))
     then assign (set_tones (Some (default "" (_tones (this w)) +:+ t)))
     else assign (set_tones (Some t));;
          _sendDTMF_run 0 (duration_of X o) (interToneGap_of X o) o) w.
Proof.
  intros Hst Hm [Hd Hg].
  unfold sendDTMF, duration_of, interToneGap_of, valid_number in *.
  unfold tones_to_string. unfold bind at 1, get_this at 1.
  rewrite bool_decide_eq_false_2
    by (unfold status in Hst; intros [? ?]; destruct Hst; congruence).
  rewrite Hm. simpl negb. cbv iota.
  destruct (dtmf_duration o) as [|[|pd|nd]|]; try done;
    destruct (dtmf_interToneGap o) as [|[|pg|ng]|]; try done; simpl;
    repeat match goal with
           | |- context [bind (if ?b then _ else _) _] => destruct b
           end;
    reflexivity.
Qed.

(** The first call of [sendDTMF] starts a sequence. *)
Lemma sendDTMF_starts (X : Externals) t o (w : World) :
  status w = STATUS_CONFIRMED ∨ status w = STATUS_WAITING_FOR_ACK →
  truthy_string (_tones (this w)) = false →
  well_timed w →
  Forall (λ x, is_tone_timer x = false) (timeouts w) →
  matches_tones t = true →
  valid_options o →
  Sending (duration_of X o) (interToneGap_of X o) o t 1 (timeouts w)
          (tones_sent (trace w)) (sendDTMF X (TonesString t) o w).2.
Proof.
  intros Hst Htones Hwt Ht Hm Hv.
  assert (Hothers : Forall (λ x, (x.1 < next_timeout w)%nat
                                 ∧ is_tone_timer x = false) (timeouts w)).
  { unfold well_timed in Hwt. rewrite Forall_forall in *.
    intros x Hx. split; [by apply Hwt | by apply Ht]. }
  rewrite sendDTMF_valid, Htones by done.
  destruct t as [|c t]; [done|].
  unfold _sendDTMF_run. run_M. simpl.
  rewrite bool_decide_eq_false_2
    by (unfold status in Hst; destruct Hst; congruence).
  simpl.
  destruct (Ascii.eqb c ",") eqn:Hcomma; simpl.
  - split; simpl; try done; [eauto 10 | lia |].
    unfold sends. simpl.
    rewrite filter_cons, decide_False by (by rewrite Hcomma).
    by rewrite app_nil_r.
  - split; simpl; try done; [eauto 10 | lia |].
    rewrite tones_sent_app. f_equal. unfold sends. simpl.
    by rewrite filter_cons, decide_True by done.
Qed.

(** A call of [sendDTMF] during a sequence adds its tones to the queue and
    nothing else; its options are not looked at again. *)
Lemma sendDTMF_queues (X : Externals) d g o t p others before t2 o2
    (w : World) :
  Sending d g o t p others before w →
  matches_tones t2 = true →
  valid_options o2 →
  Sending d g o (t +:+ t2) p others before
          (sendDTMF X (TonesString t2) o2 w).2.
Proof.
  intros [Htimer Htones Hst Hp Hsent] Hm Hv.
  rewrite sendDTMF_valid by done. rewrite Htones.
  assert (Htruthy : truthy_string (Some t) = true).
  { simpl. destruct t; [simpl in Hp; lia | done]. }
  rewrite Htruthy. run_M.
  split; simpl; try done.
  - rewrite chars_append, length_app. lia.
  - rewrite chars_append, take_app_le by lia. done.
Qed.

(** C9. In a session where tones may be sent and none are queued, a call
    of [sendDTMF] with the tones [t1] followed, while its sequence is still
    running (after [j] of its timers, [j] less than the length of [t1]), by
    a call with the tones [t2], makes the same calls of [dtmf.send], in the
    same order, as the one call with [t1] followed by [t2]: one INFO for
    every character that is not a comma. *)
Theorem sendDTMF_compositional (X : Externals) (t1 t2 : string)
    (o1 o2 : DTMFOptions) (j n : nat) (w : World) :
  status w = STATUS_CONFIRMED ∨ status w = STATUS_WAITING_FOR_ACK →
  truthy_string (_tones (this w)) = false →
  well_timed w →
  Forall (λ x, is_tone_timer x = false) (timeouts w) →
  matches_tones t1 = true →
  matches_tones t2 = true →
  valid_options o1 →
  valid_options o2 →
  (j < length (chars t1))%nat →
  (length (chars t1) + length (chars t2) ≤ n)%nat →
  let one_by_one :=
    elapse X n
      (sendDTMF X (TonesString t2) o2
         (elapse X j (sendDTMF X (TonesString t1) o1 w).2)).2 in
  let at_once :=
    elapse X n (sendDTMF X (TonesString (t1 +:+ t2)) o1 w).2 in
  tones_sent (trace one_by_one) = tones_sent (trace at_once)
  ∧ tones_sent (trace at_once)
    = tones_sent (trace w)
      ++ sends (duration_of X o1) o1 (chars (t1 +:+ t2)).
Proof.
  intros Hst Htones Hwt Ht Hm1 Hm2 Hv1 Hv2 Hj Hn one_by_one at_once.
  assert (Hlen2 := matches_tones_length t2 Hm2).
  assert (Hboth : tones_sent (trace at_once)
                  = tones_sent (trace w)
                    ++ sends (duration_of X o1) o1 (chars (t1 +:+ t2))).
  { apply (sequence_runs_out X _ (interToneGap_of X o1) o1 _ (timeouts w)
             _ n 1).
    - apply sendDTMF_starts; try done.
      by apply matches_tones_append.
    - rewrite chars_append, length_app. lia. }
  split; [|done]. rewrite Hboth.
  apply (sequence_runs_out X _ (interToneGap_of X o1) o1 _ (timeouts w)
           _ n (1 + j)).
  - apply sendDTMF_queues; try done.
    apply ticks_go_on; [|lia]. by apply sendDTMF_starts.
  - rewrite chars_append, length_app. lia.
Qed.

Lemma sendDTMF_compositional_witness :
  (status confirmed_session = STATUS_CONFIRMED
   ∨ status confirmed_session = STATUS_WAITING_FOR_ACK)
  ∧ truthy_string (_tones (this confirmed_session)) = false
  ∧ well_timed confirmed_session
  ∧ Forall (λ x, is_tone_timer x = false) (timeouts confirmed_session)
  ∧ matches_tones "1" = true
  ∧ matches_tones "2" = true
  ∧ valid_options no_dtmf_options
  ∧ (0 < length (chars "1"))%nat
  ∧ (length (chars "1") + length (chars "2") ≤ 2)%nat
  ∧ tones_sent
      (trace (elapse library 2
                (sendDTMF library (TonesString "2") no_dtmf_options
                   (elapse library 0
                      (sendDTMF library (TonesString "1") no_dtmf_options
                                confirmed_session).2)).2))
    = tones_sent
        (trace (elapse library 2
                  (sendDTMF library (TonesString "12") no_dtmf_options
                            confirmed_session).2))
  ∧ tones_sent
      (trace (elapse library 2
                (sendDTMF library (TonesString "12") no_dtmf_options
                          confirmed_session).2))
    = [dtmf_send "1" 100 NumAbsent; dtmf_send "2" 100 NumAbsent].
Proof.
  assert (H1 : status confirmed_session = STATUS_CONFIRMED
               ∨ status confirmed_session = STATUS_WAITING_FOR_ACK)
    by (left; reflexivity).
  assert (H2 : truthy_string (_tones (this confirmed_session)) = false)
    by reflexivity.
  assert (H3 : well_timed confirmed_session) by constructor.
  assert (H3' : Forall (λ x, is_tone_timer x = false)
                       (timeouts confirmed_session)) by constructor.
  assert (H4 : matches_tones "1" = true) by reflexivity.
  assert (H5 : matches_tones "2" = true) by reflexivity.
  assert (H6 : valid_options no_dtmf_options) by (split; exact I).
  assert (H7 : (0 < length (chars "1"))%nat) by (simpl; lia).
  assert (H8 : (length (chars "1") + length (chars "2") ≤ 2)%nat)
    by (simpl; lia).
  destruct (sendDTMF_compositional library "1" "2" no_dtmf_options
              no_dtmf_options 0 2 confirmed_session
              H1 H2 H3 H3' H4 H5 H6 H6 H7 H8) as [Hsame Hall].
  split; [exact H1|]. split; [exact H2|]. split; [exact H3|].
  split; [exact H3'|].
  split; [exact H4|]. split; [exact H5|]. split; [exact H6|].
  split; [exact H7|]. split; [exact H8|].
  split; [exact Hsame | exact Hall].
Defined.

(** * Further properties of the session *)

(** ** The three predicates on the status *)

(** X1. Every session is in progress, established or ended, and in one of
    the three only: [isInProgress], [isEstablished] and [isEnded] split the
    ten states. *)
Theorem status_predicates_partition (s : RTCSession) :
  (isInProgress s = true ∧ isEstablished s = false ∧ isEnded s = false)
  ∨ (isInProgress s = false ∧ isEstablished s = true ∧ isEnded s = false)
  ∨ (isInProgress s = false ∧ isEstablished s = false ∧ isEnded s = true).
Proof.
  unfold isInProgress, isEstablished, isEnded.
  destruct (_status s); naive_solver.
Qed.

(** ** What [_close] leaves *)

Lemma foldl_delete_all (l : list (string * Dialog)) (m : gmap string Dialog) :
  (∀ k v, m !! k = Some v → k ∈ l.*1) →
  foldl (λ m kd, delete kd.1 m) m l = ∅.
Proof.
  revert m. induction l as [|x l IH]; intros m Hm; simpl.
  - apply map_empty. intros k. destruct (m !! k) as [v|] eqn:E; [|done].
    specialize (Hm k v E). by apply elem_of_nil in Hm.
  - apply IH. intros k v [Hne Hk]%lookup_delete_Some.
    specialize (Hm k v Hk). simpl in Hm.
    apply elem_of_cons in Hm as [->|?]; done.
Qed.

Lemma early_dialogs_deleted (m : gmap string Dialog) :
  foldl (λ m kd, delete kd.1 m) m (map_to_list m) = ∅.
Proof.
  apply foldl_delete_all. intros k v Hk.
  apply list_elem_of_fmap. exists (k, v). split; [done|].
  by apply elem_of_map_to_list.
Qed.

Lemma set_dialog_None (s : RTCSession) :
  _dialog s = None → set_dialog None s = s.
Proof. destruct s. simpl. by intros ->. Qed.

Lemma _close_closed (w : World) :
  status w ≠ STATUS_TERMINATED → _close w = (Normal tt, closed w).
Proof.
  intros Hw. unfold _close, closed. run_M.
  case_decide as H; [done|].
  destruct (_dialog (this w)) as [d|] eqn:Hd; run_M;
    rewrite for_each_early_dialogs; simpl; f_equal;
    unfold with_trace, with_this, close_effects; simpl;
    rewrite early_dialogs_deleted, Hd; simpl.
  - by rewrite <- !app_assoc.
  - destruct w as [s ? ? ? ? ?]; simpl in *.
    f_equal; try (by rewrite <- ?app_assoc).
    destruct s; simpl in *. by subst.
Qed.

Lemma _ended_closed o m c (w : World) :
  status w ≠ STATUS_TERMINATED →
  _ended o m c w = (Normal tt, ended_with o m c w).
Proof.
  intros Hw. unfold _ended, ended_with. run_M.
  by rewrite _close_closed.
Qed.

Lemma _failed_closed o m c (w : World) :
  status w ≠ STATUS_TERMINATED →
  _failed o m c w = (Normal tt, failed_with o m c w).
Proof.
  intros Hw. unfold _failed, failed_with. run_M.
  by rewrite _close_closed.
Qed.

Lemma closed_handles (w : World) (h : nat) :
  Some h ∈ session_handles (this w) → h ∉ pending_handles (closed w).
Proof.
  unfold session_handles, pending_handles, closed. simpl.
  intros Hh ([h' x] & -> & Hin)%list_elem_of_fmap. simpl in *.
  rewrite !elem_of_cons, elem_of_nil in Hh.
  destruct Hh as [Hh|[Hh|[Hh|[Hh|[Hh|[]]]]]]; rewrite <- Hh in Hin;
    repeat (first [ by apply cleared_gone in Hin
                  | apply cleared_subset in Hin ]).
Qed.

(** X2. [_close] on a session that is not terminated returns, sets the
    status TERMINATED, forgets the confirmed dialog and every early dialog
    after terminating them, tells the UA, and leaves none of the timers of
    the session pending (ACK, expires, 2xx retransmission, no-answer and
    session timer).  A second [_close] does nothing. *)
Theorem close_releases_everything (w : World) :
  status w ≠ STATUS_TERMINATED →
  (_close w).1 = Normal tt
  ∧ status (_close w).2 = STATUS_TERMINATED
  ∧ _dialog (this (_close w).2) = None
  ∧ _earlyDialogs (this (_close w).2) = ∅
  ∧ (∀ h, Some h ∈ session_handles (this w) →
          h ∉ pending_handles (_close w).2)
  ∧ trace (_close w).2 = trace w ++ close_effects (this w)
  ∧ _close (_close w).2 = (Normal tt, (_close w).2).
Proof.
  intros Hw. rewrite _close_closed by done. simpl.
  split; [done|]. split; [done|]. split; [done|]. split; [done|].
  split; [intros h; apply closed_handles|]. split; [done|].
  by apply _close_terminated.
Qed.

Lemma close_releases_everything_witness :
  status awaiting_ack ≠ STATUS_TERMINATED
  ∧ pending_handles awaiting_ack = [0; 1; 2]%nat
  ∧ pending_handles (_close awaiting_ack).2 = []
  ∧ _dialog (this (_close awaiting_ack).2) = None
  ∧ trace (_close awaiting_ack).2
    = trace awaiting_ack
      ++ [dialog_terminate (id idle_dialog); ua_destroyRTCSession].
Proof.
  assert (H : status awaiting_ack ≠ STATUS_TERMINATED) by discriminate.
  destruct (close_releases_everything awaiting_ack H)
    as (_ & _ & Hd & _ & _ & Ht & _).
  split; [exact H|]. split; [reflexivity|]. split; [reflexivity|].
  split; [exact Hd | exact Ht].
Defined.

(** ** Requests within the dialog *)

Lemma and_then_app (e1 e2 : list Effect) (w : World) :
  and_then e2 (and_then e1 w) = and_then (e1 ++ e2) w.
Proof. unfold and_then, with_trace. simpl. by rewrite <- app_assoc. Qed.

(** X3. A BYE for a session in CONFIRMED or WAITING_FOR_ACK emits
    [byeReceived], is answered 200 and ends the session: it is closed, the
    end time is the time of the BYE, and [ended] fires with originator remote
    and cause BYE.  In every other status the BYE is answered
    403 Wrong Status and nothing else happens. *)
Theorem bye_received (X : Externals) (request : IncomingRequest)
    (listener : option RejectOptions) (w : World) :
  method request = BYE →
  (status w = STATUS_CONFIRMED ∨ status w = STATUS_WAITING_FOR_ACK →
   receiveRequest X request listener w
   = (Normal tt,
      ended_with remote (Some (MsgRequest request)) causes.BYE
        (and_then [emit (Ev.byeReceived remote);
                   reply request 200 None [] None] w))
   ∧ status (receiveRequest X request listener w).2 = STATUS_TERMINATED
   ∧ _end_time (this (receiveRequest X request listener w).2)
     = Some (clock w)
   ∧ trace (receiveRequest X request listener w).2
     = trace w
       ++ [emit (Ev.byeReceived remote); reply request 200 None [] None]
       ++ close_effects (this w)
       ++ [emit (Ev.ended remote (Some (MsgRequest request)) causes.BYE)])
  ∧ (status w ≠ STATUS_CONFIRMED → status w ≠ STATUS_WAITING_FOR_ACK →
     receiveRequest X request listener w
     = (Normal tt, and_then [wrong_status request] w)).
Proof.
  intros Hm. split.
  - intros Hst.
    assert (E : receiveRequest X request listener w
                = _ended remote (Some (MsgRequest request)) causes.BYE
                    (and_then [emit (Ev.byeReceived remote);
                               reply request 200 None [] None] w)).
    { unfold receiveRequest. rewrite Hm. run_M.
      rewrite bool_decide_eq_true_2 by (unfold status in Hst; tauto).
      unfold and_then, with_trace. simpl. by rewrite <- app_assoc. }
    rewrite E, _ended_closed
      by (unfold status in *; simpl; destruct Hst; congruence).
    split; [done|]. split; [done|]. split; [done|].
    simpl. by rewrite <- !app_assoc.
  - intros H1 H2. unfold receiveRequest. rewrite Hm. run_M.
    by rewrite bool_decide_eq_false_2 by (unfold status in *; tauto).
Qed.

Lemma bye_received_witness :
  method bye_request = BYE
  ∧ (status established = STATUS_CONFIRMED
     ∨ status established = STATUS_WAITING_FOR_ACK)
  ∧ status (receiveRequest library bye_request None established).2
    = STATUS_TERMINATED
  ∧ trace (receiveRequest library bye_request None established).2
    = trace established
      ++ [emit (Ev.byeReceived remote); reply bye_request 200 None [] None]
      ++ close_effects (this established)
      ++ [emit (Ev.ended remote (Some (MsgRequest bye_request))
                         causes.BYE)]
  ∧ status ringing ≠ STATUS_CONFIRMED
  ∧ status ringing ≠ STATUS_WAITING_FOR_ACK
  ∧ receiveRequest library bye_request None ringing
    = (Normal tt, and_then [wrong_status bye_request] ringing).
Proof.
  assert (Hm : method bye_request = BYE) by reflexivity.
  assert (Hs : status established = STATUS_CONFIRMED
               ∨ status established = STATUS_WAITING_FOR_ACK)
    by (left; reflexivity).
  assert (H1 : status ringing ≠ STATUS_CONFIRMED) by discriminate.
  assert (H2 : status ringing ≠ STATUS_WAITING_FOR_ACK) by discriminate.
  destruct (bye_received library bye_request None established Hm)
    as [Hbye _].
  destruct (Hbye Hs) as (_ & Hst & _ & Htr).
  destruct (bye_received library bye_request None ringing Hm)
    as [_ Hwrong].
  split; [exact Hm|]. split; [exact Hs|]. split; [exact Hst|].
  split; [exact Htr|]. split; [exact H1|]. split; [exact H2|].
  exact (Hwrong H1 H2).
Defined.

(** X4. A request that the status does not allow is answered and changes
    nothing else: a re-INVITE or an UPDATE outside CONFIRMED and an INFO
    outside the five states that take it get 403 Wrong Status; a request with
    a method the session does not handle gets 501 in every status. *)
Theorem request_refused (X : Externals) (request : IncomingRequest)
    (listener : option RejectOptions) (w : World) :
  (method request = INVITE ∨ method request = UPDATE →
   status w ≠ STATUS_CONFIRMED →
   receiveRequest X request listener w
   = (Normal tt, and_then [wrong_status request] w))
  ∧ (method request = INFO →
     ¬ takes_info (status w) →
     receiveRequest X request listener w
     = (Normal tt, and_then [wrong_status request] w))
  ∧ (∀ name, method request = OTHER name →
       receiveRequest X request listener w
       = (Normal tt, and_then [reply request 501 None [] None] w)).
Proof.
  unfold receiveRequest, takes_info, status.
  split; [|split].
  - intros [Hm|Hm] Hst; rewrite Hm; run_M;
      by rewrite bool_decide_eq_false_2.
  - intros Hm Hst. rewrite Hm. run_M.
    by rewrite bool_decide_eq_false_2.
  - intros name Hm. by rewrite Hm.
Qed.

Lemma request_refused_witness :
  (method late_reinvite = INVITE ∨ method late_reinvite = UPDATE)
  ∧ status ringing ≠ STATUS_CONFIRMED
  ∧ receiveRequest library late_reinvite None ringing
    = (Normal tt, and_then [wrong_status late_reinvite] ringing)
  ∧ method dtmf_info = INFO
  ∧ ¬ takes_info (status invite_sent)
  ∧ receiveRequest library dtmf_info None invite_sent
    = (Normal tt, and_then [wrong_status dtmf_info] invite_sent)
  ∧ method options_request = OTHER "OPTIONS"
  ∧ receiveRequest library options_request None established
    = (Normal tt,
       and_then [reply options_request 501 None [] None] established).
Proof.
  assert (Hm : method late_reinvite = INVITE ∨ method late_reinvite = UPDATE)
    by (left; reflexivity).
  assert (Hs : status ringing ≠ STATUS_CONFIRMED) by discriminate.
  assert (Hi : method dtmf_info = INFO) by reflexivity.
  assert (Hn : ¬ takes_info (status invite_sent)).
  { intros [H|[H|[H|[H|H]]]]; discriminate H. }
  assert (Ho : method options_request = OTHER "OPTIONS") by reflexivity.
  destruct (request_refused library late_reinvite None ringing)
    as (H1 & _ & _).
  destruct (request_refused library dtmf_info None invite_sent)
    as (_ & H2 & _).
  destruct (request_refused library options_request None established)
    as (_ & _ & H3).
  split; [exact Hm|]. split; [exact Hs|]. split; [exact (H1 Hm Hs)|].
  split; [exact Hi|]. split; [exact Hn|]. split; [exact (H2 Hi Hn)|].
  split; [exact Ho|]. exact (H3 _ Ho).
Defined.

Lemma starts_with_ci_lowercase (prefix s : string) :
  starts_with_ci prefix s = true ↔ ∃ rest, lowercase s = prefix +:+ rest.
Proof.
  revert s. induction prefix as [|p prefix IH]; intros s; simpl.
  - split; [intros _; by exists (lowercase s) | done].
  - destruct s as [|c s]; simpl.
    + split; [done | intros [rest ?]; done].
    + rewrite andb_true_iff, IH. split.
      * intros [Hp [rest Hr]]. exists rest.
        apply Ascii.eqb_eq in Hp. by rewrite Hp, Hr.
      * intros [rest Hr]. injection Hr as Hp Hr.
        split; [apply Ascii.eqb_eq; done | by exists rest].
Qed.

(** X5. An INFO in one of the states that take it goes to the DTMF handler
    when its Content-Type, read without case, begins with
    application/dtmf-relay, to the INFO handler when it has another
    Content-Type, and is answered 415 when it has none.  The session itself
    is not changed. *)
Theorem info_received (X : Externals) (request : IncomingRequest)
    (listener : option RejectOptions) (w : World) :
  method request = INFO →
  takes_info (status w) →
  (∀ ct rest, content_type request = Some ct →
     lowercase ct = "application/dtmf-relay" +:+ rest →
     receiveRequest X request listener w
     = (Normal tt, and_then [dtmf_init_incoming request] w))
  ∧ (∀ ct, content_type request = Some ct →
       (∀ rest, lowercase ct ≠ "application/dtmf-relay" +:+ rest) →
       receiveRequest X request listener w
       = (Normal tt, and_then [info_init_incoming request] w))
  ∧ (content_type request = None →
     receiveRequest X request listener w
     = (Normal tt, and_then [reply request 415 None [] None] w)).
Proof.
  intros Hm Hst. unfold receiveRequest, takes_info, status in *.
  rewrite Hm. run_M. rewrite bool_decide_eq_true_2 by done.
  split; [|split].
  - intros ct rest Hct Hlow. rewrite Hct.
    assert (Hp : starts_with_ci "application/dtmf-relay" ct = true)
      by (apply starts_with_ci_lowercase; by exists rest).
    change (default "" (Some ct)) with ct. rewrite Hp.
    destruct ct; [done|]. done.
  - intros ct Hct Hlow. rewrite Hct.
    assert (Hp : starts_with_ci "application/dtmf-relay" ct = false).
    { destruct (starts_with_ci _ ct) eqn:E; [|done].
      apply starts_with_ci_lowercase in E as [rest E].
      by destruct (Hlow rest). }
    change (default "" (Some ct)) with ct. rewrite Hp, andb_false_r.
    by rewrite bool_decide_eq_true_2.
  - intros Hct. by rewrite Hct.
Qed.

Lemma info_received_witness :
  method dtmf_info = INFO
  ∧ takes_info (status established)
  ∧ content_type dtmf_info = Some "Application/DTMF-Relay"
  ∧ lowercase "Application/DTMF-Relay" = "application/dtmf-relay" +:+ ""
  ∧ receiveRequest library dtmf_info None established
    = (Normal tt, and_then [dtmf_init_incoming dtmf_info] established).
Proof.
  assert (Hm : method dtmf_info = INFO) by reflexivity.
  assert (Hs : takes_info (status established))
    by (do 4 right; reflexivity).
  assert (Hc : content_type dtmf_info = Some "Application/DTMF-Relay")
    by reflexivity.
  assert (Hl : lowercase "Application/DTMF-Relay"
               = "application/dtmf-relay" +:+ "") by reflexivity.
  destruct (info_received library dtmf_info None established Hm Hs)
    as (H & _ & _).
  split; [exact Hm|]. split; [exact Hs|]. split; [exact Hc|].
  split; [exact Hl|]. exact (H _ _ Hc Hl).
Defined.

(** X6. The listener of [reinvite] or [update] that calls [reject] on a
    confirmed session has the request answered with its status code between
    300 and 699, 403 when it gives none, and the session goes no further
    with the offer.  A status code outside that range is a TypeError: the
    event was emitted, no reply is sent. *)
Theorem offer_rejected (X : Externals) (request : IncomingRequest)
    (options : RejectOptions) (w : World) :
  method request = INVITE ∨ method request = UPDATE →
  status w = STATUS_CONFIRMED →
  (300 ≤ reject_code options < 700 →
   receiveRequest X request (Some options) w
   = (Normal tt,
      and_then [emit (offer_event request);
                reply request (reject_code options)
                      (or_string (rj_reason_phrase options) (Some ""))
                      (rj_extraHeaders options) None] w))
  ∧ (reject_code options < 300 ∨ 700 ≤ reject_code options →
     receiveRequest X request (Some options) w
     = (Thrown (TypeError ("Invalid status_code: "
                           +:+ pretty (reject_code options))),
        and_then [emit (offer_event request)] w))
  ∧ (truthy_number (rj_status_code options) = false →
     reject_code options = 403).
Proof.
  intros Hm Hst.
  unfold receiveRequest, _receiveReinvite, _receiveUpdate, reject,
    offer_event, status, reject_code in *.
  split; [|split].
  - intros Hc.
    destruct Hm as [Hm|Hm]; rewrite Hm; run_M;
      rewrite bool_decide_eq_true_2 by done; simpl;
      rewrite bool_decide_eq_false_2 by (intros H; by apply H);
      rewrite (proj2 (Z.ltb_ge _ 300)) by lia; simpl;
      destruct (_ >=? 700) eqn:E; try lia;
      unfold and_then, with_trace; simpl; by rewrite <- app_assoc.
  - intros Hc.
    assert (Hbad : (reject_code options <? 300)
                   || (reject_code options >=? 700) = true).
    { unfold reject_code. apply orb_true_iff.
      destruct Hc; [left; by apply Z.ltb_lt | right; lia]. }
    unfold reject_code in Hbad.
    destruct Hm as [Hm|Hm]; rewrite Hm; run_M;
      rewrite bool_decide_eq_true_2 by done; simpl;
      rewrite bool_decide_eq_false_2 by (intros H; by apply H);
      by rewrite Hbad.
  - by intros ->.
Qed.

Lemma offer_rejected_witness :
  (method late_reinvite = INVITE ∨ method late_reinvite = UPDATE)
  ∧ status established = STATUS_CONFIRMED
  ∧ 300 ≤ reject_code no_reject_options < 700
  ∧ receiveRequest library late_reinvite (Some no_reject_options)
                   established
    = (Normal tt,
       and_then [emit (Ev.reinvite late_reinvite);
                 reply late_reinvite 403 (Some "") [] None] established).
Proof.
  assert (Hm : method late_reinvite = INVITE ∨ method late_reinvite = UPDATE)
    by (left; reflexivity).
  assert (Hs : status established = STATUS_CONFIRMED) by reflexivity.
  assert (Hc : 300 ≤ reject_code no_reject_options < 700)
    by (unfold reject_code; simpl; lia).
  destruct (offer_rejected library late_reinvite no_reject_options
              established Hm Hs) as (H & _ & _).
  split; [exact Hm|]. split; [exact Hs|]. split; [exact Hc|].
  exact (H Hc).
Defined.

(** ** Dialog creation *)

Lemma _createDialog_early_known (X : Externals) message type d (w : World) :
  _earlyDialogs (this w) !! dialog_key (message_of message) type = Some d →
  _createDialog X message type true w = (Normal true, w).
Proof.
  intros H. unfold _createDialog, dialog_key in *. run_M. by rewrite H.
Qed.

Lemma _createDialog_early_new (X : Externals) message type d (w : World) :
  _earlyDialogs (this w) !! dialog_key (message_of message) type = None →
  new_Dialog X (message_of message) type STATUS_EARLY = inr d →
  _createDialog X message type true w
  = (Normal true,
     with_this (λ s, set_earlyDialogs
                       (<[dialog_key (message_of message) type := d]>
                          (_earlyDialogs s)) s) w).
Proof.
  intros H Hd. unfold _createDialog, dialog_key in *. run_M.
  by rewrite H, Hd.
Qed.

Lemma _createDialog_error (X : Externals) message type (early : bool)
    error (w : World) :
  _earlyDialogs (this w) !! dialog_key (message_of message) type = None →
  new_Dialog X (message_of message) type
             (if early then STATUS_EARLY else STATUS_DIALOG_CONFIRMED)
  = inl error →
  status w ≠ STATUS_TERMINATED →
  _createDialog X message type early w
  = (Normal false,
     failed_with remote (Some message) causes.INTERNAL_ERROR
       (if early then w
        else with_this (λ s, set_to_tag (to_tag (message_of message))
                               (set_from_tag (from_tag (message_of message))
                                             s)) w)).
Proof.
  intros H Hd Hst. unfold _createDialog, dialog_key in *.
  destruct early; run_M; rewrite H, Hd; run_M;
    by rewrite _failed_closed.
Qed.

Lemma _createDialog_confirmed_new (X : Externals) message type d
    (w : World) :
  _earlyDialogs (this w) !! dialog_key (message_of message) type = None →
  new_Dialog X (message_of message) type STATUS_DIALOG_CONFIRMED = inr d →
  _createDialog X message type false w
  = (Normal true,
     with_this (λ s, set_dialog (Some d)
                       (set_to_tag (to_tag (message_of message))
                          (set_from_tag (from_tag (message_of message)) s)))
               w).
Proof.
  intros H Hd. unfold _createDialog, dialog_key in *. run_M.
  by rewrite H, Hd.
Qed.

Lemma _createDialog_confirmed_early (X : Externals) message type d
    (w : World) :
  _earlyDialogs (this w) !! dialog_key (message_of message) type = Some d →
  _createDialog X message type false w
  = (Normal true,
     with_this (λ s, set_earlyDialogs
                       (delete (dialog_key (message_of message) type)
                               (_earlyDialogs s))
                       (set_dialog
                          (Some (Dialog_update X d (message_of message) type))
                          (set_to_tag (to_tag (message_of message))
                             (set_from_tag (from_tag (message_of message))
                                           s))))
               w).
Proof.
  intros H. unfold _createDialog, dialog_key in *. run_M. by rewrite H.
Qed.

(** X7. A dialog goes from early to confirmed and is never in both places.
    The first provisional message of a dialog stores an early dialog under
    the key of call-id and tags; the same message again changes nothing; the
    final message of that dialog makes the stored dialog, updated, the
    confirmed dialog of the session, takes it out of the early dialogs, which
    are then the ones from before, and records the tags of the message. *)
Theorem early_dialog_promoted (X : Externals) (message final : AnyMessage)
    (type : DialogType) (d : Dialog) (w : World) :
  _earlyDialogs (this w) !! dialog_key (message_of message) type = None →
  new_Dialog X (message_of message) type STATUS_EARLY = inr d →
  dialog_key (message_of final) type = dialog_key (message_of message) type →
  let w1 := (_createDialog X message type true w).2 in
  let w2 := (_createDialog X final type false w1).2 in
  (_createDialog X message type true w).1 = Normal true
  ∧ _earlyDialogs (this w1) !! dialog_key (message_of message) type = Some d
  ∧ _createDialog X message type true w1 = (Normal true, w1)
  ∧ (_createDialog X final type false w1).1 = Normal true
  ∧ _dialog (this w2) = Some (Dialog_update X d (message_of final) type)
  ∧ _earlyDialogs (this w2) = _earlyDialogs (this w)
  ∧ _from_tag (this w2) = from_tag (message_of final)
  ∧ _to_tag (this w2) = to_tag (message_of final).
Proof.
  intros Hnew Hd Hkey w1 w2. subst w1 w2.
  rewrite (_createDialog_early_new X message type d w) by done. simpl.
  assert (Hin : <[dialog_key (message_of message) type := d]>
                  (_earlyDialogs (this w))
                !! dialog_key (message_of final) type = Some d)
    by (rewrite Hkey; apply lookup_insert_eq).
  split; [done|]. split; [apply lookup_insert_eq|]. split.
  { apply (_createDialog_early_known X message type d). simpl.
    apply lookup_insert_eq. }
  rewrite (_createDialog_confirmed_early X final type d) by done. simpl.
  split; [done|]. split; [done|]. split; [|done].
  rewrite Hkey, delete_insert_eq. by apply delete_id.
Qed.

Lemma early_dialog_promoted_witness :
  _earlyDialogs (this invite_sent)
    !! dialog_key (message_of (MsgResponse ringing_180)) UAC = None
  ∧ new_Dialog library (message_of (MsgResponse ringing_180)) UAC
               STATUS_EARLY
    = inr {| id := id idle_dialog; dialog_state := STATUS_EARLY;
             uac_pending_reply := false; uas_pending_reply := false |}
  ∧ dialog_key (message_of (MsgResponse sdpless_200)) UAC
    = dialog_key (message_of (MsgResponse ringing_180)) UAC
  ∧ _dialog (this (_createDialog library (MsgResponse sdpless_200) UAC false
                     (_createDialog library (MsgResponse ringing_180) UAC
                                    true invite_sent).2).2)
    = Some idle_dialog
  ∧ _earlyDialogs
      (this (_createDialog library (MsgResponse sdpless_200) UAC false
               (_createDialog library (MsgResponse ringing_180) UAC
                              true invite_sent).2).2)
    = _earlyDialogs (this invite_sent).
Proof.
  assert (H1 : _earlyDialogs (this invite_sent)
                 !! dialog_key (message_of (MsgResponse ringing_180)) UAC
               = None) by reflexivity.
  assert (H2 : new_Dialog library (message_of (MsgResponse ringing_180)) UAC
                          STATUS_EARLY
               = inr {| id := id idle_dialog; dialog_state := STATUS_EARLY;
                        uac_pending_reply := false;
                        uas_pending_reply := false |}) by reflexivity.
  assert (H3 : dialog_key (message_of (MsgResponse sdpless_200)) UAC
               = dialog_key (message_of (MsgResponse ringing_180)) UAC)
    by reflexivity.
  destruct (early_dialog_promoted library (MsgResponse ringing_180)
              (MsgResponse sdpless_200) UAC _ invite_sent H1 H2 H3)
    as (_ & _ & _ & _ & Hd & He & _).
  split; [exact H1|]. split; [exact H2|]. split; [exact H3|].
  split; [exact Hd | exact He].
Defined.

(** ** Responses to the initial INVITE *)

Lemma not_final_again (response : IncomingResponse) (w : World) :
  _dialog (this w) = None
  ∨ status_code response < 200 ∨ 299 < status_code response →
  bool_decide (is_Some (_dialog (this w)))
  && (200 <=? status_code response) && (status_code response <=? 299)
  = false.
Proof.
  intros [H|[H|H]].
  - rewrite H. rewrite bool_decide_eq_false_2; [done|].
    by intros [? ?].
  - rewrite (proj2 (Z.leb_gt _ _)) by lia. by rewrite andb_false_r.
  - rewrite (proj2 (Z.leb_gt _ 299)) by lia. by rewrite andb_false_r.
Qed.

Lemma response_ignored_lemma (X : Externals) (response : IncomingResponse)
    (w : World) :
  _is_canceled (this w) = false →
  status w ≠ STATUS_INVITE_SENT →
  status w ≠ STATUS_1XX_RECEIVED →
  _dialog (this w) = None
  ∨ status_code response < 200 ∨ 299 < status_code response →
  _receiveInviteResponse X response w = (Normal tt, w).
Proof.
  intros Hc H1 H2 Hd. unfold _receiveInviteResponse. run_M.
  rewrite not_final_again, Hc by done.
  by rewrite bool_decide_eq_true_2.
Qed.

(** X8. A response to the INVITE that comes when nothing waits for it is
    dropped: on a session that the user has not cancelled and that is in
    neither INVITE_SENT nor 1XX_RECEIVED, a response that is not a 2xx for a
    session with a confirmed dialog changes nothing, sends nothing and emits
    nothing. *)
Theorem response_ignored (X : Externals) (response : IncomingResponse)
    (w : World) :
  _is_canceled (this w) = false →
  status w ≠ STATUS_INVITE_SENT →
  status w ≠ STATUS_1XX_RECEIVED →
  _dialog (this w) = None
  ∨ status_code response < 200 ∨ 299 < status_code response →
  _receiveInviteResponse X response w = (Normal tt, w).
Proof. apply response_ignored_lemma. Qed.

Lemma response_ignored_witness :
  _is_canceled (this ringing) = false
  ∧ status ringing ≠ STATUS_INVITE_SENT
  ∧ status ringing ≠ STATUS_1XX_RECEIVED
  ∧ _dialog (this ringing) = None
  ∧ _receiveInviteResponse library forked_200 ringing = (Normal tt, ringing).
Proof.
  assert (Hc : _is_canceled (this ringing) = false) by reflexivity.
  assert (H1 : status ringing ≠ STATUS_INVITE_SENT) by discriminate.
  assert (H2 : status ringing ≠ STATUS_1XX_RECEIVED) by discriminate.
  assert (Hd : _dialog (this ringing) = None) by reflexivity.
  split; [exact Hc|]. split; [exact H1|]. split; [exact H2|].
  split; [exact Hd|].
  exact (response_ignored library forked_200 ringing Hc H1 H2
           (or_introl Hd)).
Defined.

(** X9. A 2xx for a session that has its confirmed dialog never changes the
    session.  From the endpoint of the dialog it is a retransmission and is
    acknowledged again.  From another endpoint, a branch of a forked
    INVITE, an ACK and a BYE are sent, both through the confirmed dialog of
    the session; when no dialog can be built from the response nothing is
    sent. *)
Theorem final_response_again (X : Externals) (response : IncomingResponse)
    (d : Dialog) (w : World) :
  _dialog (this w) = Some d →
  200 ≤ status_code response ≤ 299 →
  (same_dialog d response →
   _receiveInviteResponse X response w
   = (Normal tt, and_then [plain d ACK] w))
  ∧ (¬ same_dialog d response →
     ∀ d', new_Dialog X response UAC STATUS_DIALOG_CONFIRMED = inr d' →
     _receiveInviteResponse X response w
     = (Normal tt, and_then [plain d ACK; plain d BYE] w))
  ∧ (¬ same_dialog d response →
     ∀ error, new_Dialog X response UAC STATUS_DIALOG_CONFIRMED = inl error →
     _receiveInviteResponse X response w = (Normal tt, w)).
Proof.
  intros Hd Hcode.
  unfold _receiveInviteResponse, sendRequest, same_dialog, plain, and_then.
  run_M.
  rewrite Hd. rewrite bool_decide_eq_true_2 by done.
  rewrite (proj2 (Z.leb_le 200 _)), (proj2 (Z.leb_le _ 299)) by lia.
  simpl. split; [|split].
  - intros Hsame. rewrite bool_decide_eq_true_2 by done.
    cbv beta iota. by rewrite Hd.
  - intros Hother d' Hnew. rewrite bool_decide_eq_false_2, Hnew by done.
    cbv beta iota. rewrite Hd. simpl. rewrite Hd.
    unfold with_trace. simpl. by rewrite <- app_assoc.
  - intros Hother error Hnew.
    by rewrite bool_decide_eq_false_2, Hnew.
Qed.

Lemma final_response_again_witness :
  _dialog (this established) = Some idle_dialog
  ∧ 200 ≤ status_code sdpless_200 ≤ 299
  ∧ same_dialog idle_dialog sdpless_200
  ∧ _receiveInviteResponse library sdpless_200 established
    = (Normal tt, and_then [plain idle_dialog ACK] established)
  ∧ ¬ same_dialog idle_dialog forked_200
  ∧ _receiveInviteResponse library forked_200 established
    = (Normal tt,
       and_then [plain idle_dialog ACK; plain idle_dialog BYE] established).
Proof.
  assert (Hd : _dialog (this established) = Some idle_dialog)
    by reflexivity.
  assert (Hc : 200 ≤ status_code sdpless_200 ≤ 299) by (simpl; lia).
  assert (Hc' : 200 ≤ status_code forked_200 ≤ 299) by (simpl; lia).
  assert (Hs : same_dialog idle_dialog sdpless_200) by (by repeat split).
  assert (Hn : ¬ same_dialog idle_dialog forked_200)
    by (intros (_ & _ & H); discriminate H).
  destruct (final_response_again library sdpless_200 idle_dialog
              established Hd Hc) as (H1 & _ & _).
  destruct (final_response_again library forked_200 idle_dialog
              established Hd Hc') as (_ & H2 & _).
  split; [exact Hd|]. split; [exact Hc|]. split; [exact Hs|].
  split; [exact (H1 Hs)|]. split; [exact Hn|].
  exact (H2 Hn _ eq_refl).
Defined.

(** X10. A response that is neither provisional nor a 2xx (300 and above,
    or below 100) to a call that waits for its answer fails the call: the
    session is closed and [failed] fires once, with originator remote, the
    response, and the cause that [Utils.sipErrorCause] gives to the status
    code. *)
Theorem error_response_fails (X : Externals) (response : IncomingResponse)
    (w : World) :
  _is_canceled (this w) = false →
  status w = STATUS_INVITE_SENT ∨ status w = STATUS_1XX_RECEIVED →
  status_code response < 100 ∨ 300 ≤ status_code response →
  _receiveInviteResponse X response w
  = (Normal tt,
     failed_with remote (Some (MsgResponse response))
                 (sipErrorCause X (status_code response)) w)
  ∧ status (_receiveInviteResponse X response w).2 = STATUS_TERMINATED
  ∧ trace (_receiveInviteResponse X response w).2
    = trace w ++ close_effects (this w)
      ++ [emit (Ev.failed remote (Some (MsgResponse response))
                          (sipErrorCause X (status_code response)))].
Proof.
  intros Hc Hst Hcode.
  assert (E : _receiveInviteResponse X response w
              = _failed remote (Some (MsgResponse response))
                        (sipErrorCause X (status_code response)) w).
  { unfold _receiveInviteResponse. run_M.
    rewrite not_final_again, Hc by lia.
    rewrite bool_decide_eq_false_2
      by (unfold status in Hst; intros [? ?]; destruct Hst; congruence).
    destruct (status_code response =? 100) eqn:E1; [lia|].
    destruct (100 <=? status_code response) eqn:E2,
             (status_code response <=? 199) eqn:E3,
             (200 <=? status_code response) eqn:E4,
             (status_code response <=? 299) eqn:E5; simpl; try done; lia. }
  rewrite E, _failed_closed
    by (unfold status in *; destruct Hst; congruence).
  split; [done|]. split; [done|]. simpl. by rewrite <- app_assoc.
Qed.

Lemma error_response_fails_witness :
  _is_canceled (this invite_sent) = false
  ∧ (status invite_sent = STATUS_INVITE_SENT
     ∨ status invite_sent = STATUS_1XX_RECEIVED)
  ∧ (status_code busy_486 < 100 ∨ 300 ≤ status_code busy_486)
  ∧ status (_receiveInviteResponse library busy_486 invite_sent).2
    = STATUS_TERMINATED
  ∧ trace (_receiveInviteResponse library busy_486 invite_sent).2
    = trace invite_sent
      ++ [ua_destroyRTCSession;
          emit (Ev.failed remote (Some (MsgResponse busy_486)) causes.BUSY)].
Proof.
  assert (Hc : _is_canceled (this invite_sent) = false) by reflexivity.
  assert (Hs : status invite_sent = STATUS_INVITE_SENT
               ∨ status invite_sent = STATUS_1XX_RECEIVED)
    by (left; reflexivity).
  assert (Hcode : status_code busy_486 < 100 ∨ 300 ≤ status_code busy_486)
    by (right; simpl; lia).
  destruct (error_response_fails library busy_486 invite_sent Hc Hs Hcode)
    as (_ & Hst & Htr).
  split; [exact Hc|]. split; [exact Hs|]. split; [exact Hcode|].
  split; [exact Hst | exact Htr].
Defined.

Lemma waits_for_answer (response : IncomingResponse) (w : World) :
  status w = STATUS_INVITE_SENT ∨ status w = STATUS_1XX_RECEIVED →
  bool_decide (_status (this w) ≠ STATUS_INVITE_SENT
               ∧ _status (this w) ≠ STATUS_1XX_RECEIVED) = false.
Proof.
  intros Hst. apply bool_decide_eq_false_2.
  unfold status in Hst. intros [? ?]. destruct Hst; congruence.
Qed.

Lemma _createDialog_confirms (X : Externals) (response : IncomingResponse)
    (d : Dialog) (w : World) :
  confirmed_dialog X response (this w) = inr d →
  _createDialog X (MsgResponse response) UAC false w
  = (Normal true, with_confirmed_dialog response d w).
Proof.
  unfold confirmed_dialog, with_confirmed_dialog. intros H.
  destruct (_earlyDialogs (this w) !! dialog_key response UAC)
    as [early_dialog|] eqn:E.
  - injection H as <-.
    by rewrite (_createDialog_confirmed_early X (MsgResponse response) UAC
                  early_dialog).
  - rewrite (_createDialog_confirmed_new X (MsgResponse response) UAC d)
      by done.
    unfold with_this. simpl. rewrite (delete_id _ _ E).
    by destruct w as [[] ? ? ? ? ?].
Qed.

Lemma _acceptAndTerminate_confirms (X : Externals)
    (response : IncomingResponse) status_code reason_phrase (d : Dialog)
    (w : World) :
  _dialog (this w) = None →
  confirmed_dialog X response (this w) = inr d →
  _acceptAndTerminate X response status_code reason_phrase w
  = (Normal tt,
     and_then
       [plain d ACK;
        dialog_sendRequest (id d) BYE
          (if truthy_number status_code
           then [Reason_header status_code
                   (reason_phrase_of X reason_phrase status_code)]
           else [])
          None NoHandlers]
       (with_this (set_status STATUS_TERMINATED)
                  (with_confirmed_dialog response d w))).
Proof.
  intros Hd Hnew. unfold _acceptAndTerminate.
  unfold bind at 1, get_this at 1. rewrite Hd.
  unfold bind at 1. rewrite (_createDialog_confirms X response d) by done.
  unfold sendRequest, plain, and_then, with_confirmed_dialog. run_M. simpl.
  unfold with_trace, with_this. simpl. by rewrite <- app_assoc.
Qed.

(** X11. A 2xx without SDP to a call that waits for its answer is
    acknowledged and hung up, whether the call has rung before or not.  The
    dialog of the response (its early dialog, updated, when a provisional
    response has stored one, and a new dialog otherwise) becomes the dialog
    of the session; the session sends the ACK and a BYE with the Reason of
    code 400, its status is TERMINATED, and [failed] fires once with
    originator remote and cause BAD_MEDIA_DESCRIPTION.  The status
    TERMINATED is written before [_failed] runs, so that [_close] finds
    nothing to do: the dialog stays with the session, neither it nor the
    other early dialogs are terminated, no timer is cleared and the UA is
    not told. *)
Theorem answer_without_sdp (X : Externals) (response : IncomingResponse)
    (d : Dialog) (w : World) :
  _is_canceled (this w) = false →
  status w = STATUS_INVITE_SENT ∨ status w = STATUS_1XX_RECEIVED →
  _dialog (this w) = None →
  200 ≤ status_code response ≤ 299 →
  truthy_string (body response) = false →
  confirmed_dialog X response (this w) = inr d →
  (_receiveInviteResponse X response w).1 = Normal tt
  ∧ status (_receiveInviteResponse X response w).2 = STATUS_TERMINATED
  ∧ _dialog (this (_receiveInviteResponse X response w).2) = Some d
  ∧ _earlyDialogs (this (_receiveInviteResponse X response w).2)
    = delete (dialog_key response UAC) (_earlyDialogs (this w))
  ∧ timeouts (_receiveInviteResponse X response w).2 = timeouts w
  ∧ trace (_receiveInviteResponse X response w).2
    = trace w
      ++ [plain d ACK;
          bye_with_reason X d 400 (cause_string X causes.MISSING_SDP);
          emit (Ev.failed remote (Some (MsgResponse response))
                          causes.BAD_MEDIA_DESCRIPTION)].
Proof.
  intros Hc Hst Hd Hcode Hbody Hnew.
  assert (E : _receiveInviteResponse X response w
              = (_acceptAndTerminate X response (Some 400)
                   (Some (cause_string X causes.MISSING_SDP));;
                 _failed remote (Some (MsgResponse response))
                         causes.BAD_MEDIA_DESCRIPTION)
                  (with_this (set_status STATUS_CONFIRMED) w)).
  { unfold _receiveInviteResponse. run_M.
    rewrite not_final_again, Hc, waits_for_answer by auto.
    destruct (status_code response =? 100) eqn:E1; [lia|].
    rewrite (proj2 (Z.leb_le 200 _)), (proj2 (Z.leb_le _ 299)) by lia.
    rewrite (proj2 (Z.leb_gt _ 199)) by lia. rewrite andb_false_r.
    simpl. by rewrite Hbody. }
  rewrite E. unfold bind.
  rewrite (_acceptAndTerminate_confirms X response _ _ d) by done.
  unfold _failed, bind. rewrite _close_terminated by done.
  unfold do, plain, bye_with_reason, and_then. simpl.
  repeat split. by rewrite <- !app_assoc.
Qed.

Lemma answer_without_sdp_witness :
  _is_canceled (this ringing_call) = false
  ∧ (status ringing_call = STATUS_INVITE_SENT
     ∨ status ringing_call = STATUS_1XX_RECEIVED)
  ∧ _dialog (this ringing_call) = None
  ∧ 200 ≤ status_code sdpless_200 ≤ 299
  ∧ truthy_string (body sdpless_200) = false
  ∧ is_Some (_earlyDialogs (this ringing_call) !! dialog_key sdpless_200 UAC)
  ∧ confirmed_dialog library sdpless_200 (this ringing_call)
    = inr idle_dialog
  ∧ status (_receiveInviteResponse library sdpless_200 ringing_call).2
    = STATUS_TERMINATED
  ∧ _dialog (this (_receiveInviteResponse library sdpless_200
                     ringing_call).2)
    = Some idle_dialog
  ∧ _earlyDialogs (this (_receiveInviteResponse library sdpless_200
                           ringing_call).2)
    = delete (dialog_key sdpless_200 UAC) (_earlyDialogs (this ringing_call))
  ∧ trace (_receiveInviteResponse library sdpless_200 ringing_call).2
    = trace ringing_call
      ++ [plain idle_dialog ACK;
          bye_with_reason library idle_dialog 400 "Missing SDP";
          emit (Ev.failed remote (Some (MsgResponse sdpless_200))
                          causes.BAD_MEDIA_DESCRIPTION)].
Proof.
  assert (H1 : _is_canceled (this ringing_call) = false) by reflexivity.
  assert (H2 : status ringing_call = STATUS_INVITE_SENT
               ∨ status ringing_call = STATUS_1XX_RECEIVED)
    by (right; reflexivity).
  assert (H3 : _dialog (this ringing_call) = None) by reflexivity.
  assert (H4 : 200 ≤ status_code sdpless_200 ≤ 299) by (simpl; lia).
  assert (H5 : truthy_string (body sdpless_200) = false) by reflexivity.
  assert (H6 : is_Some (_earlyDialogs (this ringing_call)
                          !! dialog_key sdpless_200 UAC))
    by (vm_compute; eauto).
  assert (H7 : confirmed_dialog library sdpless_200 (this ringing_call)
               = inr idle_dialog) by (vm_compute; reflexivity).
  destruct (answer_without_sdp library sdpless_200 idle_dialog ringing_call
              H1 H2 H3 H4 H5 H7) as (_ & Hst & Hd & He & _ & Htr).
  split; [exact H1|]. split; [exact H2|]. split; [exact H3|].
  split; [exact H4|]. split; [exact H5|]. split; [exact H6|].
  split; [exact H7|]. split; [exact Hst|]. split; [exact Hd|].
  split; [exact He | exact Htr].
Defined.

Lemma _createDialog_early_ok (X : Externals) (response : IncomingResponse)
    (w : World) :
  is_Some (_earlyDialogs (this w) !! dialog_key response UAC)
  ∨ (∃ d, new_Dialog X response UAC STATUS_EARLY = inr d) →
  ∃ w', _createDialog X (MsgResponse response) UAC true w = (Normal true, w')
        ∧ trace w' = trace w
        ∧ _connectionPromiseQueue (this w') = _connectionPromiseQueue (this w).
Proof.
  intros H.
  destruct (_earlyDialogs (this w) !! dialog_key response UAC) as [d|] eqn:E.
  - exists w. by rewrite (_createDialog_early_known X _ UAC d).
  - destruct H as [[? ?]|[d Hd]]; [done|].
    eexists. by rewrite (_createDialog_early_new X _ UAC d).
Qed.

(** X12. Provisional responses to a call that waits for its answer.  A 100
    only moves the status to 1XX_RECEIVED.  Another 1xx without To tag is
    dropped.  With a To tag, and with an early dialog when it has a Contact
    header, it moves the status to 1XX_RECEIVED and fires [progress] with
    originator remote, followed by the [sdp] event of its body when it has
    one.  When the early dialog cannot be built the call fails with cause
    INTERNAL_ERROR and [progress] does not fire. *)
Theorem provisional_response (X : Externals) (response : IncomingResponse)
    (w : World) :
  _is_canceled (this w) = false →
  status w = STATUS_INVITE_SENT ∨ status w = STATUS_1XX_RECEIVED →
  (status_code response = 100 →
   _receiveInviteResponse X response w
   = (Normal tt, with_this (set_status STATUS_1XX_RECEIVED) w))
  ∧ (101 ≤ status_code response ≤ 199 →
     truthy_string (to_tag response) = false →
     _receiveInviteResponse X response w = (Normal tt, w))
  ∧ (101 ≤ status_code response ≤ 199 →
     truthy_string (to_tag response) = true →
     contact response = None
     ∨ is_Some (_earlyDialogs (this w) !! dialog_key response UAC)
     ∨ (∃ d, new_Dialog X response UAC STATUS_EARLY = inr d) →
     (_receiveInviteResponse X response w).1 = Normal tt
     ∧ status (_receiveInviteResponse X response w).2
       = STATUS_1XX_RECEIVED
     ∧ trace (_receiveInviteResponse X response w).2
       = trace w
         ++ emit (Ev.progress remote (Some response))
            :: (if truthy_string (body response)
                then [emit (Ev.sdp remote answer (default "" (body response)))]
                else [])
     ∧ _connectionPromiseQueue (this (_receiveInviteResponse X response w).2)
       = _connectionPromiseQueue (this w)
         ++ (if truthy_string (body response)
             then [progress_setRemoteDescription
                     (default "" (body response))]
             else []))
  ∧ (101 ≤ status_code response ≤ 199 →
     truthy_string (to_tag response) = true →
     is_Some (contact response) →
     _earlyDialogs (this w) !! dialog_key response UAC = None →
     ∀ error, new_Dialog X response UAC STATUS_EARLY = inl error →
     _receiveInviteResponse X response w
     = (Normal tt,
        failed_with remote (Some (MsgResponse response))
                    causes.INTERNAL_ERROR w)).
Proof.
  intros Hc Hst.
  assert (Hnt : status w ≠ STATUS_TERMINATED)
    by (destruct Hst as [H|H]; rewrite H; discriminate).
  assert (E : ∀ k : M unit,
            status_code response ≠ 100 →
            100 ≤ status_code response ≤ 199 →
            _receiveInviteResponse X response w
            = (if negb (truthy_string (to_tag response)) then ret tt
               else
                 let* created :=
                   (if bool_decide (is_Some (contact response))
                    then _createDialog X (MsgResponse response) UAC true
                    else ret true) in
                 when created
                   (assign (set_status STATUS_1XX_RECEIVED);;
                    _progress remote (Some response);;
                    when (truthy_string (body response))
                      (do (emit (Ev.sdp remote answer
                                   (default "" (body response))));;
                       queue_then (progress_setRemoteDescription
                                     (default "" (body response)))))) w).
  { intros _ Hne Hcode. unfold _receiveInviteResponse.
    unfold bind at 1, get_this at 1.
    rewrite not_final_again, Hc, waits_for_answer by (auto; lia).
    rewrite (proj2 (Z.eqb_neq _ _)) by done.
    by rewrite (proj2 (Z.leb_le 100 _)), (proj2 (Z.leb_le _ 199)) by lia. }
  split; [|split; [|split]].
  - intros H100. unfold _receiveInviteResponse. run_M.
    rewrite not_final_again, Hc, waits_for_answer by (auto; lia).
    by rewrite H100.
  - intros Hcode Htag. rewrite (E (ret tt)) by lia. by rewrite Htag.
  - intros Hcode Htag Hdialog.
    assert (Hcreated : ∃ w',
              (if bool_decide (is_Some (contact response))
               then _createDialog X (MsgResponse response) UAC true
               else ret true) w = (Normal true, w')
              ∧ trace w' = trace w
              ∧ _connectionPromiseQueue (this w')
                = _connectionPromiseQueue (this w)).
    { case_bool_decide as Hcontact.
      - apply _createDialog_early_ok.
        destruct Hdialog as [Hn|H]; [|done].
        rewrite Hn in Hcontact. by destruct Hcontact.
      - by exists w. }
    destruct Hcreated as (w' & Ew' & Htr & Hq).
    assert (Eres : _receiveInviteResponse X response w
                   = (assign (set_status STATUS_1XX_RECEIVED);;
                      _progress remote (Some response);;
                      when (truthy_string (body response))
                        (do (emit (Ev.sdp remote answer
                                     (default "" (body response))));;
                         queue_then (progress_setRemoteDescription
                                       (default "" (body response))))) w').
    { rewrite (E (ret tt)) by lia. rewrite Htag. cbn [negb].
      unfold bind at 1. cbv beta. by rewrite Ew'. }
    rewrite Eres. unfold _progress. run_M.
    destruct (truthy_string (body response)); simpl;
      rewrite ?Htr, ?Hq; repeat split; try done;
      try (by rewrite <- app_assoc); by rewrite app_nil_r.
  - intros Hcode Htag Hcontact Hearly error Hnew.
    rewrite (E (ret tt)) by lia. rewrite Htag. cbn [negb].
    rewrite bool_decide_eq_true_2 by done. unfold bind at 1. cbv beta.
    by rewrite (_createDialog_error X (MsgResponse response) UAC true error).
Qed.

Lemma provisional_response_witness :
  _is_canceled (this invite_sent) = false
  ∧ (status invite_sent = STATUS_INVITE_SENT
     ∨ status invite_sent = STATUS_1XX_RECEIVED)
  ∧ 101 ≤ status_code ringing_180 ≤ 199
  ∧ truthy_string (to_tag ringing_180) = true
  ∧ new_Dialog library ringing_180 UAC STATUS_EARLY
    = inr {| id := id idle_dialog; dialog_state := STATUS_EARLY;
             uac_pending_reply := false; uas_pending_reply := false |}
  ∧ status (_receiveInviteResponse library ringing_180 invite_sent).2
    = STATUS_1XX_RECEIVED
  ∧ trace (_receiveInviteResponse library ringing_180 invite_sent).2
    = trace invite_sent ++ [emit (Ev.progress remote (Some ringing_180))].
Proof.
  assert (H1 : _is_canceled (this invite_sent) = false) by reflexivity.
  assert (H2 : status invite_sent = STATUS_INVITE_SENT
               ∨ status invite_sent = STATUS_1XX_RECEIVED)
    by (left; reflexivity).
  assert (H3 : 101 ≤ status_code ringing_180 ≤ 199) by (simpl; lia).
  assert (H4 : truthy_string (to_tag ringing_180) = true) by reflexivity.
  assert (H5 : new_Dialog library ringing_180 UAC STATUS_EARLY
               = inr {| id := id idle_dialog; dialog_state := STATUS_EARLY;
                        uac_pending_reply := false;
                        uas_pending_reply := false |}) by reflexivity.
  destruct (provisional_response library ringing_180 invite_sent H1 H2)
    as (_ & _ & H & _).
  destruct (H H3 H4 (or_intror (or_intror (ex_intro _ _ H5))))
    as (_ & Hst & Htr & _).
  split; [exact H1|]. split; [exact H2|]. split; [exact H3|].
  split; [exact H4|]. split; [exact H5|]. split; [exact Hst | exact Htr].
Defined.

(** ** The answer to the call *)
















(** ** Giving up an outgoing call *)

Lemma terminate_unanswered (X : Externals) (options : TerminateOptions)
    (w : World) :
  status w = STATUS_NULL ∨ status w = STATUS_INVITE_SENT →
  invalid_status_code (opt_status_code options) = false →
  terminate X options w
  = (Normal tt,
     failed_with local None causes.CANCELED (canceled_by_user X options w)).
Proof.
  intros Hst Hok. unfold terminate, status in *. run_M.
  unfold canceled_by_user, cancel_reason_of.
  destruct Hst as [H|H]; rewrite H; simpl; rewrite Hok;
    rewrite _failed_closed by done;
    by destruct (truthy_number _).
Qed.

Lemma terminate_ringing (X : Externals) (options : TerminateOptions)
    (r : OutgoingRequest) (w : World) :
  status w = STATUS_1XX_RECEIVED →
  _request (this w) = Some (OutgoingInvite r) →
  invalid_status_code (opt_status_code options) = false →
  terminate X options w
  = (Normal tt,
     failed_with local None causes.CANCELED
       (with_this (set_status STATUS_CANCELED)
          (and_then [cancel r (cancel_reason_of X options)] w))).
Proof.
  intros Hst Hr Hok. unfold terminate, request_cancel, status in *.
  run_M. unfold cancel_reason_of, and_then.
  rewrite Hst; simpl in *; rewrite Hok, Hr.
  rewrite _failed_closed by done.
  by destruct (truthy_number _).
Qed.

(** X14. The user gives up an outgoing call that has no provisional
    response yet.  [terminate] returns, and whatever cause its options
    name, [failed] fires with originator local and cause CANCELED; the
    session is closed; no CANCEL is sent, the cancellation is noted with its
    reason.  A provisional response that comes later makes the session send
    the CANCEL with that reason and changes nothing else; a response below
    100 or from 299 on is dropped. *)
Theorem cancel_before_ringing (X : Externals) (options : TerminateOptions)
    (r : OutgoingRequest) (response : IncomingResponse) (w : World) :
  status w = STATUS_NULL ∨ status w = STATUS_INVITE_SENT →
  _request (this w) = Some (OutgoingInvite r) →
  invalid_status_code (opt_status_code options) = false →
  let w1 := (terminate X options w).2 in
  (terminate X options w).1 = Normal tt
  ∧ status w1 = STATUS_TERMINATED
  ∧ _is_canceled (this w1) = true
  ∧ _cancel_reason (this w1) = cancel_reason_of X options
  ∧ trace w1
    = trace w ++ close_effects (this w)
      ++ [emit (Ev.failed local None causes.CANCELED)]
  ∧ (100 ≤ status_code response < 200 →
     _receiveInviteResponse X response w1
     = (Normal tt, and_then [cancel r (cancel_reason_of X options)] w1))
  ∧ (status_code response < 100 ∨ 299 ≤ status_code response →
     _receiveInviteResponse X response w1 = (Normal tt, w1)).
Proof.
  intros Hst Hr Hok w1. subst w1.
  rewrite terminate_unanswered by done. simpl.
  split; [done|]. split; [done|]. split; [done|]. split; [done|].
  split; [by rewrite <- app_assoc|].
  unfold _receiveInviteResponse, request_cancel, and_then. run_M. simpl.
  split.
  - intros Hcode.
    rewrite (proj2 (Z.leb_le 100 _)), (proj2 (Z.ltb_lt _ 200)) by lia.
    simpl. by rewrite Hr.
  - intros [Hcode|Hcode].
    + by rewrite (proj2 (Z.leb_gt 100 _)), (proj2 (Z.leb_gt 200 _)) by lia.
    + rewrite (proj2 (Z.ltb_ge _ 200)), (proj2 (Z.ltb_ge _ 299)) by lia.
      by rewrite !andb_false_r.
Qed.

Lemma cancel_before_ringing_witness :
  (status invite_sent = STATUS_NULL ∨ status invite_sent = STATUS_INVITE_SENT)
  ∧ _request (this invite_sent) = Some (OutgoingInvite sent_invite)
  ∧ invalid_status_code (opt_status_code busy_elsewhere) = false
  ∧ 100 ≤ status_code ringing_180 < 200
  ∧ trace (terminate library busy_elsewhere invite_sent).2
    = trace invite_sent
      ++ [ua_destroyRTCSession; emit (Ev.failed local None causes.CANCELED)]
  ∧ trace (_receiveInviteResponse library ringing_180
             (terminate library busy_elsewhere invite_sent).2).2
    = trace (terminate library busy_elsewhere invite_sent).2
      ++ [cancel sent_invite
            (Some ("SIP ;cause=486 ;text=" +:+ dquote +:+ "Busy"
                   +:+ dquote))].
Proof.
  assert (H1 : status invite_sent = STATUS_NULL
               ∨ status invite_sent = STATUS_INVITE_SENT)
    by (right; reflexivity).
  assert (H2 : _request (this invite_sent)
               = Some (OutgoingInvite sent_invite)) by reflexivity.
  assert (H3 : invalid_status_code (opt_status_code busy_elsewhere) = false)
    by reflexivity.
  assert (H4 : 100 ≤ status_code ringing_180 < 200) by (simpl; lia).
  destruct (cancel_before_ringing library busy_elsewhere sent_invite
              ringing_180 invite_sent H1 H2 H3)
    as (_ & _ & _ & _ & Htr & Hcancel & _).
  split; [exact H1|]. split; [exact H2|]. split; [exact H3|].
  split; [exact H4|]. split; [exact Htr|].
  rewrite (Hcancel H4). reflexivity.
Defined.

(** X15. The user gives up an outgoing call that rings.  The CANCEL is sent
    at once with the reason of the options, the session is closed and
    [failed] fires with originator local and cause CANCELED.  The
    cancellation is not noted in the session: every response that comes
    afterwards, the 2xx of an answer that crossed the CANCEL among them, is
    dropped without ACK or BYE. *)
Theorem cancel_after_ringing (X : Externals) (options : TerminateOptions)
    (r : OutgoingRequest) (response : IncomingResponse) (w : World) :
  status w = STATUS_1XX_RECEIVED →
  _request (this w) = Some (OutgoingInvite r) →
  _is_canceled (this w) = false →
  invalid_status_code (opt_status_code options) = false →
  let w1 := (terminate X options w).2 in
  (terminate X options w).1 = Normal tt
  ∧ status w1 = STATUS_TERMINATED
  ∧ trace w1
    = trace w ++ [cancel r (cancel_reason_of X options)]
      ++ close_effects (this w)
      ++ [emit (Ev.failed local None causes.CANCELED)]
  ∧ _receiveInviteResponse X response w1 = (Normal tt, w1).
Proof.
  intros Hst Hr Hc Hok w1. subst w1.
  rewrite (terminate_ringing X options r) by done. simpl.
  split; [done|]. split; [done|].
  split; [by rewrite <- !app_assoc|].
  apply response_ignored_lemma; try done. by left.
Qed.

Lemma cancel_after_ringing_witness :
  status ringing_call = STATUS_1XX_RECEIVED
  ∧ _request (this ringing_call) = Some (OutgoingInvite sent_invite)
  ∧ _is_canceled (this ringing_call) = false
  ∧ invalid_status_code (opt_status_code no_terminate_options) = false
  ∧ trace (terminate library no_terminate_options ringing_call).2
    = trace ringing_call
      ++ [cancel sent_invite (cancel_reason_of library no_terminate_options)]
      ++ close_effects (this ringing_call)
      ++ [emit (Ev.failed local None causes.CANCELED)]
  ∧ _receiveInviteResponse library answer_200
      (terminate library no_terminate_options ringing_call).2
    = (Normal tt, (terminate library no_terminate_options ringing_call).2).
Proof.
  assert (H1 : status ringing_call = STATUS_1XX_RECEIVED) by reflexivity.
  assert (H2 : _request (this ringing_call)
               = Some (OutgoingInvite sent_invite)) by reflexivity.
  assert (H3 : _is_canceled (this ringing_call) = false) by reflexivity.
  assert (H4 : invalid_status_code (opt_status_code no_terminate_options)
               = false) by reflexivity.
  destruct (cancel_after_ringing library no_terminate_options sent_invite
              answer_200 ringing_call H1 H2 H3 H4) as (_ & _ & Htr & Hdrop).
  split; [exact H1|]. split; [exact H2|]. split; [exact H3|].
  split; [exact H4|]. split; [exact Htr | exact Hdrop].
Defined.

(** ** Errors of the transaction layer *)

Lemma terminate_established_closed (X : Externals)
    (options : TerminateOptions) (w : World) (d : Dialog) :
  status w = STATUS_CONFIRMED ∨ status w = STATUS_WAITING_FOR_ACK →
  _dialog (this w) = Some d →
  invalid_status_code (opt_status_code options) = false →
  terminate X options w
  = (Normal tt,
     ended_with local None (cause_or_BYE (opt_cause options))
       (and_then [dialog_sendRequest (id d) BYE (bye_headers X options)
                                      (opt_body options) NoHandlers] w)).
Proof.
  intros Hst Hd Hok.
  assert (E : terminate X options w
              = _ended local None (cause_or_BYE (opt_cause options))
                  (and_then [dialog_sendRequest (id d) BYE
                               (bye_headers X options) (opt_body options)
                               NoHandlers] w)).
  { unfold terminate, sendRequest, bye_headers, and_then, status in *. run_M.
    destruct Hst as [Hst|Hst]; rewrite Hst; simpl; rewrite Hok, Hd;
      by destruct (truthy_number _). }
  rewrite E. apply _ended_closed.
  unfold status in *. simpl. destruct Hst; congruence.
Qed.

(** X16. What the session does with an error of the transaction layer
    (transport error, request timeout, dialog error).  A terminated session
    does nothing.  An outgoing call without provisional response is given
    up as by the user: it is closed and [failed] fires with originator local
    and cause CANCELED, not with the cause of the error.  An established
    session sends a BYE with the Reason of the error (500, 408, 500), is
    closed, and [ended] fires with originator local and the cause of the
    error. *)
Theorem transaction_errors (X : Externals) (w : World) :
  (status w = STATUS_TERMINATED →
   onTransportError X w = (Normal tt, w)
   ∧ onRequestTimeout X w = (Normal tt, w)
   ∧ onDialogError X w = (Normal tt, w))
  ∧ (status w = STATUS_NULL ∨ status w = STATUS_INVITE_SENT →
     onTransportError X w
     = (Normal tt,
        failed_with local None causes.CANCELED
          (canceled_by_user X (transport_error_options X) w))
     ∧ onRequestTimeout X w
       = (Normal tt,
          failed_with local None causes.CANCELED
            (canceled_by_user X (request_timeout_options X) w))
     ∧ onDialogError X w
       = (Normal tt,
          failed_with local None causes.CANCELED
            (canceled_by_user X (dialog_error_options X) w)))
  ∧ (∀ d, status w = STATUS_CONFIRMED ∨ status w = STATUS_WAITING_FOR_ACK →
       _dialog (this w) = Some d →
       onTransportError X w
       = (Normal tt,
          ended_with local None causes.CONNECTION_ERROR
            (and_then [bye_with_reason X d 500
                         (cause_string X causes.CONNECTION_ERROR)] w))
       ∧ onRequestTimeout X w
         = (Normal tt,
            ended_with local None causes.REQUEST_TIMEOUT
              (and_then [bye_with_reason X d 408
                           (cause_string X causes.REQUEST_TIMEOUT)] w))
       ∧ onDialogError X w
         = (Normal tt,
            ended_with local None causes.DIALOG_ERROR
              (and_then [bye_with_reason X d 500
                           (cause_string X causes.DIALOG_ERROR)] w))).
Proof.
  assert (E : status w ≠ STATUS_TERMINATED →
              onTransportError X w = terminate X (transport_error_options X) w
              ∧ onRequestTimeout X w
                = terminate X (request_timeout_options X) w
              ∧ onDialogError X w = terminate X (dialog_error_options X) w).
  { intros Hst. unfold onTransportError, onRequestTimeout, onDialogError.
    run_M. by rewrite bool_decide_eq_true_2. }
  split; [|split].
  - intros Hst. unfold onTransportError, onRequestTimeout, onDialogError.
    run_M. rewrite bool_decide_eq_false_2; [done|].
    intros H. by apply H.
  - intros Hst. destruct E as (-> & -> & ->).
    { destruct Hst as [H|H]; rewrite H; discriminate. }
    by rewrite !terminate_unanswered.
  - intros d Hst Hd. destruct E as (-> & -> & ->).
    { destruct Hst as [H|H]; rewrite H; discriminate. }
    by rewrite !(terminate_established_closed X _ w d).
Qed.

Lemma transaction_errors_witness :
  (status invite_sent = STATUS_NULL ∨ status invite_sent = STATUS_INVITE_SENT)
  ∧ onRequestTimeout library invite_sent
    = (Normal tt,
       failed_with local None causes.CANCELED
         (canceled_by_user library (request_timeout_options library)
                           invite_sent))
  ∧ (status established = STATUS_CONFIRMED
     ∨ status established = STATUS_WAITING_FOR_ACK)
  ∧ _dialog (this established) = Some idle_dialog
  ∧ onRequestTimeout library established
    = (Normal tt,
       ended_with local None causes.REQUEST_TIMEOUT
         (and_then [bye_with_reason library idle_dialog 408
                      (cause_string library causes.REQUEST_TIMEOUT)]
                   established)).
Proof.
  assert (H1 : status invite_sent = STATUS_NULL
               ∨ status invite_sent = STATUS_INVITE_SENT)
    by (right; reflexivity).
  assert (H2 : status established = STATUS_CONFIRMED
               ∨ status established = STATUS_WAITING_FOR_ACK)
    by (left; reflexivity).
  assert (H3 : _dialog (this established) = Some idle_dialog)
    by reflexivity.
  destruct (transaction_errors library invite_sent) as (_ & Hu & _).
  destruct (Hu H1) as (_ & Hu' & _).
  destruct (transaction_errors library established) as (_ & _ & He).
  destruct (He idle_dialog H2 H3) as (_ & He' & _).
  split; [exact H1|]. split; [exact Hu'|]. split; [exact H2|].
  split; [exact H3 | exact He'].
Defined.

(** ** The late answer *)

(** X17. The answer that an ACK brings for a re-INVITE without SDP.  When
    the peer connection has taken it, [confirmed] fires with originator
    remote, unless the session was confirmed before.  When the peer
    connection refuses it, an established session sends a BYE with the
    Reason of code 488, is closed, [ended] fires with originator local and
    cause BAD_MEDIA_DESCRIPTION, and the failure of the peer connection is
    reported last.  On a session terminated in the meantime the refusal
    ends in the InvalidStateError of [terminate], and the failure is not
    reported. *)
Theorem late_answer (X : Externals) (request : IncomingRequest) (w : World) :
  ack_setRemoteDescription_run X request true w
  = (Normal tt,
     if _is_confirmed (this w) then w
     else and_then [emit (Ev.confirmed remote (Some request))]
                   (with_this (set_is_confirmed true) w))
  ∧ (∀ d, status w = STATUS_CONFIRMED ∨ status w = STATUS_WAITING_FOR_ACK →
       _dialog (this w) = Some d →
       ack_setRemoteDescription_run X request false w
       = (Normal tt,
          and_then [emit Ev.peerconnection_setremotedescriptionfailed]
            (ended_with local None causes.BAD_MEDIA_DESCRIPTION
               (and_then
                  [dialog_sendRequest (id d) BYE
                     [Reason_header (Some 488)
                        (reason_phrase_of X None (Some 488))]
                     None NoHandlers] w))))
  ∧ (status w = STATUS_TERMINATED →
     ack_setRemoteDescription_run X request false w
     = (Thrown (InvalidStateError STATUS_TERMINATED), w)).
Proof.
  unfold ack_setRemoteDescription_run, catch. split; [|split].
  - unfold _confirmed, and_then. run_M.
    by destruct (_is_confirmed (this w)).
  - intros d Hst Hd. unfold throw, bind.
    by rewrite (terminate_established_closed X _ w d).
  - intros Hst. unfold throw, bind, terminate, status in *. run_M.
    rewrite decide_True by done. by rewrite Hst.
Qed.

Lemma late_answer_witness :
  (status established = STATUS_CONFIRMED
   ∨ status established = STATUS_WAITING_FOR_ACK)
  ∧ _dialog (this established) = Some idle_dialog
  ∧ status (ack_setRemoteDescription_run library bare_ack false
              established).2
    = STATUS_TERMINATED
  ∧ status given_up = STATUS_TERMINATED
  ∧ ack_setRemoteDescription_run library bare_ack false given_up
    = (Thrown (InvalidStateError STATUS_TERMINATED), given_up).
Proof.
  assert (H1 : status established = STATUS_CONFIRMED
               ∨ status established = STATUS_WAITING_FOR_ACK)
    by (left; reflexivity).
  assert (H2 : _dialog (this established) = Some idle_dialog)
    by reflexivity.
  assert (H3 : status given_up = STATUS_TERMINATED) by reflexivity.
  destruct (late_answer library bare_ack established) as (_ & He & _).
  destruct (late_answer library bare_ack given_up) as (_ & _ & Ht).
  split; [exact H1|]. split; [exact H2|].
  split; [by rewrite (He idle_dialog H1 H2)|].
  split; [exact H3 | exact (Ht H3)].
Defined.

(** ** The ACK timer *)

(** X18. When Timer H expires and the session still waits for the ACK, the
    2xx retransmission timer is cleared, a BYE is sent, the session is
    closed, and [ended] fires with originator remote and cause NO_ACK.  In
    every other status the expiry does nothing. *)
Theorem ack_timer_expires (w : World) :
  (∀ d, status w = STATUS_WAITING_FOR_ACK →
        _dialog (this w) = Some d →
        ackTimerExpired_run w
        = (Normal tt,
           ended_with remote None causes.NO_ACK
             (and_then [plain d BYE]
                (with_timeouts
                   (cleared (invite2xxTimer (_timers (this w))) (timeouts w))
                   (next_timeout w) w))))
  ∧ (status w ≠ STATUS_WAITING_FOR_ACK →
     ackTimerExpired_run w = (Normal tt, w)).
Proof.
  unfold ackTimerExpired_run, sendRequest, status, plain, and_then. split.
  - intros d Hst Hd. run_M. rewrite bool_decide_eq_true_2 by done.
    rewrite Hd. simpl. rewrite _ended_closed; [done|].
    unfold status. simpl. by rewrite Hst.
  - intros Hst. run_M. by rewrite bool_decide_eq_false_2.
Qed.

Lemma ack_timer_expires_witness :
  status awaiting_ack = STATUS_WAITING_FOR_ACK
  ∧ _dialog (this awaiting_ack) = Some idle_dialog
  ∧ status (ackTimerExpired_run awaiting_ack).2 = STATUS_TERMINATED
  ∧ trace (ackTimerExpired_run awaiting_ack).2
    = trace awaiting_ack
      ++ [plain idle_dialog BYE; dialog_terminate (id idle_dialog);
          ua_destroyRTCSession; emit (Ev.ended remote None causes.NO_ACK)]
  ∧ status established ≠ STATUS_WAITING_FOR_ACK
  ∧ ackTimerExpired_run established = (Normal tt, established).
Proof.
  assert (H1 : status awaiting_ack = STATUS_WAITING_FOR_ACK)
    by reflexivity.
  assert (H2 : _dialog (this awaiting_ack) = Some idle_dialog)
    by reflexivity.
  assert (H3 : status established ≠ STATUS_WAITING_FOR_ACK)
    by discriminate.
  destruct (ack_timer_expires awaiting_ack) as [Hw _].
  destruct (ack_timer_expires established) as [_ Hn].
  split; [exact H1|]. split; [exact H2|].
  rewrite (Hw idle_dialog H1 H2).
  split; [reflexivity|]. split; [reflexivity|].
  split; [exact H3 | exact (Hn H3)].
Defined.

(** ** Placing a call *)

Lemma set_listeners_same (s : RTCSession) :
  set_listeners (_listeners s ++ []) s = s.
Proof. destruct s. unfold set_listeners. simpl. by rewrite app_nil_r. Qed.

Lemma for_each_listeners (l : list string) (w : World) :
  for_each (λ event,
              assign (λ s, set_listeners (_listeners s ++ [event]) s)) l w
  = (Normal tt, with_this (λ s, set_listeners (_listeners s ++ l) s) w).
Proof.
  revert w. induction l as [|e l IH]; intros w.
  - simpl. unfold ret, with_this. rewrite set_listeners_same.
    by destruct w.
  - cbn [for_each]. unfold bind at 1, assign at 1. rewrite IH.
    unfold with_this, set_listeners. simpl. by rewrite <- app_assoc.
Qed.

Lemma for_each_listeners_run (l : list string) (w : World) :
  for_each (λ (event : string) (w0 : World),
              (Normal tt,
               with_this (λ s, set_listeners (_listeners s ++ [event]) s)
                         w0)) l w
  = (Normal tt, with_this (λ s, set_listeners (_listeners s ++ l) s) w).
Proof. exact (for_each_listeners l w). Qed.

(** What [connect] leaves when its checks pass. *)
Lemma connect_ok (X : Externals) (target t : string) (sdp : option string)
    (options : ConnectOptions) (init : bool) (w : World) :
  status w = STATUS_NULL →
  ua_normalizeTarget X target = Some t →
  ∃ r w1,
    connect X (Some target) sdp options init w = (Normal tt, w1)
    ∧ _request (this w1) = Some (OutgoingInvite r)
    ∧ status w1 = STATUS_NULL
    ∧ _is_canceled (this w1) = _is_canceled (this w)
    ∧ _id (this w1) = Some (new_call_id X +:+ newTag X)
    ∧ _from_tag (this w1) = Some (newTag X)
    ∧ _direction (this w1) = Some outgoing
    ∧ promises w1 = promises w ++ [initialRequest_connecting sdp]
    ∧ trace w1
      = trace w ++ (if init then [initCallback] else [])
        ++ [ua_newRTCSession local r]
    ∧ o_target r = t ∧ o_body r = None
    ∧ o_call_id r = new_call_id X ∧ o_from_tag r = newTag X
    ∧ o_anonymous r = co_anonymous options
    ∧ co_extraHeaders options `prefix_of` o_extraHeaders r
    ∧ ("Contact: " +:+ ua_contact_toString X (co_anonymous options))
      ∈ o_extraHeaders r
    ∧ "Content-Type: application/sdp" ∈ o_extraHeaders r
    ∧ (co_anonymous options = true →
       ("P-Preferred-Identity: " +:+ ua_uri X) ∈ o_extraHeaders r
       ∧ "Privacy: id" ∈ o_extraHeaders r).
Proof.
  intros Hst Hnorm. unfold connect, _newRTCSession, _sendInitialRequest.
  unfold status in Hst.
  pose proof (for_each_listeners (co_eventHandlers options)) as Hfe.
  run_M.
  rewrite bool_decide_eq_false_2 by (intros H; by apply H).
  rewrite Hnorm.
  assert (Hheaders : ∀ extra : list string,
            co_extraHeaders options
              `prefix_of`
              (co_extraHeaders options
               ++ (if co_anonymous options
                   then ["P-Preferred-Identity: " +:+ ua_uri X; "Privacy: id"]
                   else [])
               ++ ["Contact: " +:+ ua_contact_toString X (co_anonymous options);
                   "Content-Type: application/sdp"]) ++ extra
            ∧ ("Contact: " +:+ ua_contact_toString X (co_anonymous options))
              ∈ (co_extraHeaders options
                 ++ (if co_anonymous options
                     then ["P-Preferred-Identity: " +:+ ua_uri X;
                           "Privacy: id"]
                     else [])
                 ++ ["Contact: "
                     +:+ ua_contact_toString X (co_anonymous options);
                     "Content-Type: application/sdp"]) ++ extra
            ∧ "Content-Type: application/sdp"
              ∈ (co_extraHeaders options
                 ++ (if co_anonymous options
                     then ["P-Preferred-Identity: " +:+ ua_uri X;
                           "Privacy: id"]
                     else [])
                 ++ ["Contact: "
                     +:+ ua_contact_toString X (co_anonymous options);
                     "Content-Type: application/sdp"]) ++ extra
            ∧ (co_anonymous options = true →
               ("P-Preferred-Identity: " +:+ ua_uri X)
               ∈ (co_extraHeaders options
                  ++ (if co_anonymous options
                      then ["P-Preferred-Identity: " +:+ ua_uri X;
                            "Privacy: id"]
                      else [])
                  ++ ["Contact: "
                      +:+ ua_contact_toString X (co_anonymous options);
                      "Content-Type: application/sdp"]) ++ extra
               ∧ "Privacy: id"
                 ∈ (co_extraHeaders options
                    ++ (if co_anonymous options
                        then ["P-Preferred-Identity: " +:+ ua_uri X;
                              "Privacy: id"]
                        else [])
                    ++ ["Contact: "
                        +:+ ua_contact_toString X (co_anonymous options);
                        "Content-Type: application/sdp"]) ++ extra)).
  { intros extra. rewrite <- !app_assoc.
    split; [by apply prefix_app_r|].
    split; [set_solver|]. split; [set_solver|].
    intros ->. set_solver. }
  destruct (enabled (_sessionTimers (this w))) eqn:Hen;
    [destruct (co_sessionTimersExpires options)|];
    simpl in *; rewrite ?Hen; simpl; rewrite Hfe; simpl; rewrite ?Hen;
    destruct init; simpl;
    (eexists _, _; split; [reflexivity|]; simpl;
     split; [reflexivity|];
     do 7 (split; [try reflexivity; by rewrite <- ?app_assoc|]);
     do 5 (split; [reflexivity|]);
     apply Hheaders).
Qed.

Lemma tick_connecting (sdp : option string) rest (w : World) :
  promises w = initialRequest_connecting sdp :: rest →
  status w ≠ STATUS_TERMINATED →
  run_next_tick w
  = (Normal tt,
     with_promises (rest ++ [initialRequest_sending sdp])
       (and_then [emit (Ev.connecting (_request (this w)))] w)).
Proof.
  intros Hp Hst. unfold run_next_tick. rewrite Hp.
  unfold initialRequest_connecting_run, _connecting, catch, status in *.
  run_M. by rewrite bool_decide_eq_false_2.
Qed.

Lemma tick_sending (sdp : option string) rest r (w : World) :
  promises w = initialRequest_sending sdp :: rest →
  status w ≠ STATUS_TERMINATED →
  _is_canceled (this w) = false →
  _request (this w) = Some (OutgoingInvite r) →
  run_next_tick w
  = (Normal tt,
     and_then [emit (Ev.sending (with_body sdp r));
               request_sender_send (with_body sdp r)]
       (with_this (λ s, set_status STATUS_INVITE_SENT
                          (set_request
                             (Some (OutgoingInvite (with_body sdp r))) s))
          (with_promises rest w))).
Proof.
  intros Hp Hst Hc Hr. unfold run_next_tick. rewrite Hp.
  unfold initialRequest_sending_run, catch, status, and_then in *.
  run_M. rewrite Hc, Hr. rewrite bool_decide_eq_false_2 by done.
  simpl. unfold with_trace. simpl. by rewrite <- app_assoc.
Qed.

(** X19. A call is placed.  [connect] on a fresh session with a target that
    the UA accepts returns; the session has the id made of call-id and from
    tag and the direction outgoing; the UA is told of the new session.  The request has the headers of the options
    first, then Contact and Content-Type, with the identity headers of an
    anonymous call.  The status stays NULL until the second continuation has
    run: the first emits [connecting], the second stores the SDP in the
    request, writes INVITE_SENT, emits [sending] and sends the request. *)
Theorem connect_sends_invite (X : Externals) (target t : string)
    (sdp : option string) (options : ConnectOptions) (init : bool)
    (w : World) :
  status w = STATUS_NULL →
  _is_canceled (this w) = false →
  promises w = [] →
  ua_normalizeTarget X target = Some t →
  let w1 := (connect X (Some target) sdp options init w).2 in
  let w3 := run X [next_tick; next_tick] w1 in
  ∃ r,
    (connect X (Some target) sdp options init w).1 = Normal tt
    ∧ status w1 = STATUS_NULL
    ∧ _id (this w1) = Some (new_call_id X +:+ newTag X)
    ∧ _direction (this w1) = Some outgoing
    ∧ status w3 = STATUS_INVITE_SENT
    ∧ _request (this w3) = Some (OutgoingInvite (with_body sdp r))
    ∧ promises w3 = []
    ∧ trace w3
      = trace w ++ (if init then [initCallback] else [])
        ++ [ua_newRTCSession local r;
            emit (Ev.connecting (Some (OutgoingInvite r)));
            emit (Ev.sending (with_body sdp r));
            request_sender_send (with_body sdp r)]
    ∧ o_target r = t ∧ o_body r = None
    ∧ o_call_id r = new_call_id X ∧ o_from_tag r = newTag X
    ∧ co_extraHeaders options `prefix_of` o_extraHeaders r
    ∧ ("Contact: " +:+ ua_contact_toString X (co_anonymous options))
      ∈ o_extraHeaders r
    ∧ "Content-Type: application/sdp" ∈ o_extraHeaders r
    ∧ (co_anonymous options = true →
       ("P-Preferred-Identity: " +:+ ua_uri X) ∈ o_extraHeaders r
       ∧ "Privacy: id" ∈ o_extraHeaders r).
Proof.
  intros Hst Hc Hp Hnorm w1 w3.
  destruct (connect_ok X target t sdp options init w Hst Hnorm)
    as (r & w1' & E & Hr & Hst1 & Hc1 & Hid & _ & Hdir & Hp1 & Htr
        & Ht & Hb & Hcall & Htag & _ & Hh).
  assert (Hw1 : w1 = w1') by (subst w1; by rewrite E).
  clearbody w1. subst w1'. rewrite E. clear E.
  rewrite Hp in Hp1. simpl in Hp1.
  assert (E1 : run_next_tick w1
               = (Normal tt,
                  with_promises ([] ++ [initialRequest_sending sdp])
                    (and_then [emit (Ev.connecting (_request (this w1)))]
                              w1))).
  { apply tick_connecting; [done|]. rewrite Hst1. discriminate. }
  subst w3. cbn [run step]. rewrite E1. cbn [snd].
  rewrite (tick_sending sdp [] r); [|done| |by rewrite <- Hc|done].
  2:{ unfold status in *. simpl. rewrite Hst1. discriminate. }
  exists r. simpl.
  split; [done|]. split; [done|]. split; [done|]. split; [done|].
  split; [done|]. split; [done|]. split; [done|].
  split; [by rewrite Htr, Hr, <- !app_assoc|].
  split; [done|]. split; [done|]. split; [done|]. split; [done|].
  exact Hh.
Qed.

Lemma connect_sends_invite_witness :
  status (new_world library 0) = STATUS_NULL
  ∧ _is_canceled (this (new_world library 0)) = false
  ∧ promises (new_world library 0) = []
  ∧ ua_normalizeTarget library "sip:bob@example.com"
    = Some "sip:bob@example.com"
  ∧ ∃ r,
      status (run library [next_tick; next_tick]
                (connect library (Some "sip:bob@example.com") (Some "v=0")
                         anonymous_options true (new_world library 0)).2)
      = STATUS_INVITE_SENT
      ∧ trace (run library [next_tick; next_tick]
                 (connect library (Some "sip:bob@example.com") (Some "v=0")
                          anonymous_options true (new_world library 0)).2)
        = trace (new_world library 0) ++ [initCallback]
          ++ [ua_newRTCSession local r;
              emit (Ev.connecting (Some (OutgoingInvite r)));
              emit (Ev.sending (with_body (Some "v=0") r));
              request_sender_send (with_body (Some "v=0") r)]
      ∧ "Privacy: id" ∈ o_extraHeaders r.
Proof.
  assert (H1 : status (new_world library 0) = STATUS_NULL) by reflexivity.
  assert (H2 : _is_canceled (this (new_world library 0)) = false)
    by reflexivity.
  assert (H3 : promises (new_world library 0) = []) by reflexivity.
  assert (H4 : ua_normalizeTarget library "sip:bob@example.com"
               = Some "sip:bob@example.com") by reflexivity.
  destruct (connect_sends_invite library "sip:bob@example.com" _ (Some "v=0")
              anonymous_options true (new_world library 0) H1 H2 H3 H4)
    as (r & _ & _ & _ & _ & Hst & _ & _ & Htr & _ & _ & _ & _ & _ & _
        & _ & Hanon).
  split; [exact H1|]. split; [exact H2|]. split; [exact H3|].
  split; [exact H4|]. exists r.
  split; [exact Hst|]. split; [exact Htr|].
  exact (proj2 (Hanon eq_refl)).
Defined.

Lemma tick_of_terminated (w : World) :
  status w = STATUS_TERMINATED →
  trace (run_next_tick w).2 = trace w
  ∧ status (run_next_tick w).2 = STATUS_TERMINATED.
Proof.
  intros Hst. unfold run_next_tick, status in *.
  destruct (promises w) as [|[] rest]; try done;
    unfold initialRequest_connecting_run, initialRequest_sending_run, catch;
    run_M; rewrite bool_decide_eq_true_2 by done;
    rewrite ?orb_true_r; done.
Qed.

(** X20. A call that the user gives up before its INVITE is sent is never
    sent.  After [terminate] on a session in NULL, however many
    continuations of the initial request are still to run, they emit nothing
    and send nothing: no [connecting], no [sending], no INVITE. *)
Theorem given_up_call_is_not_sent (X : Externals)
    (options : TerminateOptions) (n : nat) (w : World) :
  status w = STATUS_NULL →
  (terminate X options w).1 = Normal tt →
  trace (run X (replicate n next_tick) (terminate X options w).2)
  = trace (terminate X options w).2
  ∧ status (run X (replicate n next_tick) (terminate X options w).2)
    = STATUS_TERMINATED.
Proof.
  intros Hst Hn.
  assert (H : status (terminate X options w).2 = STATUS_TERMINATED)
    by (apply terminate_cancels; auto).
  revert H. generalize (terminate X options w).2. clear.
  induction n as [|n IH]; intros w Hst; simpl; [done|].
  destruct (tick_of_terminated w Hst) as [Htr Hst'].
  destruct (IH _ Hst') as [IH1 IH2]. by rewrite IH1.
Qed.

Lemma given_up_call_is_not_sent_witness :
  status (connect library (Some "sip:bob@example.com") (Some "v=0")
                  no_connect_options false (new_world library 0)).2
  = STATUS_NULL
  ∧ (terminate library no_terminate_options
       (connect library (Some "sip:bob@example.com") (Some "v=0")
                no_connect_options false (new_world library 0)).2).1
    = Normal tt
  ∧ trace (run library (replicate 2 next_tick)
             (terminate library no_terminate_options
                (connect library (Some "sip:bob@example.com") (Some "v=0")
                         no_connect_options false (new_world library 0)).2).2)
    = trace (terminate library no_terminate_options
               (connect library (Some "sip:bob@example.com") (Some "v=0")
                        no_connect_options false (new_world library 0)).2).2.
Proof.
  assert (H1 : status (connect library (Some "sip:bob@example.com")
                         (Some "v=0") no_connect_options false
                         (new_world library 0)).2 = STATUS_NULL)
    by reflexivity.
  assert (H2 : (terminate library no_terminate_options
                  (connect library (Some "sip:bob@example.com") (Some "v=0")
                           no_connect_options false
                           (new_world library 0)).2).1 = Normal tt)
    by reflexivity.
  split; [exact H1|]. split; [exact H2|].
  exact (proj1 (given_up_call_is_not_sent library no_terminate_options 2 _
                  H1 H2)).
Defined.

(** ** Calls in the wrong state, calls with wrong arguments *)

(** X21. A call of [terminate], [sendDTMF], [sendInfo] or [sendRequest]
    that throws, whatever the exception, leaves the session and everything
    around it as it was: nothing is assigned, sent, emitted, armed or
    queued.  A call of [connect] that throws has stored the [data] of its
    options and done nothing else. *)
Theorem failed_call_changes_nothing (X : Externals) (w w' : World)
    (e : Exception) :
  (∀ options, terminate X options w = (Thrown e, w') → w' = w)
  ∧ (∀ tones options, sendDTMF X tones options w = (Thrown e, w') → w' = w)
  ∧ (∀ contentType body,
       sendInfo contentType body w = (Thrown e, w') → w' = w)
  ∧ (∀ m extraHeaders body handlers,
       sendRequest m extraHeaders body handlers w = (Thrown e, w') → w' = w)
  ∧ (∀ target sdp options init,
       connect X target sdp options init w = (Thrown e, w') →
       w' = with_this
              (λ s, set_data (default (_data s) (co_data options)) s) w).
Proof.
  split; [|split; [|split; [|split]]].
  - intros options. apply failure_atomic_terminate.
  - intros tones options. apply failure_atomic_sendDTMF.
  - intros contentType body. apply failure_atomic_sendInfo.
  - intros m extraHeaders body handlers. apply failure_atomic_sendRequest.
  - intros target sdp options init. apply connect_thrown.
Qed.

Lemma failed_call_changes_nothing_witness :
  sendDTMF library (TonesString "12x") no_dtmf_options established
  = (Thrown (TypeError "Invalid tones: 12x"), established)
  ∧ (sendDTMF library (TonesString "12x") no_dtmf_options established).2
    = established.
Proof.
  assert (H : sendDTMF library (TonesString "12x") no_dtmf_options
                       established
              = (Thrown (TypeError "Invalid tones: 12x"), established))
    by reflexivity.
  split; [exact H|].
  destruct (failed_call_changes_nothing library established established
              (TypeError "Invalid tones: 12x")) as (_ & Hd & _).
  rewrite H. exact (Hd _ _ H).
Defined.

(** X22. The public operations check the status first.  [terminate] on a
    terminated session, [sendDTMF] and [sendInfo] outside CONFIRMED and
    WAITING_FOR_ACK, and [connect] outside NULL throw an InvalidStateError
    that carries the status; [sendDTMF] and [connect] without their first
    argument throw a TypeError before they look at the status. *)
Theorem invalid_state_errors (X : Externals) (w : World) :
  (status w = STATUS_TERMINATED →
   ∀ options,
     terminate X options w = (Thrown (InvalidStateError (status w)), w))
  ∧ (status w ≠ STATUS_CONFIRMED → status w ≠ STATUS_WAITING_FOR_ACK →
     (∀ tones options, tones ≠ TonesUndefined →
        sendDTMF X tones options w
        = (Thrown (InvalidStateError (status w)), w))
     ∧ (∀ contentType body,
          sendInfo contentType body w
          = (Thrown (InvalidStateError (status w)), w)))
  ∧ (status w ≠ STATUS_NULL →
     ∀ target sdp options init,
       connect X (Some target) sdp options init w
       = (Thrown (InvalidStateError (status w)),
          with_this (λ s, set_data (default (_data s) (co_data options)) s)
                    w))
  ∧ (∀ options, sendDTMF X TonesUndefined options w
                = (Thrown (TypeError "Not enough arguments"), w))
  ∧ (∀ sdp options init,
       connect X None sdp options init w
       = (Thrown (TypeError "Not enough arguments"),
          with_this (λ s, set_data (default (_data s) (co_data options)) s)
                    w)).
Proof.
  unfold status. split; [|split; [|split; [|split]]].
  - intros Hst options. unfold terminate. run_M.
    by rewrite decide_True.
  - intros H1 H2. split.
    + intros tones options Ht. unfold sendDTMF.
      destruct tones; try done; run_M;
        by rewrite bool_decide_eq_true_2.
    + intros contentType body. unfold sendInfo. run_M.
      by rewrite bool_decide_eq_true_2.
  - intros Hst target sdp options init. unfold connect. run_M.
    by rewrite bool_decide_eq_true_2.
  - done.
  - done.
Qed.

Lemma invalid_state_errors_witness :
  status given_up = STATUS_TERMINATED
  ∧ terminate library no_terminate_options given_up
    = (Thrown (InvalidStateError STATUS_TERMINATED), given_up)
  ∧ status ringing ≠ STATUS_CONFIRMED
  ∧ status ringing ≠ STATUS_WAITING_FOR_ACK
  ∧ sendInfo (Some "text/plain") (Some "hello") ringing
    = (Thrown (InvalidStateError STATUS_WAITING_FOR_ANSWER), ringing).
Proof.
  assert (H1 : status given_up = STATUS_TERMINATED) by reflexivity.
  assert (H2 : status ringing ≠ STATUS_CONFIRMED) by discriminate.
  assert (H3 : status ringing ≠ STATUS_WAITING_FOR_ACK) by discriminate.
  destruct (invalid_state_errors library given_up) as (Ht & _).
  destruct (invalid_state_errors library ringing) as (_ & Hi & _).
  destruct (Hi H2 H3) as [_ Hinfo].
  split; [exact H1|]. split; [exact (Ht H1 no_terminate_options)|].
  split; [exact H2|]. split; [exact H3|].
  exact (Hinfo (Some "text/plain") (Some "hello")).
Defined.

(** ** The duration and the pace of the tones *)

Lemma duration_of_clamp (X : Externals) (o : DTMFOptions) (d : Z) :
  0 ≤ MIN_DURATION X ≤ MAX_DURATION X →
  dtmf_duration o = NumInt d → d ≠ 0 →
  duration_of X o = clamp (MIN_DURATION X) (MAX_DURATION X) d.
Proof.
  intros Hb Hd Hne. unfold duration_of, clamp. rewrite Hd.
  assert (Hor : or_null (NumInt d) = NumInt d) by (by destruct d).
  rewrite Hor.
  destruct (Z.ltb_spec d (MIN_DURATION X)); [lia|].
  destruct (Z.gtb_spec d (MAX_DURATION X)); lia.
Qed.

Lemma interToneGap_of_max (X : Externals) (o : DTMFOptions) (g : Z) :
  0 ≤ MIN_INTER_TONE_GAP X →
  dtmf_interToneGap o = NumInt g → g ≠ 0 →
  interToneGap_of X o = Z.max (MIN_INTER_TONE_GAP X) g.
Proof.
  intros Hb Hg Hne. unfold interToneGap_of. rewrite Hg.
  assert (Hor : or_null (NumInt g) = NumInt g) by (by destruct g).
  rewrite Hor.
  destruct (Z.ltb_spec g (MIN_INTER_TONE_GAP X)); lia.
Qed.

(** X23. The first tone of a call of [sendDTMF] on an idle session is sent
    at once, and one timer is armed for the next.  A duration given in the
    options is kept between MIN_DURATION and MAX_DURATION; a gap given in the
    options is at least MIN_INTER_TONE_GAP; without them, or with 0, the
    defaults are taken.  The next tone waits for the duration and the gap;
    the tone itself is sent with the duration and with the gap as the
    options have it. *)
Theorem sendDTMF_clamps (X : Externals) (c : ascii) (t : string)
    (o : DTMFOptions) (w : World) :
  0 ≤ MIN_DURATION X ≤ MAX_DURATION X →
  0 ≤ MIN_INTER_TONE_GAP X →
  status w = STATUS_CONFIRMED ∨ status w = STATUS_WAITING_FOR_ACK →
  truthy_string (_tones (this w)) = false →
  matches_tones (String c t) = true →
  Ascii.eqb c "," = false →
  valid_options o →
  let d := duration_of X o in
  let g := interToneGap_of X o in
  sendDTMF X (TonesString (String c t)) o w
  = (Normal tt,
     with_timeouts (timeouts w ++ [(next_timeout w,
                                    (d + g, _sendDTMF 1 d g o))])
                   (S (next_timeout w))
       (and_then [dtmf_send c d (dtmf_interToneGap o)]
          (with_this (set_tones (Some (String c t))) w)))
  ∧ (∀ n, dtmf_duration o = NumInt n → n ≠ 0 →
          d = clamp (MIN_DURATION X) (MAX_DURATION X) n
          ∧ MIN_DURATION X ≤ d ≤ MAX_DURATION X)
  ∧ (dtmf_duration o = NumAbsent ∨ dtmf_duration o = NumInt 0 →
     d = DEFAULT_DURATION X)
  ∧ (∀ n, dtmf_interToneGap o = NumInt n → n ≠ 0 →
          g = Z.max (MIN_INTER_TONE_GAP X) n)
  ∧ (dtmf_interToneGap o = NumAbsent ∨ dtmf_interToneGap o = NumInt 0 →
     g = DEFAULT_INTER_TONE_GAP X).
Proof.
  intros Hd Hg Hst Htones Hm Hc Hv d g.
  split; [|split; [|split; [|split]]].
  - rewrite sendDTMF_valid, Htones by done.
    unfold _sendDTMF_run, and_then. run_M. simpl.
    rewrite bool_decide_eq_false_2
      by (unfold status in Hst; destruct Hst; congruence).
    simpl. by rewrite Hc.
  - intros n Hn Hne. subst d.
    rewrite (duration_of_clamp X o n) by done. unfold clamp. lia.
  - intros [H|H]; subst d; unfold duration_of; by rewrite H.
  - intros n Hn Hne. subst g. by apply interToneGap_of_max.
  - intros [H|H]; subst g; unfold interToneGap_of; by rewrite H.
Qed.

Lemma sendDTMF_clamps_witness :
  0 ≤ MIN_DURATION library ≤ MAX_DURATION library
  ∧ 0 ≤ MIN_INTER_TONE_GAP library
  ∧ (status established = STATUS_CONFIRMED
     ∨ status established = STATUS_WAITING_FOR_ACK)
  ∧ truthy_string (_tones (this established)) = false
  ∧ matches_tones "5" = true
  ∧ Ascii.eqb "5" "," = false
  ∧ valid_options long_tones
  ∧ duration_of library long_tones = 6000
  ∧ interToneGap_of library long_tones = 50
  ∧ sendDTMF library (TonesString "5") long_tones established
    = (Normal tt,
       with_timeouts
         (timeouts established
          ++ [(next_timeout established,
               (duration_of library long_tones
                + interToneGap_of library long_tones,
                _sendDTMF 1 (duration_of library long_tones)
                          (interToneGap_of library long_tones) long_tones))])
         (S (next_timeout established))
         (and_then [dtmf_send "5" (duration_of library long_tones)
                              (dtmf_interToneGap long_tones)]
            (with_this (set_tones (Some "5")) established))).
Proof.
  assert (H1 : 0 ≤ MIN_DURATION library ≤ MAX_DURATION library)
    by (simpl; lia).
  assert (H2 : 0 ≤ MIN_INTER_TONE_GAP library) by (simpl; lia).
  assert (H3 : status established = STATUS_CONFIRMED
               ∨ status established = STATUS_WAITING_FOR_ACK)
    by (left; reflexivity).
  assert (H4 : truthy_string (_tones (this established)) = false)
    by reflexivity.
  assert (H5 : matches_tones "5" = true) by reflexivity.
  assert (H6 : Ascii.eqb "5" "," = false) by reflexivity.
  assert (H7 : valid_options long_tones) by (split; exact I).
  destruct (sendDTMF_clamps library "5" "" long_tones established
              H1 H2 H3 H4 H5 H6 H7) as (Hrun & _).
  split; [exact H1|]. split; [exact H2|]. split; [exact H3|].
  split; [exact H4|]. split; [exact H5|]. split; [exact H6|].
  split; [exact H7|]. split; [reflexivity|]. split; [reflexivity|].
  exact Hrun.
Defined.

(** X24. A tone that fails stops the sequence.  When the transaction layer
    reports the failure of a tone while a sequence runs, the queue is
    dropped; the timer of the sequence still expires once, sends nothing
    and arms nothing, so that no tone of the rest of the queue is sent,
    however much time passes. *)
Theorem failed_tone_drops_queue (X : Externals) (d g : Z) (o : DTMFOptions)
    (t : string) (p : nat) others before (n : nat) (w : World) :
  Sending d g o t p others before w →
  _tones (this (dtmf_onFailed w).2) = None
  ∧ tones_sent (trace (elapse X n (dtmf_onFailed w).2))
    = tones_sent (trace w)
  ∧ ((1 ≤ n)%nat →
     next_tone_timer (elapse X n (dtmf_onFailed w).2) = None).
Proof.
  intros [(h & delay & Ht & Hnext & Hothers) _ _ _ _].
  unfold dtmf_onFailed, assign. simpl.
  set (w1 := with_this (set_tones None) w).
  split; [done|].
  assert (Hfind : next_tone_timer w1 = Some h).
  { unfold next_tone_timer. simpl. rewrite Ht.
    rewrite list_find_app_r
      by (apply no_tone_timer; eapply Forall_impl; [exact Hothers|];
          by intros x [_ ?]).
    done. }
  assert (Hfire : fire X h w1
                  = (Normal tt, with_timeouts others (next_timeout w) w1)).
  { rewrite (fire_last X h delay (_sendDTMF p d g o) others) by
      (done || (eapply Forall_impl; [exact Hothers|]; simpl;
                intros x [? _]; lia)).
    simpl. unfold _sendDTMF_run. run_M. simpl.
    rewrite orb_true_r. simpl. done. }
  assert (Hidle : next_tone_timer (with_timeouts others (next_timeout w) w1)
                  = None).
  { unfold next_tone_timer. simpl. rewrite no_tone_timer; [done|].
    eapply Forall_impl; [exact Hothers|]. by intros x [_ ?]. }
  destruct n as [|n]; simpl.
  - split; [done | lia].
  - rewrite Hfind, Hfire. simpl. rewrite elapse_idle by done.
    split; done.
Qed.

Lemma failed_tone_drops_queue_witness :
  Sending (duration_of library no_dtmf_options)
          (interToneGap_of library no_dtmf_options) no_dtmf_options "123" 1
          (timeouts established) (tones_sent (trace established))
          (sendDTMF library (TonesString "123") no_dtmf_options
                    established).2
  ∧ tones_sent
      (trace (elapse library 5
                (dtmf_onFailed
                   (sendDTMF library (TonesString "123") no_dtmf_options
                             established).2).2))
    = tones_sent
        (trace (sendDTMF library (TonesString "123") no_dtmf_options
                         established).2).
Proof.
  assert (H : Sending (duration_of library no_dtmf_options)
                (interToneGap_of library no_dtmf_options) no_dtmf_options
                "123" 1 (timeouts established)
                (tones_sent (trace established))
                (sendDTMF library (TonesString "123") no_dtmf_options
                          established).2).
  { apply sendDTMF_starts;
      [by left | reflexivity | constructor | constructor | reflexivity
      | split; exact I]. }
  split; [exact H|].
  exact (proj1 (proj2 (failed_tone_drops_queue library _ _ _ _ _ _ _ 5 _ H))).
Defined.

(** ** The session timer after a request and after a response *)

Lemma _handleSessionTimersInIncomingRequest_run (X : Externals)
    (request : IncomingRequest) (hs : list string) (w : World) :
  _handleSessionTimersInIncomingRequest X request hs w
  = if enabled (_sessionTimers (this w))
    then (Normal (hs ++ [Session_Expires_header
                           (negotiated_expires X request (this w))
                           (negotiated_refresher X request "uas")]),
          session_timer_set
            (negotiated_expires X request (this w))
            (String.eqb (negotiated_refresher X request "uas") "uas") w)
    else (Normal hs, w).
Proof.
  unfold _handleSessionTimersInIncomingRequest, _runSessionTimer,
    session_timer_set, session_timer_armed, negotiated_expires,
    negotiated_refresher, offers_expires, Session_Expires_header.
  run_M. destruct (enabled _); [|done]. cbn [negb].
  destruct (truthy_number _ && _); simpl; [|done].
  match goal with
  | |- context [String.eqb ?a ?b] => by destruct (String.eqb a b)
  end.
Qed.

Lemma _handleSessionTimersInIncomingResponse_run (X : Externals)
    (response : IncomingResponse) (w : World) :
  _handleSessionTimersInIncomingResponse X response w
  = (Normal tt,
     if enabled (_sessionTimers (this w))
     then session_timer_set
            (negotiated_expires X response (this w))
            (String.eqb (negotiated_refresher X response "uac") "uac") w
     else w).
Proof.
  unfold _handleSessionTimersInIncomingResponse, _runSessionTimer,
    session_timer_set, session_timer_armed, negotiated_expires,
    negotiated_refresher, offers_expires.
  run_M. destruct (enabled _); [|done]. cbn [negb].
  destruct (truthy_number _ && _); simpl; [|done].
  match goal with
  | |- context [String.eqb ?a ?b] => by destruct (String.eqb a b)
  end.
Qed.

Lemma negotiated_expires_bound (X : Externals) (m : SIPMessage)
    (s : RTCSession) :
  MIN_SESSION_EXPIRES X ≤ negotiated_expires X m s
  ∨ negotiated_expires X m s = defaultExpires (_sessionTimers s).
Proof.
  unfold negotiated_expires, offers_expires.
  destruct (truthy_number _); simpl; [|by right].
  destruct (Z.geb_spec (default 0 (session_expires m))
                       (MIN_SESSION_EXPIRES X)); [left; lia | by right].
Qed.

Lemma negotiated_refresher_own (X : Externals) (m : SIPMessage)
    (role : string) :
  offers_expires X m = false
  ∨ truthy_string (session_expires_refresher m) = false →
  negotiated_refresher X m role = role.
Proof.
  unfold negotiated_refresher, or_string.
  intros [->|H]; [done|]. rewrite H. by destruct (offers_expires X m).
Qed.

Lemma waits_for_session_timer_set (expires : Z) (we_refresh : bool)
    (w : World) :
  well_timed w →
  waits_for (next_timeout w) (session_timer_set expires we_refresh w)
  = Some (host_delay (session_timer_delay expires we_refresh)).
Proof.
  intros Hwt. unfold session_timer_set, session_timer_delay.
  destruct we_refresh.
  - by apply (waits_for_session_timer (expires * 500) sessionRefresh
                (with_this _ w)).
  - by apply (waits_for_session_timer (expires * 1100) sessionExpired
                (with_this _ w)).
Qed.

(** X25. The session timer after a request (the session answers, its side
    is uas) and after a response (the session asked, its side is uac).  With
    session timers off nothing happens.  Otherwise the interval is the one
    the message offers when that is at least MIN_SESSION_EXPIRES, and the
    default of the session when the message offers none or a shorter one;
    a short offer is not refused.  The session is the refresher when the
    message names its side, and also when it names no refresher or offers
    no interval that is taken.  The old timer is cleared and one timer is
    armed, for the refresher with half the interval and otherwise with 1.1
    times the interval; when that delay is between 1 millisecond and
    [TIMEOUT_MAX], it is the time that the host waits.  The answer to a
    request tells interval and refresher in a Session-Expires header. *)
Theorem session_timers_negotiated (X : Externals)
    (request : IncomingRequest) (response : IncomingResponse)
    (hs : list string) (w : World) :
  well_timed w →
  (enabled (_sessionTimers (this w)) = false →
   _handleSessionTimersInIncomingRequest X request hs w = (Normal hs, w)
   ∧ _handleSessionTimersInIncomingResponse X response w = (Normal tt, w))
  ∧ (enabled (_sessionTimers (this w)) = true →
     let expires := negotiated_expires X request (this w) in
     let we_refresh :=
       String.eqb (negotiated_refresher X request "uas") "uas" in
     host_takes (session_timer_delay expires we_refresh) →
     _handleSessionTimersInIncomingRequest X request hs w
     = (Normal (hs ++ [Session_Expires_header expires
                         (negotiated_refresher X request "uas")]),
        session_timer_set expires we_refresh w)
     ∧ waits_for (next_timeout w)
                 (_handleSessionTimersInIncomingRequest X request hs w).2
       = Some (session_timer_delay expires we_refresh))
  ∧ (enabled (_sessionTimers (this w)) = true →
     let expires := negotiated_expires X response (this w) in
     let we_refresh :=
       String.eqb (negotiated_refresher X response "uac") "uac" in
     host_takes (session_timer_delay expires we_refresh) →
     _handleSessionTimersInIncomingResponse X response w
     = (Normal tt, session_timer_set expires we_refresh w)
     ∧ waits_for (next_timeout w)
                 (_handleSessionTimersInIncomingResponse X response w).2
       = Some (session_timer_delay expires we_refresh))
  ∧ (∀ m : SIPMessage,
       MIN_SESSION_EXPIRES X ≤ negotiated_expires X m (this w)
       ∨ negotiated_expires X m (this w)
         = defaultExpires (_sessionTimers (this w)))
  ∧ (∀ (m : SIPMessage) role,
       offers_expires X m = false
       ∨ truthy_string (session_expires_refresher m) = false →
       negotiated_refresher X m role = role)
  ∧ (∀ expires we_refresh,
       host_takes (session_timer_delay expires we_refresh) →
       let w' := session_timer_set expires we_refresh w in
       timeouts w'
       = cleared (timer (_sessionTimers (this w))) (timeouts w)
         ++ [(next_timeout w,
              (session_timer_delay expires we_refresh,
               if we_refresh then sessionRefresh else sessionExpired))]
       ∧ waits_for (next_timeout w) w'
         = Some (session_timer_delay expires we_refresh)
       ∧ timer (_sessionTimers (this w')) = Some (next_timeout w)
       ∧ currentExpires (_sessionTimers (this w')) = Some expires
       ∧ refresher (_sessionTimers (this w')) = we_refresh
       ∧ trace w' = trace w).
Proof.
  intros Hwt. split; [|split; [|split; [|split; [|split]]]].
  - intros Hen.
    rewrite _handleSessionTimersInIncomingRequest_run,
      _handleSessionTimersInIncomingResponse_run. by rewrite Hen.
  - intros Hen expires we_refresh Hd.
    rewrite _handleSessionTimersInIncomingRequest_run, Hen.
    split; [done|]. simpl.
    by rewrite waits_for_session_timer_set, host_delay_taken.
  - intros Hen expires we_refresh Hd.
    rewrite _handleSessionTimersInIncomingResponse_run, Hen.
    split; [done|]. simpl.
    by rewrite waits_for_session_timer_set, host_delay_taken.
  - intros m. apply negotiated_expires_bound.
  - intros m role. apply negotiated_refresher_own.
  - intros expires we_refresh Hd w'. subst w'.
    rewrite waits_for_session_timer_set, host_delay_taken by done.
    unfold session_timer_set, session_timer_delay.
    by destruct we_refresh.
Qed.

Lemma session_timers_negotiated_witness :
  well_timed established
  ∧ enabled (_sessionTimers (this established)) = true
  ∧ host_takes (session_timer_delay 120 false)
  ∧ _handleSessionTimersInIncomingRequest library refresh_update []
                                          established
    = (Normal ["Session-Expires: 120;refresher=uac"],
       session_timer_set 120 false established)
  ∧ waits_for (next_timeout established)
              (_handleSessionTimersInIncomingRequest library refresh_update
                 [] established).2
    = Some 132000
  ∧ host_takes (session_timer_delay 90 true)
  ∧ _handleSessionTimersInIncomingRequest library hasty_update []
                                          established
    = (Normal ["Session-Expires: 90;refresher=uas"],
       session_timer_set 90 true established)
  ∧ waits_for (next_timeout established)
              (_handleSessionTimersInIncomingRequest library hasty_update
                 [] established).2
    = Some 45000.
Proof.
  assert (Hwt : well_timed established) by constructor.
  assert (H : enabled (_sessionTimers (this established)) = true)
    by reflexivity.
  assert (Hd1 : host_takes (session_timer_delay 120 false))
    by (unfold host_takes, TIMEOUT_MAX; simpl; lia).
  assert (Hd2 : host_takes (session_timer_delay 90 true))
    by (unfold host_takes, TIMEOUT_MAX; simpl; lia).
  destruct (session_timers_negotiated library refresh_update answer_200 []
              established Hwt) as (_ & H1 & _).
  destruct (session_timers_negotiated library hasty_update answer_200 []
              established Hwt) as (_ & H2 & _).
  split; [exact Hwt|]. split; [exact H|]. split; [exact Hd1|].
  split; [exact (proj1 (H1 H Hd1))|]. split; [exact (proj2 (H1 H Hd1))|].
  split; [exact Hd2|].
  split; [exact (proj1 (H2 H Hd2)) | exact (proj2 (H2 H Hd2))].
Defined.

(** X26. An UPDATE without body on a confirmed session, the refresh of the
    session by the peer, is answered 200 at once, after the [update] event:
    the answer has the Contact header and, with session timers on, the
    Session-Expires header; the session timer is set again from the
    request.  The status does not change. *)
Theorem update_without_body (X : Externals) (request : IncomingRequest)
    (w : World) :
  method request = UPDATE →
  status w = STATUS_CONFIRMED →
  truthy_string (body request) = false →
  receiveRequest X request None w
  = (Normal tt,
     if enabled (_sessionTimers (this w))
     then
       and_then
         [reply request 200 None
            [contact_header (this w);
             Session_Expires_header
               (negotiated_expires X request (this w))
               (negotiated_refresher X request "uas")] None]
         (session_timer_set
            (negotiated_expires X request (this w))
            (String.eqb (negotiated_refresher X request "uas") "uas")
            (and_then [emit (Ev.update request)] w))
     else
       and_then [emit (Ev.update request);
                 reply request 200 None [contact_header (this w)] None] w)
  ∧ status (receiveRequest X request None w).2 = STATUS_CONFIRMED.
Proof.
  intros Hm Hst Hbody.
  assert (E : receiveRequest X request None w
              = update_sendAnswer X request None
                  (and_then [emit (Ev.update request)] w)).
  { unfold receiveRequest, _receiveUpdate, status, and_then in *.
    rewrite Hm. run_M. rewrite bool_decide_eq_true_2 by done.
    by rewrite Hbody. }
  assert (E2 : update_sendAnswer X request None
                 (and_then [emit (Ev.update request)] w)
               = (Normal tt,
                  if enabled (_sessionTimers (this w))
                  then
                    and_then
                      [reply request 200 None
                         [contact_header (this w);
                          Session_Expires_header
                            (negotiated_expires X request (this w))
                            (negotiated_refresher X request "uas")] None]
                      (session_timer_set
                         (negotiated_expires X request (this w))
                         (String.eqb (negotiated_refresher X request "uas")
                                     "uas")
                         (and_then [emit (Ev.update request)] w))
                  else
                    and_then [emit (Ev.update request);
                              reply request 200 None
                                    [contact_header (this w)] None] w)).
  { unfold update_sendAnswer.
    unfold bind at 1, get_this at 1. unfold bind at 1.
    rewrite _handleSessionTimersInIncomingRequest_run. simpl.
    destruct (enabled (_sessionTimers (this w))); [done|].
    unfold do, and_then, with_trace. simpl. by rewrite <- app_assoc. }
  rewrite E, E2. split; [done|]. simpl.
  destruct (enabled (_sessionTimers (this w))); [|done].
  unfold and_then, session_timer_set, status in *. simpl.
  match goal with
  | |- context [String.eqb ?a ?b] => by destruct (String.eqb a b)
  end.
Qed.

Lemma update_without_body_witness :
  method refresh_update = UPDATE
  ∧ status established = STATUS_CONFIRMED
  ∧ truthy_string (body refresh_update) = false
  ∧ trace (receiveRequest library refresh_update None established).2
    = [emit (Ev.update refresh_update);
       reply refresh_update 200 None
         ["Contact: <sip:alice@192.0.2.1;transport=ws>";
          "Session-Expires: 120;refresher=uac"] None]
  ∧ timeouts (receiveRequest library refresh_update None established).2
    = [(0%nat, (132000, sessionExpired))].
Proof.
  assert (H1 : method refresh_update = UPDATE) by reflexivity.
  assert (H2 : status established = STATUS_CONFIRMED) by reflexivity.
  assert (H3 : truthy_string (body refresh_update) = false) by reflexivity.
  destruct (update_without_body library refresh_update established
              H1 H2 H3) as [E _].
  split; [exact H1|]. split; [exact H2|]. split; [exact H3|].
  rewrite E. split; reflexivity.
Defined.

(** ** A re-INVITE answered and acknowledged *)

Lemma well_timed_session_timer_set (expires : Z) (we_refresh : bool)
    (w : World) :
  well_timed w → well_timed (session_timer_set expires we_refresh w).
Proof.
  unfold well_timed, session_timer_set. intros H.
  destruct we_refresh; simpl; apply Forall_app; split;
    try (apply Forall_singleton; simpl; lia);
    rewrite Forall_forall in *; intros x Hx%cleared_subset;
    specialize (H x Hx); lia.
Qed.

Lemma well_timed_handled (X : Externals) (request : IncomingRequest)
    (hs : list string) (w : World) :
  well_timed w →
  well_timed (_handleSessionTimersInIncomingRequest X request hs w).2.
Proof.
  intros H. rewrite _handleSessionTimersInIncomingRequest_run.
  destruct (enabled _); [|done]. by apply well_timed_session_timer_set.
Qed.

Lemma filter_fresh (h : nat) (pending : list (nat * (Z * TimerCallback))) :
  Forall (λ x, (x.1 < h)%nat) pending →
  filter (λ t, t.1 ≠ h) pending = pending.
Proof.
  intros H. apply filter_all. eapply Forall_impl; [exact H|].
  simpl. intros x ?. lia.
Qed.

(** X27. The answer to a re-INVITE, and the ACK that follows.  When the 200
    is sent the session waits for the ACK, with two more timers pending:
    the retransmission of the 200 after T1 and the ACK timer after Timer H.
    The ACK brings the status back to CONFIRMED, and the pending timers are
    again those from before the two were armed. *)
Theorem reinvite_answered_and_acknowledged (X : Externals)
    (request ack : IncomingRequest) (desc : option string) (w : World) :
  well_timed w →
  method ack = ACK →
  _late_sdp (this w) = false ∨ truthy_string (body ack) = true →
  let w0 := (_handleSessionTimersInIncomingRequest X request
               [contact_header (this w)] w).2 in
  let w1 := (reinvite_sendAnswer X request desc true w).2 in
  let w2 := (receiveRequest X ack None w1).2 in
  (reinvite_sendAnswer X request desc true w).1 = Normal tt
  ∧ status w1 = STATUS_WAITING_FOR_ACK
  ∧ timeouts w1
    = timeouts w0
      ++ [(next_timeout w0,
           (T1 X, invite2xxRetransmission request desc (T1 X)));
          (S (next_timeout w0), (TIMER_H X, ackTimerExpired))]
  ∧ (∃ hs, trace w1
           = trace w
             ++ [reply request 200 None (contact_header (this w) :: hs)
                       desc])
  ∧ (receiveRequest X ack None w1).1 = Normal tt
  ∧ status w2 = STATUS_CONFIRMED
  ∧ timeouts w2 = timeouts w0.
Proof.
  intros Hwt Hm Hlate w0 w1 w2.
  pose proof (well_timed_handled X request [contact_header (this w)] w Hwt)
    as Hwt0.
  fold w0 in Hwt0.
  assert (E : reinvite_sendAnswer X request desc true w
              = (Normal tt,
                 with_this
                   (λ s, set_timers
                           (set_ackTimer (Some (S (next_timeout w0)))
                              (set_invite2xxTimer (Some (next_timeout w0))
                                                  (_timers s))) s)
                   (with_timeouts
                      (timeouts w0
                       ++ [(next_timeout w0,
                            (T1 X,
                             invite2xxRetransmission request desc (T1 X)));
                           (S (next_timeout w0),
                            (TIMER_H X, ackTimerExpired))])
                      (S (S (next_timeout w0)))
                      (with_this (set_status STATUS_WAITING_FOR_ACK)
                         (and_then
                            [reply request 200 None
                               (default []
                                  (match
                                      (_handleSessionTimersInIncomingRequest
                                         X request [contact_header (this w)]
                                         w).1
                                    with
                                    | Normal hs => Some hs
                                    | Thrown _ => None
                                    end)) desc] w0))))).
  { subst w0. unfold reinvite_sendAnswer.
    unfold bind at 1, get_this at 1. unfold bind at 1.
    rewrite _handleSessionTimersInIncomingRequest_run.
    unfold _setInvite2xxTimer, arm_invite2xxTimer, _setACKTimer, and_then.
    destruct (enabled (_sessionTimers (this w))); run_M; simpl;
      unfold with_this, with_timeouts, with_trace; simpl;
      by rewrite <- ?app_assoc. }
  assert (Hw1 : w1 = (reinvite_sendAnswer X request desc true w).2)
    by done.
  rewrite E in Hw1. simpl in Hw1. rewrite E. clear E.
  split; [done|]. split; [by rewrite Hw1|]. split; [by rewrite Hw1|].
  split.
  { rewrite Hw1. simpl. subst w0.
    rewrite _handleSessionTimersInIncomingRequest_run.
    destruct (enabled _); simpl; eexists; [|done].
    unfold session_timer_set. by destruct (String.eqb _ _). }
  assert (Hst1 : status w1 = STATUS_WAITING_FOR_ACK) by (by rewrite Hw1).
  assert (Hl1 : _late_sdp (this w1) = false
                ∨ truthy_string (body ack) = true).
  { destruct Hlate as [H|H]; [left|by right]. rewrite Hw1. simpl.
    subst w0. rewrite _handleSessionTimersInIncomingRequest_run.
    destruct (enabled _); simpl; [|done].
    unfold session_timer_set. by destruct (String.eqb _ _). }
  destruct (ack_confirms X ack None w1 Hm Hst1 Hl1) as (Hn & Hst2 & Ht & _).
  split; [done|]. split; [done|].
  subst w2. rewrite Ht. unfold acknowledged. rewrite Hw1. simpl.
  rewrite !filter_app. simpl.
  rewrite (filter_fresh (S (next_timeout w0)) (timeouts w0))
    by (eapply Forall_impl; [exact Hwt0|]; simpl; intros x ?; lia).
  rewrite (filter_fresh (next_timeout w0) (timeouts w0)) by exact Hwt0.
  rewrite filter_cons, decide_True by (simpl; lia).
  rewrite filter_cons, decide_False by (simpl; intros H; by apply H).
  rewrite ?filter_nil.
  rewrite filter_cons, decide_False by (simpl; intros H; by apply H).
  rewrite ?filter_nil. by rewrite app_nil_r.
Qed.

Lemma reinvite_answered_and_acknowledged_witness :
  well_timed established
  ∧ method bare_ack = ACK
  ∧ _late_sdp (this established) = false
  ∧ status (reinvite_sendAnswer library offer_reinvite (Some "v=0") true
                                established).2
    = STATUS_WAITING_FOR_ACK
  ∧ status (receiveRequest library bare_ack None
              (reinvite_sendAnswer library offer_reinvite (Some "v=0") true
                                   established).2).2
    = STATUS_CONFIRMED
  ∧ timeouts (receiveRequest library bare_ack None
                (reinvite_sendAnswer library offer_reinvite (Some "v=0")
                                     true established).2).2
    = timeouts (_handleSessionTimersInIncomingRequest library offer_reinvite
                  [contact_header (this established)] established).2.
Proof.
  assert (H1 : well_timed established) by constructor.
  assert (H2 : method bare_ack = ACK) by reflexivity.
  assert (H3 : _late_sdp (this established) = false) by reflexivity.
  destruct (reinvite_answered_and_acknowledged library offer_reinvite
              bare_ack (Some "v=0") established H1 H2 (or_introl H3))
    as (_ & Hst1 & _ & _ & _ & Hst2 & Ht).
  split; [exact H1|]. split; [exact H2|]. split; [exact H3|].
  split; [exact Hst1|]. split; [exact Hst2 | exact Ht].
Defined.

(** ** renegotiate, when it goes ahead *)

(** X28. [renegotiate] returns true exactly when the status is
    WAITING_FOR_ACK or CONFIRMED and the session is ready to re-offer.  It
    then sends nothing and emits nothing by itself: one continuation is
    queued on the peer connection, for an UPDATE when the options ask for
    one and for a re-INVITE otherwise, with the [failed] handler that
    terminates the session; its headers begin with those of the options and
    Contact, and Content-Type is among them. *)
Theorem renegotiate_goes_ahead (options : RenegotiateOptions) (done : bool)
    (w : World) :
  ((∃ w', renegotiate options done w = (Normal true, w'))
   ↔ (status w = STATUS_WAITING_FOR_ACK ∨ status w = STATUS_CONFIRMED)
     ∧ eligible (this w))
  ∧ (∀ w', renegotiate options done w = (Normal true, w') →
       ∃ headers,
         w' = with_this
                (λ s, set_connectionPromiseQueue
                        (_connectionPromiseQueue s
                         ++ [(if ro_useUpdate options
                              then sendUpdate_createOffer
                              else sendReinvite_createOffer)
                               headers
                               (or_constraints
                                  (ro_rtcOfferConstraints options)
                                  (_rtcOfferConstraints (this w)))
                               (renegotiate_eventHandlers done)]) s) w
         ∧ (ro_extraHeaders options ++ [contact_header (this w)])
             `prefix_of` headers
         ∧ "Content-Type: application/sdp" ∈ headers).
Proof.
  split.
  - split.
    + intros [w' H]. apply renegotiate_true in H as [Hst Hready].
      split; [done|]. by apply _isReadyToReOffer_eligible.
    + intros [Hst Hready]. apply _isReadyToReOffer_eligible in Hready.
      unfold renegotiate, _sendUpdate, _sendReinvite, status in *. run_M.
      rewrite bool_decide_eq_false_2
        by (intros [? ?]; destruct Hst; congruence).
      rewrite Hready. simpl. destruct (ro_useUpdate options); by eexists.
  - intros w' H.
    pose proof (renegotiate_true _ _ _ _ H) as [Hst Hready].
    revert H. unfold renegotiate, _sendUpdate, _sendReinvite. run_M.
    rewrite bool_decide_eq_false_2
      by (intros [? ?]; destruct Hst; congruence).
    rewrite Hready. simpl.
    destruct (ro_useUpdate options); intros H; injection H as <-.
    + eexists. split; [reflexivity|]. split; [|set_solver].
      rewrite <- app_assoc. apply prefix_app, prefix_cons, prefix_nil.
    + eexists. split; [reflexivity|]. split; [|set_solver].
      apply prefix_app, prefix_cons, prefix_nil.
Qed.

Lemma renegotiate_goes_ahead_witness :
  (status established = STATUS_WAITING_FOR_ACK
   ∨ status established = STATUS_CONFIRMED)
  ∧ eligible (this established)
  ∧ renegotiate update_options false established
    = (Normal true,
       with_this
         (set_connectionPromiseQueue
            [sendUpdate_createOffer
               ["X-Reason: hold";
                "Contact: <sip:alice@192.0.2.1;transport=ws>";
                "Content-Type: application/sdp"]
               None (renegotiate_eventHandlers false)])
         established).
Proof.
  assert (H1 : status established = STATUS_WAITING_FOR_ACK
               ∨ status established = STATUS_CONFIRMED)
    by (right; reflexivity).
  assert (H2 : eligible (this established)).
  { split; [reflexivity|]. exists idle_dialog. by repeat split. }
  destruct (renegotiate_goes_ahead update_options false established)
    as [[_ Hgo] _].
  destruct (Hgo (conj H1 H2)) as [w' Hw'].
  split; [exact H1|]. split; [exact H2|]. reflexivity.
Defined.

(** ** Properties that every computation keeps *)

Section Preserves.

Context (P : World → Prop).

Lemma preserves_ret {A} (a : A) : preserves P (ret a).
Proof. by intros w. Qed.

Lemma preserves_throw {A} e : preserves P (@throw A e).
Proof. by intros w. Qed.

Lemma preserves_get_this : preserves P get_this.
Proof. by intros w. Qed.

Lemma preserves_new_Date : preserves P new_Date.
Proof. by intros w. Qed.

Lemma preserves_bind {A B} (m : M A) (k : A → M B) :
  preserves P m → (∀ a, preserves P (k a)) → preserves P (bind m k).
Proof.
  intros Hm Hk w H. unfold bind. specialize (Hm w H).
  destruct (m w) as [[a|e] w1]; simpl in *; [by apply Hk | done].
Qed.

Lemma preserves_catch {A} (m : M A) h :
  preserves P m → (∀ e, preserves P (h e)) → preserves P (catch m h).
Proof.
  intros Hm Hh w H. unfold catch. specialize (Hm w H).
  destruct (m w) as [[a|e] w1]; simpl in *; [done | by apply Hh].
Qed.

Lemma preserves_when b m : preserves P m → preserves P (when b m).
Proof. destruct b; [done|]. intros _. apply preserves_ret. Qed.

Lemma preserves_for_each {A} (f : A → M unit) l :
  (∀ a, preserves P (f a)) → preserves P (for_each f l).
Proof.
  intros Hf. induction l as [|a l IH]; simpl.
  - apply preserves_ret.
  - apply preserves_bind; [apply Hf | intros _; apply IH].
Qed.

End Preserves.

(** *** The timers *)

Lemma timers_ok_same {A} (m : M A) :
  (∀ w, timeouts (m w).2 = timeouts w
        ∧ next_timeout (m w).2 = next_timeout w) →
  preserves timers_ok m.
Proof.
  intros H w [Hwt Hnd]. destruct (H w) as [Ht Hn].
  unfold timers_ok, well_timed, pending_handles. by rewrite Ht, Hn.
Qed.

Lemma timers_ok_assign f : preserves timers_ok (assign f).
Proof. by apply timers_ok_same. Qed.

Lemma timers_ok_do e : preserves timers_ok (do e).
Proof. by apply timers_ok_same. Qed.

Lemma timers_ok_then_ k : preserves timers_ok (then_ k).
Proof. by apply timers_ok_same. Qed.

Lemma timers_ok_queue_then k : preserves timers_ok (queue_then k).
Proof. by apply timers_ok_same. Qed.

Lemma timers_ok_setTimeout cb d : preserves timers_ok (setTimeout cb d).
Proof.
  intros w [Hwt Hnd]. unfold timers_ok, well_timed, pending_handles in *.
  simpl. split.
  - apply Forall_app. split; [|apply Forall_singleton; simpl; lia].
    eapply Forall_impl; [exact Hwt|]. simpl. intros x ?. lia.
  - rewrite fmap_app. apply NoDup_app. split; [done|]. split.
    + intros h ([h' x] & -> & Hin)%list_elem_of_fmap.
      rewrite Forall_forall in Hwt. specialize (Hwt _ Hin). simpl in *.
      intros ->%list_elem_of_singleton. lia.
    + apply NoDup_singleton.
Qed.

Lemma timers_ok_cleared handle (w : World) :
  timers_ok w →
  timers_ok (with_timeouts (cleared handle (timeouts w)) (next_timeout w) w).
Proof.
  intros [Hwt Hnd]. destruct handle as [h|]; [|done].
  unfold timers_ok, well_timed, pending_handles in *. simpl. split.
  - rewrite Forall_forall in *. intros x [_ Hx]%list_elem_of_filter.
    by apply Hwt.
  - eapply sublist_NoDup; [exact Hnd|].
    apply fmap_sublist, sublist_filter.
Qed.

Lemma timers_ok_clearTimeout handle :
  preserves timers_ok (clearTimeout handle).
Proof. intros w. apply timers_ok_cleared. Qed.

Create HintDb timers discriminated.
#[local] Hint Resolve preserves_ret preserves_throw preserves_get_this
  preserves_new_Date timers_ok_assign timers_ok_do timers_ok_then_
  timers_ok_queue_then timers_ok_setTimeout timers_ok_clearTimeout : timers.

Ltac timers_step :=
  lazymatch goal with
  | |- preserves _ (bind _ _) => apply preserves_bind; [|intros ?]
  | |- preserves _ (catch _ _) => apply preserves_catch; [|intros ?]
  | |- preserves _ (when _ _) => apply preserves_when
  | |- preserves _ (for_each _ _) => apply preserves_for_each; intros ?
  | |- preserves _ (if ?b then _ else _) => destruct b
  | |- preserves _ (match ?x with _ => _ end) => destruct x
  | |- preserves _ _ => solve [auto with timers]
  end.

Ltac timers_auto := repeat timers_step.

Lemma timers_ok__close : preserves timers_ok _close.
Proof. unfold _close, terminate_early_dialog. timers_auto. Qed.

#[local] Hint Resolve timers_ok__close : timers.

Lemma timers_ok_terminate (X : Externals) options :
  preserves timers_ok (terminate X options).
Proof.
  unfold terminate, _failed, _ended, sendRequest, request_cancel.
  timers_auto.
Qed.

#[local] Hint Resolve timers_ok_terminate : timers.

Lemma timers_ok__runSessionTimer : preserves timers_ok _runSessionTimer.
Proof. unfold _runSessionTimer. timers_auto. Qed.

#[local] Hint Resolve timers_ok__runSessionTimer : timers.

Lemma timers_ok_receiveRequest (X : Externals) request listener :
  preserves timers_ok (receiveRequest X request listener).
Proof.
  unfold receiveRequest, _receiveReinvite, _receiveUpdate, reject,
    _processInDialogSdpOffer, update_sendAnswer,
    _handleSessionTimersInIncomingRequest, request_reply, _failed, _ended,
    _confirmed.
  timers_auto.
Qed.

Lemma timers_ok__receiveInviteResponse (X : Externals) response :
  preserves timers_ok (_receiveInviteResponse X response).
Proof.
  unfold _receiveInviteResponse, _acceptAndTerminate, _createDialog,
    sendRequest, request_cancel, _failed, _progress.
  timers_auto.
Qed.

Lemma timers_ok_connect (X : Externals) target sdp options init :
  preserves timers_ok (connect X target sdp options init).
Proof.
  unfold connect, _newRTCSession, _sendInitialRequest. timers_auto.
Qed.

Lemma timers_ok_sendDTMF (X : Externals) tones options :
  preserves timers_ok (sendDTMF X tones options).
Proof. unfold sendDTMF, _sendDTMF_run. timers_auto. Qed.

Lemma timers_ok_run_timeout (X : Externals) cb :
  preserves timers_ok (run_timeout X cb).
Proof.
  destruct cb; simpl;
    unfold invite2xxRetransmission_run, arm_invite2xxTimer,
      ackTimerExpired_run, sessionRefresh_run, sessionExpired_run,
      _sendDTMF_run, _sendUpdate, _sendReinvite, sendRequest, _ended;
    timers_auto.
Qed.

Lemma timers_ok_fire (X : Externals) h : preserves timers_ok (fire X h).
Proof.
  intros w H. unfold fire.
  destruct (list_find _ _) as [[? [? [? cb]]]|]; [|done].
  by apply timers_ok_run_timeout, timers_ok_cleared.
Qed.

Lemma timers_ok_initialRequest_connecting sdp :
  preserves timers_ok (initialRequest_connecting_run sdp).
Proof.
  unfold initialRequest_connecting_run, initialRequest_catch, _connecting.
  timers_auto.
Qed.

Lemma timers_ok_initialRequest_sending sdp :
  preserves timers_ok (initialRequest_sending_run sdp).
Proof.
  unfold initialRequest_sending_run, initialRequest_catch. timers_auto.
Qed.

Lemma timers_ok_run_next_tick : preserves timers_ok run_next_tick.
Proof.
  intros w H. unfold run_next_tick.
  destruct (promises w) as [|[] rest]; try done.
  - apply timers_ok_initialRequest_connecting. exact H.
  - apply timers_ok_initialRequest_sending. exact H.
Qed.

Lemma timers_ok_step (X : Externals) (i : Input) :
  preserves timers_ok (step X i).
Proof.
  destruct i; simpl.
  - apply timers_ok_connect.
  - apply timers_ok_terminate.
  - apply timers_ok_sendDTMF.
  - unfold sendInfo. timers_auto.
  - unfold renegotiate, _sendUpdate, _sendReinvite, sendRequest.
    timers_auto.
  - unfold sendRequest. timers_auto.
  - apply timers_ok_receiveRequest.
  - apply timers_ok__receiveInviteResponse.
  - unfold onTransportError. timers_auto.
  - unfold onRequestTimeout. timers_auto.
  - unfold onDialogError. timers_auto.
  - apply timers_ok_fire.
  - unfold dtmf_onFailed. timers_auto.
  - apply timers_ok_run_next_tick.
Qed.

Lemma timers_ok_continuations (X : Externals) :
  (∀ request desc sent,
     preserves timers_ok (reinvite_sendAnswer X request desc sent))
  ∧ (∀ request desc, preserves timers_ok (update_sendAnswer X request desc))
  ∧ (∀ response stable offer_error applied,
       preserves timers_ok
         (accept_answer_run X response stable offer_error applied))
  ∧ (∀ request applied,
       preserves timers_ok (ack_setRemoteDescription_run X request applied)).
Proof.
  split; [|split; [|split]]; intros.
  - unfold reinvite_sendAnswer, _handleSessionTimersInIncomingRequest,
      _setInvite2xxTimer, arm_invite2xxTimer, _setACKTimer.
    timers_auto.
  - unfold update_sendAnswer, _handleSessionTimersInIncomingRequest.
    timers_auto.
  - unfold accept_answer_run, accept_createOffer_run,
      accept_setRemoteDescription_run,
      _handleSessionTimersInIncomingResponse, _acceptAndTerminate,
      _createDialog, sendRequest, _failed, _accepted, _confirmed.
    timers_auto.
  - unfold ack_setRemoteDescription_run, _confirmed. timers_auto.
Qed.

(** *** The session timer *)

Lemma kept_same {A} (m : M A) :
  (∀ w, timeouts (m w).2 = timeouts w
        ∧ timer (_sessionTimers (this (m w).2))
          = timer (_sessionTimers (this w))) →
  preserves session_timer_kept m.
Proof.
  intros H w Hw. destruct (H w) as [Ht Hs].
  unfold session_timer_kept. by rewrite Ht, Hs.
Qed.

Lemma kept_assign f :
  (∀ s, timer (_sessionTimers (f s)) = timer (_sessionTimers s)) →
  preserves session_timer_kept (assign f).
Proof. intros H. apply kept_same. intros w. split; [done|]. apply H. Qed.

Lemma kept_do e : preserves session_timer_kept (do e).
Proof. by apply kept_same. Qed.

Lemma kept_then_ k : preserves session_timer_kept (then_ k).
Proof. by apply kept_same. Qed.

Lemma kept_queue_then k : preserves session_timer_kept (queue_then k).
Proof. by apply kept_same. Qed.

(** A timer for another function joins the pending timers. *)
Lemma kept_setTimeout cb d :
  is_session_timer (0%nat, (d, cb)) = false →
  preserves session_timer_kept (setTimeout cb d).
Proof.
  intros Hcb w Hw. unfold session_timer_kept in *. simpl.
  apply Forall_app. split; [done|]. apply Forall_singleton.
  unfold is_session_timer in *. simpl in *. by rewrite Hcb.
Qed.

Lemma kept_cleared handle (w : World) :
  session_timer_kept w →
  session_timer_kept
    (with_timeouts (cleared handle (timeouts w)) (next_timeout w) w).
Proof.
  unfold session_timer_kept. rewrite !Forall_forall. simpl.
  intros H x Hx%cleared_subset. by apply H.
Qed.

Lemma kept_clearTimeout handle :
  preserves session_timer_kept (clearTimeout handle).
Proof. intros w. apply kept_cleared. Qed.

(** Once the handle that the session keeps is cleared, no session timer is
    pending. *)
Lemma kept_none_left (w : World) :
  session_timer_kept w →
  Forall (λ x, is_session_timer x = false)
         (cleared (timer (_sessionTimers (this w))) (timeouts w)).
Proof.
  unfold session_timer_kept. rewrite !Forall_forall. intros H x Hx.
  destruct (is_session_timer x) eqn:Hs; [|done]. exfalso.
  pose proof (H x (cleared_subset _ _ _ Hx) Hs) as Hh.
  rewrite Hh in Hx. by apply cleared_gone in Hx.
Qed.

(** [_runSessionTimer] clears the timer it has the handle of before it arms
    the next one, and keeps the handle of that. *)
Lemma kept__runSessionTimer : preserves session_timer_kept _runSessionTimer.
Proof.
  intros w Hw. pose proof (kept_none_left w Hw) as Hnone.
  unfold _runSessionTimer. run_M.
  destruct (refresher (_sessionTimers (this w)));
    unfold session_timer_kept; simpl;
    (apply Forall_app; split; [|by apply Forall_singleton]);
    (eapply Forall_impl; [exact Hnone|]); simpl; by intros x ->.
Qed.

Create HintDb kept discriminated.
#[local] Hint Resolve preserves_ret preserves_throw preserves_get_this
  preserves_new_Date kept_do kept_then_ kept_queue_then kept_clearTimeout
  kept__runSessionTimer : kept.

Ltac kept_step :=
  lazymatch goal with
  | |- preserves _ (bind _ _) => apply preserves_bind; [|intros ?]
  | |- preserves _ (catch _ _) => apply preserves_catch; [|intros ?]
  | |- preserves _ (when _ _) => apply preserves_when
  | |- preserves _ (for_each _ _) => apply preserves_for_each; intros ?
  | |- preserves _ (assign _) => apply kept_assign; intros ?; reflexivity
  | |- preserves _ (setTimeout _ _) => apply kept_setTimeout; reflexivity
  | |- preserves _ (if ?b then _ else _) => destruct b
  | |- preserves _ (match ?x with _ => _ end) => destruct x
  | |- preserves _ _ => solve [auto with kept]
  end.

Ltac kept_auto := repeat kept_step.

Lemma kept__close : preserves session_timer_kept _close.
Proof. unfold _close, terminate_early_dialog. kept_auto. Qed.

#[local] Hint Resolve kept__close : kept.

Lemma kept_terminate (X : Externals) options :
  preserves session_timer_kept (terminate X options).
Proof.
  unfold terminate, _failed, _ended, sendRequest, request_cancel.
  kept_auto.
Qed.

#[local] Hint Resolve kept_terminate : kept.

Lemma kept_receiveRequest (X : Externals) request listener :
  preserves session_timer_kept (receiveRequest X request listener).
Proof.
  unfold receiveRequest, _receiveReinvite, _receiveUpdate, reject,
    _processInDialogSdpOffer, update_sendAnswer,
    _handleSessionTimersInIncomingRequest, request_reply, _failed, _ended,
    _confirmed.
  kept_auto.
Qed.

Lemma kept__receiveInviteResponse (X : Externals) response :
  preserves session_timer_kept (_receiveInviteResponse X response).
Proof.
  unfold _receiveInviteResponse, _acceptAndTerminate, _createDialog,
    sendRequest, request_cancel, _failed, _progress.
  kept_auto.
Qed.

Lemma kept_connect (X : Externals) target sdp options init :
  preserves session_timer_kept (connect X target sdp options init).
Proof.
  unfold connect, _newRTCSession, _sendInitialRequest. kept_auto.
Qed.

Lemma kept_sendDTMF (X : Externals) tones options :
  preserves session_timer_kept (sendDTMF X tones options).
Proof. unfold sendDTMF, _sendDTMF_run. kept_auto. Qed.

Lemma kept_run_timeout (X : Externals) cb :
  preserves session_timer_kept (run_timeout X cb).
Proof.
  destruct cb; simpl;
    unfold invite2xxRetransmission_run, arm_invite2xxTimer,
      ackTimerExpired_run, sessionRefresh_run, sessionExpired_run,
      _sendDTMF_run, _sendUpdate, _sendReinvite, sendRequest, _ended;
    kept_auto.
Qed.

Lemma kept_fire (X : Externals) h : preserves session_timer_kept (fire X h).
Proof.
  intros w H. unfold fire.
  destruct (list_find _ _) as [[? [? [? cb]]]|]; [|done].
  by apply kept_run_timeout, kept_cleared.
Qed.

Lemma kept_run_next_tick : preserves session_timer_kept run_next_tick.
Proof.
  intros w H. unfold run_next_tick.
  destruct (promises w) as [|[] rest]; try done.
  - revert H.
    change (session_timer_kept w)
      with (session_timer_kept (with_promises rest w)).
    generalize (with_promises rest w).
    change (preserves session_timer_kept
              (initialRequest_connecting_run sdp)).
    unfold initialRequest_connecting_run, initialRequest_catch, _connecting.
    kept_auto.
  - revert H.
    change (session_timer_kept w)
      with (session_timer_kept (with_promises rest w)).
    generalize (with_promises rest w).
    change (preserves session_timer_kept (initialRequest_sending_run sdp)).
    unfold initialRequest_sending_run, initialRequest_catch.
    kept_auto.
Qed.

Lemma kept_step (X : Externals) (i : Input) :
  preserves session_timer_kept (step X i).
Proof.
  destruct i; simpl.
  - apply kept_connect.
  - apply kept_terminate.
  - apply kept_sendDTMF.
  - unfold sendInfo. kept_auto.
  - unfold renegotiate, _sendUpdate, _sendReinvite, sendRequest.
    kept_auto.
  - unfold sendRequest. kept_auto.
  - apply kept_receiveRequest.
  - apply kept__receiveInviteResponse.
  - unfold onTransportError. kept_auto.
  - unfold onRequestTimeout. kept_auto.
  - unfold onDialogError. kept_auto.
  - apply kept_fire.
  - unfold dtmf_onFailed. kept_auto.
  - apply kept_run_next_tick.
Qed.

Lemma kept_continuations (X : Externals) :
  (∀ request desc sent,
     preserves session_timer_kept (reinvite_sendAnswer X request desc sent))
  ∧ (∀ request desc,
       preserves session_timer_kept (update_sendAnswer X request desc))
  ∧ (∀ response stable offer_error applied,
       preserves session_timer_kept
         (accept_answer_run X response stable offer_error applied))
  ∧ (∀ request applied,
       preserves session_timer_kept
         (ack_setRemoteDescription_run X request applied)).
Proof.
  split; [|split; [|split]]; intros.
  - unfold reinvite_sendAnswer, _handleSessionTimersInIncomingRequest,
      _setInvite2xxTimer, arm_invite2xxTimer, _setACKTimer.
    kept_auto.
  - unfold update_sendAnswer, _handleSessionTimersInIncomingRequest.
    kept_auto.
  - unfold accept_answer_run, accept_createOffer_run,
      accept_setRemoteDescription_run,
      _handleSessionTimersInIncomingResponse, _acceptAndTerminate,
      _createDialog, sendRequest, _failed, _accepted, _confirmed.
    kept_auto.
  - unfold ack_setRemoteDescription_run, _confirmed. kept_auto.
Qed.

Lemma one_session_timer_step (X : Externals) (i : Input) :
  preserves one_session_timer (step X i).
Proof.
  intros w [H1 H2]. split; [by apply timers_ok_step | by apply kept_step].
Qed.

(** Distinct handles, one handle for every session timer: one session timer
    at most. *)
Lemma one_session_timer_pending (w : World) :
  one_session_timer w → (length (pending_session_timers w) ≤ 1)%nat.
Proof.
  intros [[_ Hnd] Hk]. unfold pending_session_timers, pending_handles in *.
  assert (Hnd' : NoDup
            ((filter (λ x, is_session_timer x = true) (timeouts w)).*1))
    by (eapply sublist_NoDup; [exact Hnd|];
        apply fmap_sublist, sublist_filter).
  assert (Hall : Forall (λ x, is_session_timer x = true
                              ∧ timer (_sessionTimers (this w)) = Some x.1)
                   (filter (λ x, is_session_timer x = true) (timeouts w))).
  { unfold session_timer_kept in Hk. rewrite Forall_forall in *.
    intros x [Hs Hx]%list_elem_of_filter. split; [done|]. by apply Hk. }
  destruct (filter _ (timeouts w)) as [|x [|y l]]; simpl; [lia|lia|].
  exfalso. apply Forall_cons in Hall as [[_ Hx] Hall].
  apply Forall_cons in Hall as [[_ Hy] _].
  rewrite Hx in Hy. injection Hy as Hy.
  simpl in Hnd'. apply NoDup_cons in Hnd' as [Hnin _].
  apply Hnin. rewrite Hy. by left.
Qed.

Lemma filter_none {A} (f : A → bool) (l : list A) :
  Forall (λ x, f x = false) l → filter (λ x, f x = true) l = [].
Proof.
  induction 1 as [|x l Hx _ IH]; [done|].
  rewrite filter_cons, decide_False by (rewrite Hx; discriminate). exact IH.
Qed.

(** [_close] leaves no session timer pending. *)
Lemma one_session_timer_closed (w : World) :
  one_session_timer w → status w ≠ STATUS_TERMINATED →
  pending_session_timers (_close w).2 = [].
Proof.
  intros [_ Hk] Hst. rewrite _close_closed by done.
  unfold pending_session_timers. simpl.
  apply filter_none. rewrite Forall_forall. intros x Hx.
  destruct (is_session_timer x) eqn:Hs; [|done]. exfalso.
  pose proof Hx as Hin. do 5 apply cleared_subset in Hin.
  unfold session_timer_kept in Hk. rewrite Forall_forall in Hk.
  rewrite (Hk x Hin Hs) in Hx. by apply cleared_gone in Hx.
Qed.

(** X29. A session never has two session timers.  Whatever happens to a
    session from its creation on (calls of the public API, requests,
    responses, errors of the transaction layer, expiries and continuations,
    in any order and whether they throw or not), the pending timers have
    distinct handles and every pending refresh or watchdog of the session
    timer is the one whose handle the session keeps: [_runSessionTimer]
    clears the timer it knows before it arms the next and notes the new
    handle.  So at most one session timer is pending, a refresh by the peer
    replaces the watchdog instead of adding one, and [_close] on a session
    that is not terminated leaves no session timer behind. *)
Theorem session_timer_is_kept (X : Externals) (inputs : list Input)
    (now : Z) :
  one_session_timer (run X inputs (new_world X now))
  ∧ (∀ w i, one_session_timer w → one_session_timer (step X i w).2)
  ∧ (∀ w, one_session_timer w →
       (∀ request desc sent,
          one_session_timer (reinvite_sendAnswer X request desc sent w).2)
       ∧ (∀ request desc,
            one_session_timer (update_sendAnswer X request desc w).2)
       ∧ (∀ response stable offer_error applied,
            one_session_timer
              (accept_answer_run X response stable offer_error applied w).2)
       ∧ (∀ request applied,
            one_session_timer
              (ack_setRemoteDescription_run X request applied w).2))
  ∧ (∀ w, one_session_timer w →
          (length (pending_session_timers w) ≤ 1)%nat)
  ∧ (∀ w, one_session_timer w → status w ≠ STATUS_TERMINATED →
          pending_session_timers (_close w).2 = []).
Proof.
  split; [|split; [|split; [|split]]].
  - assert (H : one_session_timer (new_world X now))
      by (split; [split|]; constructor).
    revert H. generalize (new_world X now).
    induction inputs as [|i inputs IH]; intros w H; simpl; [done|].
    by apply IH, one_session_timer_step.
  - intros w i. apply one_session_timer_step.
  - intros w [H1 H2].
    destruct (timers_ok_continuations X) as (T1 & T2 & T3 & T4).
    destruct (kept_continuations X) as (K1 & K2 & K3 & K4).
    split; [|split; [|split]]; intros; split;
      first [by apply T1 | by apply T2 | by apply T3 | by apply T4
            | by apply K1 | by apply K2 | by apply K3 | by apply K4].
  - apply one_session_timer_pending.
  - apply one_session_timer_closed.
Qed.

Lemma session_timer_is_kept_witness :
  one_session_timer (run library two_refreshes (new_world library 0))
  ∧ status (run library two_refreshes (new_world library 0))
    = STATUS_CONFIRMED
  ∧ timeouts (run library two_refreshes (new_world library 0))
    = [(1%nat, (45000, sessionRefresh))]
  ∧ (length (pending_session_timers
               (run library two_refreshes (new_world library 0))) ≤ 1)%nat
  ∧ pending_session_timers
      (_close (run library two_refreshes (new_world library 0))).2 = [].
Proof.
  destruct (session_timer_is_kept library two_refreshes 0)
    as (H & _ & _ & Hone & Hclosed).
  split; [exact H|]. split; [vm_compute; reflexivity|].
  split; [vm_compute; reflexivity|]. split; [exact (Hone _ H)|].
  apply (Hclosed _ H). vm_compute. discriminate.
Defined.

(** *** The status CANCELED *)

Lemma not_canceled_same {A} (m : M A) :
  (∀ w, status (m w).2 = status w) → preserves not_canceled m.
Proof. intros H w Hw. unfold not_canceled. by rewrite H. Qed.

Lemma not_canceled_assign f :
  (∀ s, _status s ≠ STATUS_CANCELED → _status (f s) ≠ STATUS_CANCELED) →
  preserves not_canceled (assign f).
Proof. intros H w Hw. by apply H. Qed.

Lemma not_canceled_do e : preserves not_canceled (do e).
Proof. by apply not_canceled_same. Qed.

Lemma not_canceled_then_ k : preserves not_canceled (then_ k).
Proof. by apply not_canceled_same. Qed.

Lemma not_canceled_queue_then k : preserves not_canceled (queue_then k).
Proof. by apply not_canceled_same. Qed.

Lemma not_canceled_setTimeout cb d :
  preserves not_canceled (setTimeout cb d).
Proof. by apply not_canceled_same. Qed.

Lemma not_canceled_clearTimeout h : preserves not_canceled (clearTimeout h).
Proof. by apply not_canceled_same. Qed.

(** [terminate] leaves the status as it is or TERMINATED. *)
Lemma terminate_status (X : Externals) (options : TerminateOptions)
    (w : World) :
  status (terminate X options w).2 = status w
  ∨ status (terminate X options w).2 = STATUS_TERMINATED.
Proof.
  unfold terminate. run_M. case_decide; [by left|].
  destruct (_status (this w)) eqn:Hst; simpl; try (by left);
    destruct (invalid_status_code _); try (by left);
    try (right; apply _failed_status).
  - destruct (request_cancel _ w) as [[[]|e] w1] eqn:E; simpl.
    + right. apply _failed_status.
    + left. by rewrite (failure_atomic_request_cancel _ _ _ _ E).
  - destruct (sendRequest _ _ _ _ w) as [[[]|e] w1] eqn:E; simpl.
    + right. apply _ended_status.
    + left. by rewrite (failure_atomic_sendRequest _ _ _ _ _ _ _ E).
  - destruct (sendRequest _ _ _ _ w) as [[[]|e] w1] eqn:E; simpl.
    + right. apply _ended_status.
    + left. by rewrite (failure_atomic_sendRequest _ _ _ _ _ _ _ E).
Qed.

Lemma not_canceled_terminate (X : Externals) options :
  preserves not_canceled (terminate X options).
Proof.
  intros w Hw. unfold not_canceled in *.
  destruct (terminate_status X options w) as [-> | ->]; [done|discriminate].
Qed.

Create HintDb canceled discriminated.
#[local] Hint Resolve preserves_ret preserves_throw preserves_get_this
  preserves_new_Date not_canceled_do not_canceled_then_
  not_canceled_queue_then not_canceled_setTimeout not_canceled_clearTimeout
  not_canceled_terminate : canceled.

Ltac canceled_step :=
  lazymatch goal with
  | |- preserves _ (bind _ _) => apply preserves_bind; [|intros ?]
  | |- preserves _ (catch _ _) => apply preserves_catch; [|intros ?]
  | |- preserves _ (when _ _) => apply preserves_when
  | |- preserves _ (for_each _ _) => apply preserves_for_each; intros ?
  | |- preserves _ (assign _) =>
      apply not_canceled_assign; intros ? ?; simpl;
      first [assumption | discriminate]
  | |- preserves _ (if ?b then _ else _) => destruct b
  | |- preserves _ (match ?x with _ => _ end) => destruct x
  | |- preserves _ _ => solve [auto with canceled]
  end.

Ltac canceled_auto := repeat canceled_step.

Lemma not_canceled__close : preserves not_canceled _close.
Proof. unfold _close, terminate_early_dialog. canceled_auto. Qed.

#[local] Hint Resolve not_canceled__close : canceled.

Lemma not_canceled__runSessionTimer : preserves not_canceled _runSessionTimer.
Proof. unfold _runSessionTimer. canceled_auto. Qed.

#[local] Hint Resolve not_canceled__runSessionTimer : canceled.

Lemma not_canceled__receiveInviteResponse (X : Externals) response :
  preserves not_canceled (_receiveInviteResponse X response).
Proof.
  unfold _receiveInviteResponse, _acceptAndTerminate, _createDialog,
    sendRequest, request_cancel, _failed, _progress.
  canceled_auto.
Qed.

Lemma not_canceled_connect (X : Externals) target sdp options init :
  preserves not_canceled (connect X target sdp options init).
Proof.
  unfold connect, _newRTCSession, _sendInitialRequest. canceled_auto.
Qed.

Lemma not_canceled_sendDTMF (X : Externals) tones options :
  preserves not_canceled (sendDTMF X tones options).
Proof. unfold sendDTMF, _sendDTMF_run. canceled_auto. Qed.

Lemma not_canceled_run_timeout (X : Externals) cb :
  preserves not_canceled (run_timeout X cb).
Proof.
  destruct cb; simpl;
    unfold invite2xxRetransmission_run, arm_invite2xxTimer,
      ackTimerExpired_run, sessionRefresh_run, sessionExpired_run,
      _sendDTMF_run, _sendUpdate, _sendReinvite, sendRequest, _ended;
    canceled_auto.
Qed.

Lemma not_canceled_fire (X : Externals) h :
  preserves not_canceled (fire X h).
Proof.
  intros w H. unfold fire.
  destruct (list_find _ _) as [[? [? [? cb]]]|]; [|done].
  by apply not_canceled_run_timeout.
Qed.

Lemma not_canceled_run_next_tick : preserves not_canceled run_next_tick.
Proof.
  intros w H. unfold run_next_tick.
  destruct (promises w) as [|[] rest]; try done.
  - revert H. change (not_canceled w) with (not_canceled (with_promises rest w)).
    generalize (with_promises rest w).
    change (preserves not_canceled (initialRequest_connecting_run sdp)).
    unfold initialRequest_connecting_run, initialRequest_catch, _connecting.
    canceled_auto.
  - revert H. change (not_canceled w) with (not_canceled (with_promises rest w)).
    generalize (with_promises rest w).
    change (preserves not_canceled (initialRequest_sending_run sdp)).
    unfold initialRequest_sending_run, initialRequest_catch.
    canceled_auto.
Qed.

(** Every request but a CANCEL. *)
Lemma not_canceled_receiveRequest (X : Externals) request listener :
  method request ≠ CANCEL →
  preserves not_canceled (receiveRequest X request listener).
Proof.
  intros Hm.
  unfold receiveRequest, _receiveReinvite, _receiveUpdate, reject,
    _processInDialogSdpOffer, update_sendAnswer,
    _handleSessionTimersInIncomingRequest, _ended, _confirmed.
  apply preserves_bind; [auto with canceled|]. intros s.
  destruct (method request); [done| | | | | |]; canceled_auto.
Qed.

(** A CANCEL that is taken and answered. *)
Lemma not_canceled_cancel (X : Externals) request listener (w : World) :
  method request = CANCEL →
  not_canceled w →
  (receiveRequest X request listener w).1 = Normal tt →
  not_canceled (receiveRequest X request listener w).2.
Proof.
  intros Hm Hw. unfold receiveRequest, request_reply, not_canceled.
  rewrite Hm. run_M. case_bool_decide; [|done]. simpl.
  destruct (_request (this w)) as [[r|r]|]; try discriminate.
  intros _.
  match goal with
  | |- context [_failed ?o ?m ?c ?w'] =>
      pose proof (_failed_status o m c w') as Hf
  end.
  unfold status in *. rewrite Hf. discriminate.
Qed.

(** X30. CANCELED is never the status of a session between two events.
    When the status is not CANCELED and a call of the public API, a request,
    a response, an error of the transaction layer, an expiry or a
    continuation has been handled and has returned, the status is not
    CANCELED: wherever the code writes CANCELED it closes the session in the
    same turn, which writes TERMINATED. *)
Theorem canceled_is_transient (X : Externals) (i : Input) (w : World) :
  status w ≠ STATUS_CANCELED →
  (step X i w).1 = Normal tt →
  status (step X i w).2 ≠ STATUS_CANCELED.
Proof.
  intros Hw. change (not_canceled w) in Hw.
  change ((step X i w).1 = Normal tt → not_canceled (step X i w).2).
  destruct i as [target sdp options init | options | tones options
                | contentType content | options done
                | m extraHeaders content | request listener | response
                | | | | h | | ]; simpl; intros Hn.
  - by apply not_canceled_connect.
  - by apply not_canceled_terminate.
  - by apply not_canceled_sendDTMF.
  - assert (H : preserves not_canceled (sendInfo contentType content))
      by (unfold sendInfo; canceled_auto).
    by apply H.
  - assert (H : preserves not_canceled
                  (renegotiate options done;; ret tt))
      by (unfold renegotiate, _sendUpdate, _sendReinvite, sendRequest;
          canceled_auto).
    by apply H.
  - assert (H : preserves not_canceled
                  (sendRequest m extraHeaders content NoHandlers))
      by (unfold sendRequest; canceled_auto).
    by apply H.
  - destruct (decide (method request = CANCEL)) as [Hm|Hm].
    + by apply not_canceled_cancel.
    + by apply not_canceled_receiveRequest.
  - by apply not_canceled__receiveInviteResponse.
  - assert (H : preserves not_canceled (onTransportError X))
      by (unfold onTransportError; canceled_auto).
    by apply H.
  - assert (H : preserves not_canceled (onRequestTimeout X))
      by (unfold onRequestTimeout; canceled_auto).
    by apply H.
  - assert (H : preserves not_canceled (onDialogError X))
      by (unfold onDialogError; canceled_auto).
    by apply H.
  - by apply not_canceled_fire.
  - assert (H : preserves not_canceled dtmf_onFailed)
      by (unfold dtmf_onFailed; canceled_auto).
    by apply H.
  - by apply not_canceled_run_next_tick.
Qed.

Lemma canceled_is_transient_witness :
  status ringing ≠ STATUS_CANCELED
  ∧ (step library (request_received cancel_request None) ringing).1
    = Normal tt
  ∧ status (step library (request_received cancel_request None) ringing).2
    ≠ STATUS_CANCELED.
Proof.
  assert (H1 : status ringing ≠ STATUS_CANCELED) by discriminate.
  assert (H2 : (step library (request_received cancel_request None)
                     ringing).1 = Normal tt) by reflexivity.
  split; [exact H1|]. split; [exact H2|].
  exact (canceled_is_transient library _ ringing H1 H2).
Defined.
